(** * Real-Time Linguistic Bridge: the core pipeline of [frontend/script.js]

    A shallow embedding of the classes [IntentClassifier],
    [TranslationEngine], [PriceDiscoveryEngine], [NegotiationAssistant] and
    [ResponseGenerator], followed by the properties of the specification
    that concern them.

    Conventions of the embedding.
    - A JavaScript string is the list of its UTF-16 code units ([jsstring]).
    - A JavaScript number is kept as the rational that it denotes.  The
      price adjustment of a quote, the category defaults, the fallback
      estimate and the confidence of a guidance are computed with the
      operations of [Float64], which round every result to binary64 as
      IEEE 754 prescribes and know [NaN] and the infinities.  The other
      arithmetic of the program is carried out on exact rationals; what is
      stated about it are orderings and bounds.
    - [String.prototype.toLowerCase] and the text of a built-in function
      are supplied by the host ([Host]); an instance that folds Basic
      Latin letters is used for evaluation on ASCII inputs.
    - [Math.random] is an explicit argument, the draw [u] with [0 <= u < 1].
    - An object used as a table is the association list of its own
      properties in [Object.keys] order.  [lookup] reads an own property;
      [get] reads a property as [table[key]] does, which also finds the
      members that every object inherits from [Object.prototype].
    - [try]/[catch]: a body that can throw returns [Exc]; the handler is the
      [catch] combinator.
    - Time stamps ([new Date().toISOString()]) and console output are left
      out of the records. *)

From Stdlib Require Import String Ascii.
From Stdlib Require Import List Bool NArith ZArith QArith Qabs Qround Qminmax Lia Lqa.
Import ListNotations.

Close Scope Q_scope.

(** ** Strings, numbers and exceptions of the host language *)

Module JS.

Definition char := N.
Bind Scope N_scope with char.
Definition jsstring := list char.

Definition lit (s : string) : jsstring :=
  map N_of_ascii (list_ascii_of_string s).
Arguments lit s%_string.

Definition char_eqb (a b : char) : bool := N.eqb a b.

Definition inRange (lo hi c : char) : bool := (N.leb lo c && N.leb c hi)%bool.

(** [\d], [\w] and [\s] of a regular expression without the [u] flag. *)
Definition isDigit (c : char) : bool := inRange 48 57 c.
Definition isLowerAZ (c : char) : bool := inRange 97 122 c.
Definition isUpperAZ (c : char) : bool := inRange 65 90 c.
Definition isWordChar (c : char) : bool :=
  (isLowerAZ c || isUpperAZ c || isDigit c || N.eqb c 95%N)%bool.
Definition isSpace (c : char) : bool :=
  (inRange 9 13 c || inRange 32 32 c || inRange 160 160 c
   || inRange 5760 5760 c || inRange 8192 8202 c || inRange 8232 8233 c
   || inRange 8239 8239 c || inRange 8287 8287 c || inRange 12288 12288 c
   || inRange 65279 65279 c)%bool.

(** Canonicalisation of a code unit under the [i] flag, exact for the
    patterns of this program (Basic Latin letters and the rupee sign). *)
Definition foldCase (c : char) : char :=
  if isLowerAZ c then (c - 32)%N else c.
Definition char_eqb_ci (a b : char) : bool := N.eqb (foldCase a) (foldCase b).

Definition lowerUnit (c : char) : char :=
  if isUpperAZ c then (c + 32)%N else c.

(** The host: its case mapping, and the text of its built-in functions.
    [String(f)] for a built-in function [f] has the form
    [function name() { [native code] }], where the host chooses the name
    that is shown and the white space; [nativeCode name] gives what stands
    before and what stands after the opening bracket for the function found
    under the property [name] of [Object.prototype]. *)
Class Host := {
  toLowerCase : jsstring -> jsstring;
  nativeCode : jsstring -> jsstring * jsstring
}.

(** *** String operations *)

Fixpoint str_eqb (a b : jsstring) : bool :=
  match a, b with
  | [], [] => true
  | x :: a', y :: b' => (char_eqb x y && str_eqb a' b')%bool
  | _, _ => false
  end.

(** [startsWithBy eq p s]: [p] is a prefix of [s], code units compared
    with [eq]. *)
Fixpoint startsWithBy (eq : char -> char -> bool) (p s : jsstring) : bool :=
  match p, s with
  | [], _ => true
  | x :: p', y :: s' => (eq x y && startsWithBy eq p' s')%bool
  | _ :: _, [] => false
  end.

Definition startsWith := startsWithBy char_eqb.
Definition startsWith_ci := startsWithBy char_eqb_ci.

(** [String.prototype.includes]. *)
Fixpoint includes (s sub : jsstring) : bool :=
  (startsWith sub s ||
   match s with
   | [] => false
   | _ :: s' => includes s' sub
   end)%bool.

Definition dropWhile {A} (p : A -> bool) : list A -> list A :=
  fix go l := match l with
              | [] => []
              | x :: l' => if p x then go l' else l
              end.

(** [String.prototype.trim]. *)
Definition trimStart (s : jsstring) : jsstring := dropWhile isSpace s.
Definition trimEnd (s : jsstring) : jsstring := rev (dropWhile isSpace (rev s)).
Definition trim (s : jsstring) : jsstring := trimEnd (trimStart s).

(** [s.replace(/\s+/g, ' ')]: every maximal run of white space becomes one
    space.  [inRun] records that the previous code unit was white space. *)
Fixpoint collapseFrom (inRun : bool) (s : jsstring) : jsstring :=
  match s with
  | [] => []
  | c :: s' =>
      if isSpace c
      then if inRun then collapseFrom true s' else 32%N :: collapseFrom true s'
      else c :: collapseFrom false s'
  end.
Definition collapseSpaces (s : jsstring) : jsstring := collapseFrom false s.

(** [String.prototype.substring(0, n)]. *)
Definition substring0 (n : nat) (s : jsstring) : jsstring := firstn n s.

(** [String.prototype.split(sep)] for a non-empty separator.  [skip] counts
    the code units of a separator still to be passed over, [cur] holds the
    current piece in reverse. *)
Fixpoint splitFrom (sep : jsstring) (skip : nat) (cur s : jsstring)
  : list jsstring :=
  match s with
  | [] => [rev cur]
  | c :: s' =>
      match skip with
      | S k => splitFrom sep k cur s'
      | O =>
          if startsWith sep s
          then rev cur :: splitFrom sep (pred (length sep)) [] s'
          else splitFrom sep 0 (c :: cur) s'
      end
  end.
Definition split (sep s : jsstring) : list jsstring := splitFrom sep 0 [] s.

(** [Array.prototype.join]. *)
Fixpoint join (sep : jsstring) (l : list jsstring) : jsstring :=
  match l with
  | [] => []
  | [x] => x
  | x :: l' => x ++ sep ++ join sep l'
  end.

(** Decimal rendering of an integer, as in [String(n)]. *)
Fixpoint digitsOf (fuel : nat) (n : N) (acc : jsstring) : jsstring :=
  match fuel with
  | O => acc
  | S f =>
      let acc' := (48 + N.modulo n 10)%N :: acc in
      if N.ltb n 10 then acc' else digitsOf f (N.div n 10) acc'
  end.
Definition N_toString (n : N) : jsstring :=
  digitsOf (S (N.to_nat (N.log2 n))) n [].
Definition Z_toString (z : Z) : jsstring :=
  match z with
  | Zneg p => 45%N :: N_toString (Npos p)
  | _ => N_toString (Z.to_N z)
  end.

(** *** Numbers *)

(** [Math.round]: the nearest integer, ties towards plus infinity. *)
Definition Math_round (x : Q) : Z := Qfloor (x + (1 # 2))%Q.

(** [x || d] for a possibly missing number: zero and [undefined] are falsy. *)
Definition orNum (x : option Q) (d : Q) : Q :=
  match x with
  | Some q => if Qeq_bool q 0%Q then d else q
  | None => d
  end.

(** [x || d] for a possibly missing string: the empty string is falsy. *)
Definition orStr (x : option jsstring) (d : jsstring) : jsstring :=
  match x with
  | Some ((_ :: _) as s) => s
  | _ => d
  end.

(** Truthiness of a string. *)
Definition truthy (s : jsstring) : bool :=
  match s with [] => false | _ => true end.

(** *** Exceptions *)

Inductive Exc (A : Type) : Type :=
| Ok (a : A)
| Throw (msg : jsstring).
Arguments Ok {A} a.
Arguments Throw {A} msg.

Definition bind {A B} (m : Exc A) (f : A -> Exc B) : Exc B :=
  match m with
  | Ok a => f a
  | Throw e => Throw e
  end.

(** [try { body } catch (error) { handler }]. *)
Definition catch {A} (body : Exc A) (handler : jsstring -> A) : A :=
  match body with
  | Ok a => a
  | Throw e => handler e
  end.

(** The own property [key] of a table. *)
Fixpoint lookup {V} (table : list (jsstring * V)) (key : jsstring) : option V :=
  match table with
  | [] => None
  | (k, v) :: t => if str_eqb k key then Some v else lookup t key
  end.

(** *** Properties inherited from [Object.prototype] *)

(** The names of the members of [Object.prototype]. *)
Definition objectPrototype : list jsstring :=
  map lit
    [ "constructor"; "hasOwnProperty"; "isPrototypeOf";
      "propertyIsEnumerable"; "toLocaleString"; "toString"; "valueOf";
      "__defineGetter__"; "__defineSetter__"; "__lookupGetter__";
      "__lookupSetter__"; "__proto__" ]%string.

Definition inherited (key : jsstring) : bool :=
  existsb (str_eqb key) objectPrototype.

(** What [table[key]] yields on an object literal: the own property, or
    the member of [Object.prototype] of that name (a function, or the
    prototype itself for [__proto__]), or [undefined]. *)
Inductive Slot (V : Type) : Type :=
| Own (v : V)
| Inherited (name : jsstring)
| Undefined.
Arguments Own {V} v.
Arguments Inherited {V} name.
Arguments Undefined {V}.

Definition get {V} (table : list (jsstring * V)) (key : jsstring) : Slot V :=
  match lookup table key with
  | Some v => Own v
  | None => if inherited key then Inherited key else Undefined
  end.

(** [table[key]] where the records of the table are read field by field:
    a member of [Object.prototype] is an object without any of the fields,
    [blank]. *)
Definition getRecord {V} (blank : V) (table : list (jsstring * V))
  (key : jsstring) : option V :=
  match get table key with
  | Own v => Some v
  | Inherited _ => Some blank
  | Undefined => None
  end.

(** A value that is used as a language tag: a string, or the member of
    [Object.prototype] that a table of language names has yielded for the
    name [name]. *)
Inductive Tag :=
| Str (s : jsstring)
| Member (name : jsstring).

Coercion Str : jsstring >-> Tag.

(** [a === b]: two members are the same object when their names agree. *)
Definition tag_eqb (a b : Tag) : bool :=
  match a, b with
  | Str s, Str t => str_eqb s t
  | Member m, Member n => str_eqb m n
  | _, _ => false
  end.

(** [table[key] || d] for a table of non-empty strings. *)
Definition orTag (x : Slot jsstring) (d : jsstring) : Tag :=
  match x with
  | Own ((_ :: _) as s) => Str s
  | Inherited name => Member name
  | _ => Str d
  end.

Section WithHost.
Context {host : Host}.

(** [String(Object.prototype[name])] *)
Definition memberText (name : jsstring) : jsstring :=
  if str_eqb name (lit "__proto__") then lit "[object Object]"
  else fst (nativeCode name) ++ 91%N :: snd (nativeCode name).

(** The property key that a tag stands for in [table[tag]]. *)
Definition keyText (tag : Tag) : jsstring :=
  match tag with
  | Str s => s
  | Member name => memberText name
  end.

End WithHost.

(** A host that maps the Basic Latin letters and writes a built-in
    function as V8 does. *)
Definition asciiHost : Host :=
  {| toLowerCase := map lowerUnit;
     nativeCode name :=
       (lit "function "
        ++ (if str_eqb name (lit "constructor") then lit "Object" else name)
        ++ lit "() { ",
        lit "native code] }") |}.

End JS.

(** ** Binary floating point

    The numbers of the language are the values of IEEE 754 binary64.  A
    finite one is kept as the rational that it is; negative zero is not
    told apart from zero. *)

Module Float64.

Inductive Number :=
| NaN
| Infinity (negative : bool)
| Fin (q : Q).

(** [2^e] *)
Definition pow2 (e : Z) : Q :=
  match e with
  | Z0 => 1%Q
  | Zpos p => inject_Z (2 ^ Zpos p)
  | Zneg p => (1 # (2 ^ p))%Q
  end.

(** The exponent of a positive rational: [2^e <= q < 2^(e+1)]. *)
Definition ilog2 (q : Q) : Z :=
  let e := (Z.log2 (Qnum q) - Z.log2 (Zpos (Qden q)))%Z in
  if Qle_bool (pow2 e) q then e else (e - 1)%Z.

(** The nearest integer, a tie going to the even one. *)
Definition roundEven (x : Q) : Z :=
  let f := Qfloor x in
  let r := (x - inject_Z f)%Q in
  if Qeq_bool r (1 # 2) then (if Z.even f then f else f + 1)%Z
  else if Qle_bool r (1 # 2) then f
  else (f + 1)%Z.

(** Rounding to nearest, ties to even, with a significand of 53 bits and
    the least exponent [-1022] (below it the spacing stays [2^-1074]). *)
Definition nearest (q : Q) : Q :=
  if Qeq_bool q 0 then 0%Q
  else
    let ulp := pow2 (Z.max (ilog2 (Qabs q)) (-1022) - 52) in
    Qred (inject_Z (roundEven (q / ulp)) * ulp)%Q.

Definition isNegative (q : Q) : bool := negb (Qle_bool 0 q).

(** The number that a rational rounds to: [2^1024] and beyond is an
    infinity.  This is also the value of a literal and of a number of a
    JSON text. *)
Definition number (q : Q) : Number :=
  let r := nearest q in
  if Qle_bool (pow2 1024) (Qabs r) then Infinity (isNegative r) else Fin r.

(** [a * b] *)
Definition mul (a b : Number) : Number :=
  match a, b with
  | NaN, _ | _, NaN => NaN
  | Fin x, Fin y => number (x * y)
  | Infinity s, Infinity t => Infinity (xorb s t)
  | Infinity s, Fin y | Fin y, Infinity s =>
      if Qeq_bool y 0 then NaN else Infinity (xorb s (isNegative y))
  end.

(** [a + b] *)
Definition add (a b : Number) : Number :=
  match a, b with
  | NaN, _ | _, NaN => NaN
  | Fin x, Fin y => number (x + y)
  | Infinity s, Infinity t => if Bool.eqb s t then Infinity s else NaN
  | Infinity s, Fin _ | Fin _, Infinity s => Infinity s
  end.

Definition opp (a : Number) : Number :=
  match a with
  | NaN => NaN
  | Infinity s => Infinity (negb s)
  | Fin x => Fin (- x)
  end.

(** [a - b] *)
Definition sub (a b : Number) : Number := add a (opp b).

(** [Math.round]: the nearest integer, ties towards plus infinity; [NaN]
    and the infinities pass through. *)
Definition round (a : Number) : Number :=
  match a with
  | Fin x => Fin (inject_Z (Qfloor (x + (1 # 2))))
  | _ => a
  end.

(** Arithmetic on [undefined] yields [NaN]. *)
Definition toNumber (x : option Number) : Number :=
  match x with
  | Some n => n
  | None => NaN
  end.

(** [!x] for a number: zero and [NaN] are falsy. *)
Definition falsy (x : Number) : bool :=
  match x with
  | NaN => true
  | Infinity _ => false
  | Fin q => Qeq_bool q 0
  end.

(** The operations on finite numbers whose results stay finite, as they do
    for the constants of the program. *)
Definition plus (x y : Q) : Q := nearest (nearest x + nearest y).
Definition minus (x y : Q) : Q := nearest (nearest x - nearest y).
Definition times (x y : Q) : Q := nearest (nearest x * nearest y).

(** [x > y] *)
Definition gtb (x y : Q) : bool := negb (Qle_bool (nearest x) (nearest y)).

End Float64.

Notation "x <- m ;; k" := (JS.bind m (fun x => k))
  (at level 61, m at next level, right associativity).

(** ** Price objects *)

Module PriceTypes.
Import JS.

Record Ranges := {
  minimum : Z;
  safe : Z;
  market : Z;
  premium : Z;
  recommended : Z
}.

Record Negotiation := {
  startAt : Z;
  acceptableRange : Z * Z;
  maxDiscount : Q;
  flexibility : jsstring
}.

(** The object returned by [generatePriceRange] and
    [generateFallbackPriceRange] (the [bulk] field is left out). *)
Record PriceRange := {
  pr_product : jsstring;
  pr_category : jsstring;
  basePrice : Z;
  pr_unit : jsstring;
  ranges : Ranges;
  negotiation : Negotiation;
  pr_confidence : Q;
  pr_source : jsstring
}.

End PriceTypes.

(** ** PriceDiscoveryEngine *)

Module PriceDiscoveryEngine.
Import JS Float64 PriceTypes.

(** An entry of [data.products] in [mock_data/prices.json], or the object
    that [getCategoryDefaults] builds; a field that the object lacks is
    [None]. *)
Record ProductData := {
  pd_category : option jsstring;
  pd_marketPrice : option Number;
  pd_minPrice : option Number;
  pd_maxPrice : option Number;
  pd_unit : option jsstring;
  pd_bulkThreshold : option Q;
  pd_bulkDiscount : option Q;
  pd_source : option jsstring;
  pd_confidence : option Q
}.

(** A member of [Object.prototype] read as product data: it has none of
    the fields. *)
Definition memberData : ProductData :=
  {| pd_category := None; pd_marketPrice := None; pd_minPrice := None;
     pd_maxPrice := None; pd_unit := None; pd_bulkThreshold := None;
     pd_bulkDiscount := None; pd_source := None; pd_confidence := None |}.

(** An entry of [data.categories]. *)
Record CategoryData := {
  averagePrice : option Q;
  defaultMargin : option Q;
  seasonalVariation : option Q;
  keywords : option (list jsstring)
}.

(** A member of [Object.prototype] read as category data. *)
Definition memberCategory : CategoryData :=
  {| averagePrice := None; defaultMargin := None; seasonalVariation := None;
     keywords := None |}.

(** The fields of the instance: [priceData], [categories],
    [negotiationRules.maxDiscount] and [isDataLoaded]. *)
Record Engine := {
  priceData : list (jsstring * ProductData);
  categories : list (jsstring * CategoryData);
  negotiationRules_maxDiscount : option Q;
  isDataLoaded : bool
}.

(** [constructor()] *)
Definition new : Engine :=
  {| priceData := []; categories := [];
     negotiationRules_maxDiscount := None; isDataLoaded := false |}.

(** The object parsed from [mock_data/prices.json]; a missing member is
    [None]. *)
Record PriceFile := {
  products : option (list (jsstring * ProductData));
  file_categories : option (list (jsstring * CategoryData));
  negotiationRules : option (option Q)
}.

Definition loadPriceData (this : Engine) (data : PriceFile) : Engine :=
  {| priceData := match products data with Some t => t | None => [] end;
     categories := match file_categories data with Some t => t | None => [] end;
     negotiationRules_maxDiscount :=
       match negotiationRules data with Some r => r | None => None end;
     isDataLoaded := true |}.

Record NegotiationRange := {
  absoluteMinimum : Z;
  safeMinimum : Z;
  nr_marketPrice : Z;
  premiumPrice : Z;
  recommendedStart : Z;
  nr_acceptableRange : Z * Z;
  nr_maxDiscount : Q
}.

(** The object returned by [getMarketPrice]; [product] is [None] when the
    normalised product name is [null].  The three prices are values of
    [Math.round].  [negotiationRange] is [None] for the range that is
    computed from a market price that is not a finite number: none of its
    prices is a finite number either. *)
Record Quote := {
  product : option jsstring;
  category : jsstring;
  marketPrice : Number;
  minPrice : Number;
  maxPrice : Number;
  unit : jsstring;
  bulkThreshold : Q;
  bulkDiscount : Q;
  negotiationRange : option NegotiationRange;
  confidence : Q;
  source : jsstring
}.

Section WithHost.
Context {host : Host}.

(** [s.replace(/s$/, '')] *)
Definition dropFinalS (s : jsstring) : jsstring :=
  match rev s with
  | c :: r => if N.eqb c 115 then rev r else s
  | [] => s
  end.

Definition normalizeProductName (product : jsstring) : option jsstring :=
  if (negb (truthy product) || str_eqb product (lit "unknown"))%bool
  then None
  else Some (trim (filter isLowerAZ (dropFinalS (toLowerCase product)))).

End WithHost.

(** The property key that [table[x]] uses for [x]: [null] becomes
    ["null"]. *)
Definition keyOf (x : option jsstring) : jsstring :=
  match x with
  | Some s => s
  | None => lit "null"
  end.

(** [this.categories[data.category].keywords || []], when [data.category]
    and [this.categories[data.category]] are truthy. *)
Definition categoryKeywordsOf (this : Engine) (data : ProductData)
  : option (list jsstring) :=
  match pd_category data with
  | Some ((_ :: _) as c) =>
      match getRecord memberCategory (categories this) c with
      | Some cd => Some (match keywords cd with Some ks => ks | None => [] end)
      | None => None
      end
  | _ => None
  end.

Definition findProductByFuzzyMatch (this : Engine)
  (searchProduct : option jsstring) : option ProductData :=
  match searchProduct with
  | None | Some [] => None
  | Some s =>
      let productNames := map fst (priceData this) in
      (* Try exact match first *)
      if existsb (str_eqb s) productNames then lookup (priceData this) s
      else
        (* Try partial matches *)
        match find (fun productName =>
                      (includes productName s || includes s productName)%bool)
                   productNames with
        | Some productName => lookup (priceData this) productName
        | None =>
            (* Try category-based matching *)
            match find (fun entry =>
                          match categoryKeywordsOf this (snd entry) with
                          | Some ks => existsb (str_eqb s) ks
                          | None => false
                          end)
                       (priceData this) with
            | Some entry => Some (snd entry)
            | None => None
            end
        end
  end.

Definition getCategoryDefaults (this : Engine) (category : jsstring)
  : option ProductData :=
  match getRecord memberCategory (categories this) category with
  | None => None
  | Some categoryData =>
      let basePrice := number (orNum (averagePrice categoryData) 50%Q) in
      let margin := number (orNum (defaultMargin categoryData) (15 # 100)%Q) in
      Some {| pd_category := Some category;
              pd_marketPrice := Some basePrice;
              pd_minPrice :=
                Some (round (mul basePrice (sub (number 1) margin)));
              pd_maxPrice :=
                Some (round (mul basePrice (add (number 1) margin)));
              pd_unit := Some (lit "kg");
              pd_bulkThreshold := Some 5%Q;
              pd_bulkDiscount := Some (5 # 100)%Q;
              pd_source := Some (lit "category_default");
              pd_confidence := Some (5 # 10)%Q |}
  end.

Definition calculateNegotiationRange (this : Engine) (basePrice : Q)
  : NegotiationRange :=
  let maxDiscount := orNum (negotiationRules_maxDiscount this) (15 # 100)%Q in
  let minMargin := (5 # 100)%Q in
  let absoluteMin := Math_round (basePrice * (1 - maxDiscount))%Q in
  let safeMin := Math_round (basePrice * (1 - maxDiscount + minMargin))%Q in
  let market := Math_round basePrice in
  let premium := Math_round (basePrice * (11 # 10))%Q in
  {| absoluteMinimum := absoluteMin;
     safeMinimum := safeMin;
     nr_marketPrice := market;
     premiumPrice := premium;
     recommendedStart := premium;
     nr_acceptableRange := (safeMin, premium);
     nr_maxDiscount := maxDiscount |}.

(** [calculateNegotiationRange(productData.marketPrice, category)] *)
Definition negotiationRangeOf (this : Engine) (productData : ProductData)
  : option NegotiationRange :=
  match pd_marketPrice productData with
  | Some (Fin basePrice) => Some (calculateNegotiationRange this basePrice)
  | _ => None
  end.

(** [categoryInfo.seasonalVariation || 0.1] with
    [categoryInfo = this.categories[category] || {}]. *)
Definition seasonalVariationOf (this : Engine) (category : jsstring) : Q :=
  match getRecord memberCategory (categories this) category with
  | Some categoryInfo => orNum (seasonalVariation categoryInfo) (1 # 10)%Q
  | None => (1 # 10)%Q
  end.

(** [1 + variation], where [u] is the value of [Math.random()]. *)
Definition variationFactor (seasonalVariation u : Q) : Number :=
  let variation :=
    mul (sub (number u) (number (1 # 2))) (number seasonalVariation) in
  add (number 1) variation.

Definition applyMarketVariations (this : Engine) (productData : ProductData)
  (category : jsstring) (u : Q) : Number * Number * Number :=
  let seasonalVariation := seasonalVariationOf this category in
  let factor := variationFactor seasonalVariation u in
  (round (mul (toNumber (pd_marketPrice productData)) factor),
   round (mul (toNumber (pd_minPrice productData)) factor),
   round (mul (toNumber (pd_maxPrice productData)) factor)).

(** The lookups at the head of [getMarketPrice]: direct lookup, fuzzy
    match, category defaults. *)
Definition resolveProductData (this : Engine)
  (normalizedProduct : option jsstring) (category : jsstring)
  : option ProductData :=
  let productData :=
    getRecord memberData (priceData this) (keyOf normalizedProduct) in
  let productData :=
    match productData with
    | Some d => Some d
    | None => findProductByFuzzyMatch this normalizedProduct
    end in
  match productData with
  | Some d => Some d
  | None =>
      if (truthy category && negb (str_eqb category (lit "general")))%bool
      then getCategoryDefaults this category
      else None
  end.

Section WithHost.
Context {host : Host}.

Definition getMarketPrice_try (this : Engine) (product category : jsstring)
  (u : Q) : Exc (option Quote) :=
  let normalizedProduct := normalizeProductName product in
  match resolveProductData this normalizedProduct category with
  | None => Ok None
  | Some productData =>
      let negotiationRange := negotiationRangeOf this productData in
      let '(adjMarket, adjMin, adjMax) :=
        applyMarketVariations this productData category u in
      Ok (Some
        {| product := normalizedProduct;
           category :=
             if truthy category then category
             else orStr (pd_category productData) (lit "general");
           marketPrice := adjMarket;
           minPrice := adjMin;
           maxPrice := adjMax;
           unit := orStr (pd_unit productData) (lit "kg");
           bulkThreshold := orNum (pd_bulkThreshold productData) 5%Q;
           bulkDiscount := orNum (pd_bulkDiscount productData) (5 # 100)%Q;
           negotiationRange := negotiationRange;
           confidence := orNum (pd_confidence productData) (8 # 10)%Q;
           source := orStr (pd_source productData) (lit "static_data") |})
  end.

Definition getMarketPrice (this : Engine) (product category : jsstring)
  (u : Q) : option Quote :=
  catch (getMarketPrice_try this product category u) (fun _ => None).

End WithHost.

(** The table [categoryDefaults] of [generateFallbackPriceRange]:
    [(base, min, max)] for each category. *)
Definition categoryDefaults : list (jsstring * (Z * Z * Z)) :=
  [ (lit "grains", (40, 35, 50)%Z);
    (lit "vegetables", (30, 25, 40)%Z);
    (lit "fruits", (80, 60, 100)%Z);
    (lit "dairy", (55, 45, 65)%Z);
    (lit "meat", (200, 180, 250)%Z);
    (lit "cooking", (100, 90, 120)%Z);
    (lit "general", (50, 40, 60)%Z) ].

(** The object of [generateFallbackPriceRange].  When [category] names a
    member of [Object.prototype], [defaults] is that member, its [base],
    [min] and [max] are [undefined], and every price of the object is
    [undefined] or [NaN]: [WithoutPrices]. *)
Inductive FallbackRange :=
| Estimated (r : PriceRange)
| WithoutPrices (product category : jsstring).

(** [Math.round(base * factor)] for a base of the table. *)
Definition roundTimes (base : Z) (factor : Q) : Z :=
  Math_round (times (inject_Z base) factor).

Definition generateFallbackPriceRange (product category : jsstring)
  : FallbackRange :=
  let estimate (defaults : Z * Z * Z) :=
    let '(base, min, max) := defaults in
    Estimated
      {| pr_product := orStr (Some product) (lit "unknown");
         pr_category := orStr (Some category) (lit "general");
         basePrice := base;
         pr_unit := lit "kg";
         ranges :=
           {| minimum := min;
              safe := roundTimes base (9 # 10);
              market := base;
              premium := roundTimes base (11 # 10);
              recommended := roundTimes base (11 # 10) |};
         negotiation :=
           {| startAt := roundTimes base (11 # 10);
              acceptableRange :=
                (roundTimes base (9 # 10), roundTimes base (11 # 10));
              maxDiscount := (15 # 100)%Q;
              flexibility := lit "moderate" |};
         pr_confidence := (3 # 10)%Q;
         pr_source := lit "fallback_estimate" |} in
  match get categoryDefaults category with
  | Own defaults => estimate defaults
  | Inherited _ =>
      WithoutPrices (orStr (Some product) (lit "unknown"))
                    (orStr (Some category) (lit "general"))
  | Undefined => estimate (50, 40, 60)%Z     (* categoryDefaults['general'] *)
  end.

End PriceDiscoveryEngine.

(** ** Data exchanged between the components *)

Module Data.
Import JS.
Export PriceTypes.

(** A value that a caller may pass where a string is expected. *)
Inductive Value :=
| VUndefined
| VNull
| VNumber (q : Q)
| VString (s : jsstring).

(** The keys of [intentPatterns] and of [scores], in declaration order. *)
Inductive IntentType := bargaining | bulk_purchase | casual_inquiry.

Definition IntentType_eqb (a b : IntentType) : bool :=
  match a, b with
  | bargaining, bargaining
  | bulk_purchase, bulk_purchase
  | casual_inquiry, casual_inquiry => true
  | _, _ => false
  end.

Definition typeName (t : IntentType) : jsstring :=
  match t with
  | bargaining => lit "bargaining"
  | bulk_purchase => lit "bulk_purchase"
  | casual_inquiry => lit "casual_inquiry"
  end.

Record Quantity := { amount : Z; q_unit : jsstring }.

Record Scores := {
  s_bargaining : Z;
  s_bulk_purchase : Z;
  s_casual_inquiry : Z
}.

(** The object returned by [classifyIntent].  [type] is [None] for
    [undefined]; [normalizedText], [scores] and [error] are present on one
    of the two return paths only. *)
Record ClassifiedIntent := {
  type : option IntentType;
  confidence : Q;
  keywords : list jsstring;
  product : jsstring;
  category : jsstring;
  quantity : option Quantity;
  language : Tag;
  originalText : Value;
  normalizedText : option jsstring;
  scores : option Scores;
  error : option jsstring
}.

(** The [priceData] argument of the later stages: the object of
    [getMarketPrice], which has no [ranges] and no [negotiation], or the
    object of [generatePriceRange]. *)
Inductive PriceInfo :=
| OfQuote (q : PriceDiscoveryEngine.Quote)
| OfRange (r : PriceRange).

Definition typeError : jsstring := lit "TypeError".

(** A method call on [text] throws when [text] is not a string. *)
Definition asString (v : Value) : Exc jsstring :=
  match v with
  | VString s => Ok s
  | _ => Throw typeError
  end.

(** [priceData.ranges.f]: reading a property of [undefined] throws. *)
Definition rangesOf (p : PriceInfo) : Exc Ranges :=
  match p with
  | OfRange r => Ok (ranges r)
  | OfQuote _ => Throw typeError
  end.

Definition negotiationOf (p : PriceInfo) : Exc Negotiation :=
  match p with
  | OfRange r => Ok (negotiation r)
  | OfQuote _ => Throw typeError
  end.

Definition confidenceOf (p : PriceInfo) : Q :=
  match p with
  | OfRange r => pr_confidence r
  | OfQuote q => PriceDiscoveryEngine.confidence q
  end.

(** [priceData.product === 'unknown'] *)
Definition productIsUnknown (p : PriceInfo) : bool :=
  match p with
  | OfRange r => str_eqb (pr_product r) (lit "unknown")
  | OfQuote q =>
      match PriceDiscoveryEngine.product q with
      | Some s => str_eqb s (lit "unknown")
      | None => false
      end
  end.

End Data.

(** ** NegotiationAssistant *)

Module NegotiationAssistant.
Import JS Data.

Record Strategy := {
  approach : jsstring;
  startHigh : bool;
  maxConcessions : Z;
  minMargin : Q
}.

Record CulturalPattern := {
  tone : jsstring;
  phrases : list jsstring;
  declineStyle : jsstring
}.

Record CounterOfferRule := {
  reduction : Q;
  message : jsstring
}.

(** The instance: the three tables built by the constructor.  The arrays
    inside them are shared by reference with whatever reads them. *)
Record Assistant := {
  negotiationStrategies : list (jsstring * Strategy);
  respectful : CulturalPattern;
  friendly : CulturalPattern;
  professional : CulturalPattern;
  counterOfferRules : list (jsstring * CounterOfferRule)
}.

(** [constructor()] *)
Definition new : Assistant :=
  {| negotiationStrategies :=
       [ (lit "bargaining",
          {| approach := lit "flexible"; startHigh := true;
             maxConcessions := 3; minMargin := (5 # 100)%Q |});
         (lit "bulk_purchase",
          {| approach := lit "volume_focused"; startHigh := false;
             maxConcessions := 2; minMargin := (3 # 100)%Q |});
         (lit "casual_inquiry",
          {| approach := lit "informational"; startHigh := false;
             maxConcessions := 1; minMargin := (1 # 10)%Q |}) ];
     respectful :=
       {| tone := lit "polite";
          phrases := [ lit "I appreciate your interest";
                       lit "Thank you for considering";
                       lit "I understand your position" ];
          declineStyle := lit "gentle" |};
     friendly :=
       {| tone := lit "warm";
          phrases := [ lit "Let me help you";
                       lit "We can work something out";
                       lit "I want to find a good deal for you" ];
          declineStyle := lit "understanding" |};
     professional :=
       {| tone := lit "business";
          phrases := [ lit "This is a fair price";
                       lit "Based on market rates";
                       lit "Quality justifies the cost" ];
          declineStyle := lit "firm_but_polite" |};
     counterOfferRules :=
       [ (lit "first_offer",
          {| reduction := (5 # 100)%Q;
             message := lit "Let me see what I can do for you" |});
         (lit "second_offer",
          {| reduction := (8 # 100)%Q;
             message := lit "This is getting close to my best price" |});
         (lit "final_offer",
          {| reduction := (12 # 100)%Q;
             message := lit "This is my final offer" |}) ] |}.

Record CustomerAnalysis := {
  priceAwareness : jsstring;
  urgency : jsstring;
  ca_flexibility : jsstring;
  signals : list jsstring
}.

(** An entry of [counterOffers].  [price] is [None] for [null]; [discount]
    is [None] where the object has no such field or the quotient is not a
    finite number. *)
Record Offer := {
  level : jsstring;
  price : option Z;
  discount : option Z;
  o_message : jsstring;
  reasoning : list jsstring;
  recommended : bool
}.

Record Tactics := {
  primary : list jsstring;
  secondary : list jsstring;
  avoid : list jsstring
}.

Record ValueProposition := {
  vp_type : jsstring;
  vp_message : jsstring;
  vp_reasoning : jsstring
}.

Record Bucket := { conditions : list jsstring; b_reasoning : list jsstring }.

Record Decisions := { accept : Bucket; counter : Bucket; decline : Bucket }.

(** A reference to an array owned by the instance. *)
Inductive ArrayRef := RespectfulPhrases.

Definition deref (this : Assistant) (r : ArrayRef) : list jsstring :=
  match r with
  | RespectfulPhrases => phrases (respectful this)
  end.

(** The object of [getCulturalContext]: [cc_phrases] is the array
    [this.culturalPatterns.respectful.phrases] itself, [customary] is a
    fresh array. *)
Record CulturalContext := {
  cc_approach : jsstring;
  cc_tone : jsstring;
  cc_phrases : ArrayRef;
  cc_declineStyle : jsstring;
  customary : list jsstring
}.

Record Guidance := {
  customerAnalysis : CustomerAnalysis;
  counterOffers : list Offer;
  tactics : Tactics;
  valuePropositions : list ValueProposition;
  decisions : Decisions;
  g_confidence : Q;
  culturalContext : CulturalContext;
  fallback : bool
}.

Section WithHost.
Context {host : Host}.

Definition analyzeCustomerBehavior (text : Value) (intent : ClassifiedIntent)
  : Exc CustomerAnalysis :=
  text <- asString text ;;
  let lowerText := toLowerCase text in
  let has w := includes lowerText w in
  (* Detect price awareness *)
  let '(priceAwareness, signals) :=
    if (has (lit "expensive") || has (lit "costly") || has (lit "mehenga"))%bool
    then (lit "high", [lit "price_sensitive"])
    else if (has (lit "fair") || has (lit "reasonable") || has (lit "accha"))%bool
    then (lit "moderate", [lit "price_conscious"])
    else (lit "unknown", []) in
  (* Detect urgency *)
  let '(urgency, signals) :=
    if (has (lit "quickly") || has (lit "urgent") || has (lit "jaldi"))%bool
    then (lit "high", signals ++ [lit "time_pressure"])
    else if (has (lit "thinking") || has (lit "consider") || has (lit "sochna"))%bool
    then (lit "low", signals ++ [lit "deliberating"])
    else (lit "normal", signals) in
  (* Detect flexibility indicators *)
  let '(flexibility, signals) :=
    if (has (lit "budget") || has (lit "afford") || has (lit "paisa"))%bool
    then (lit "low", signals ++ [lit "budget_constrained"])
    else if (has (lit "quality") || has (lit "best") || has (lit "accha"))%bool
    then (lit "high", signals ++ [lit "quality_focused"])
    else (lit "moderate", signals) in
  (* Detect bulk purchase signals *)
  let '(flexibility, signals) :=
    match quantity intent with
    | Some q =>
        if (5 <? amount q)%Z
        then (lit "high", signals ++ [lit "bulk_buyer"])
        else (flexibility, signals)
    | None => (flexibility, signals)
    end in
  Ok {| priceAwareness := priceAwareness;
        urgency := urgency;
        ca_flexibility := flexibility;
        signals := signals |}.

End WithHost.

Definition generateOfferReasoning (level : jsstring) (price : Z) (r : Ranges)
  : list jsstring :=
  let reasons :=
    if str_eqb level (lit "first_offer")
    then [ lit "Good starting point for negotiation";
           lit "Shows willingness to work with customer" ]
    else if str_eqb level (lit "second_offer")
    then [ lit "Demonstrates flexibility while maintaining margin";
           lit "Builds customer confidence in the deal" ]
    else if str_eqb level (lit "final_offer")
    then [ lit "Near minimum acceptable price";
           lit "Clear signal that negotiation is ending" ]
    else [] in
  if (market r <? price)%Z
  then reasons ++ [lit "Still above market average"]
  else if (price =? market r)%Z
  then reasons ++ [lit "At fair market price"]
  else reasons ++ [lit "Below market price - good customer deal"].

(** [table[key].f]: reading a property of a missing entry throws. *)
Definition lookupExc {V} (table : list (jsstring * V)) (key : jsstring) : Exc V :=
  match lookup table key with
  | Some v => Ok v
  | None => Throw typeError
  end.

(** [Array.prototype.forEach] with a body that may throw, collecting what
    the body pushes. *)
Fixpoint forEachIndexed {A B} (f : A -> nat -> Exc B) (l : list A) (index : nat)
  : Exc (list B) :=
  match l with
  | [] => Ok []
  | x :: l' =>
      y <- f x index ;;
      ys <- forEachIndexed f l' (S index) ;;
      Ok (y :: ys)
  end.

Definition offerLevels : list jsstring :=
  [lit "first_offer"; lit "second_offer"; lit "final_offer"].

(** [Math.round(((startingPrice - finalPrice) / startingPrice) * 100)] *)
Definition discountPercent (startingPrice finalPrice : Z) : option Z :=
  if (startingPrice =? 0)%Z then None
  else Some (Math_round
               (((inject_Z startingPrice - inject_Z finalPrice)
                 / inject_Z startingPrice) * 100)%Q).

Definition generateCounterOffers (this : Assistant) (priceData : PriceInfo)
  (intent : ClassifiedIntent) (customerAnalysis : CustomerAnalysis)
  : Exc (list Offer) :=
  r <- rangesOf priceData ;;
  n <- negotiationOf priceData ;;
  (* Determine starting position *)
  let startingPrice :=
    if str_eqb (priceAwareness customerAnalysis) (lit "high")
    then market r      (* Start closer to market price *)
    else PriceTypes.recommended r in
  (* Generate progressive counter-offers *)
  forEachIndexed
    (fun level index =>
       rule <- lookupExc (counterOfferRules this) level ;;
       let discountedPrice :=
         Math_round (inject_Z startingPrice * (1 - reduction rule))%Q in
       (* Ensure we don't go below safe minimum *)
       let finalPrice := Z.max discountedPrice (safe r) in
       Ok {| level := level;
             price := Some finalPrice;
             discount := discountPercent startingPrice finalPrice;
             o_message := message rule;
             reasoning := generateOfferReasoning level finalPrice r;
             recommended := Nat.eqb index 0 |})
    offerLevels 0.

Definition selectNegotiationTactics (priceData : PriceInfo)
  (intent : ClassifiedIntent) (customerAnalysis : CustomerAnalysis)
  : Exc Tactics :=
  n <- negotiationOf priceData ;;
  let flexibility := flexibility n in
  (* Primary tactics based on flexibility *)
  let primary :=
    if str_eqb flexibility (lit "high")
    then [ lit "Start with premium pricing";
           lit "Offer multiple price points";
           lit "Emphasize freshness and quality" ]
    else if str_eqb flexibility (lit "moderate")
    then [ lit "Start near market price";
           lit "Offer reasonable discounts";
           lit "Focus on fair value" ]
    else if str_eqb flexibility (lit "low")
    then [ lit "Stick close to market price";
           lit "Emphasize fixed costs";
           lit "Offer non-price value" ]
    else [] in
  let hasSignal s := existsb (str_eqb s) (signals customerAnalysis) in
  (* Adjust tactics based on customer analysis *)
  let '(secondary, avoid) :=
    if hasSignal (lit "price_sensitive")
    then ([lit "Offer bulk discounts"; lit "Suggest alternative products"],
          [lit "Premium positioning"])
    else ([], []) in
  let '(secondary, avoid) :=
    if hasSignal (lit "quality_focused")
    then (secondary ++ [lit "Highlight quality benefits";
                        lit "Compare with competitors"],
          avoid ++ [lit "Aggressive discounting"])
    else (secondary, avoid) in
  let '(primary, secondary) :=
    if hasSignal (lit "time_pressure")
    then (primary ++ [lit "Streamline the negotiation"],
          secondary ++ [lit "Quick decision incentives"])
    else (primary, secondary) in
  Ok {| primary := primary; secondary := secondary; avoid := avoid |}.

Definition generateValuePropositions (priceData : PriceInfo)
  (intent : ClassifiedIntent) : list ValueProposition :=
  let valueProps :=
    [ {| vp_type := lit "quality";
         vp_message := lit "Fresh, high-quality products";
         vp_reasoning := lit "Quality justifies the price difference" |};
      {| vp_type := lit "service";
         vp_message := lit "Reliable supply and good service";
         vp_reasoning := lit "Long-term relationship value" |} ] in
  let largeQuantity :=
    match quantity intent with
    | Some q => (5 <? amount q)%Z
    | None => false
    end in
  let isBulk :=
    match type intent with
    | Some bulk_purchase => true
    | _ => false
    end in
  let valueProps :=
    if (isBulk || largeQuantity)%bool
    then
      let shown :=
        match quantity intent with
        | Some q => if (amount q =? 0)%Z then lit "large"
                    else Z_toString (amount q)
        | None => lit "large"
        end in
      valueProps ++
      [ {| vp_type := lit "bulk";
           vp_message :=
             lit "Special bulk pricing for " ++ shown ++ lit " quantities";
           vp_reasoning := lit "Volume discount reflects economies of scale" |} ]
    else valueProps in
  if Qlt_le_dec (7 # 10) (confidenceOf priceData)
  then valueProps ++
       [ {| vp_type := lit "market";
            vp_message := lit "Competitive market pricing";
            vp_reasoning := lit "Price reflects current market conditions" |} ]
  else valueProps.

(** "For MVP, return null (no specific offer detected)". *)
Definition extractCustomerOffer (customerAnalysis : CustomerAnalysis)
  : option Z := None.

Definition emptyBucket : Bucket := {| conditions := []; b_reasoning := [] |}.

Definition generateDecisionGuidance (priceData : PriceInfo)
  (intent : ClassifiedIntent) (customerAnalysis : CustomerAnalysis)
  : Exc Decisions :=
  let general :=
    {| accept := emptyBucket;
       counter :=
         {| conditions := [lit "Customer showing price sensitivity"];
            b_reasoning :=
              [lit "Opportunity to find mutually acceptable price"] |};
       decline := emptyBucket |} in
  match extractCustomerOffer customerAnalysis with
  | None => Ok general
  | Some customerOffer =>
      if (customerOffer =? 0)%Z then Ok general
      else
        r <- rangesOf priceData ;;
        Ok {| accept :=
                if (market r <=? customerOffer)%Z
                then {| conditions :=
                          [lit "Customer offer at or above market price"];
                        b_reasoning := [lit "Good profit margin maintained"] |}
                else emptyBucket;
              counter :=
                if ((safe r <=? customerOffer) && (customerOffer <? market r))%Z
                then {| conditions := [lit "Customer offer in acceptable range"];
                        b_reasoning :=
                          [lit "Room for negotiation while maintaining minimum margin"] |}
                else emptyBucket;
              decline :=
                if (customerOffer <? safe r)%Z
                then {| conditions :=
                          [lit "Customer offer below minimum acceptable price"];
                        b_reasoning :=
                          [lit "Would result in loss or insufficient margin"] |}
                else emptyBucket |}
  end.

Definition calculateGuidanceConfidence (priceData : PriceInfo)
  (intent : ClassifiedIntent) : Q :=
  let confidence := Float64.nearest (7 # 10) in     (* Base confidence *)
  (* Increase confidence based on price data quality *)
  let confidence :=
    if Float64.gtb (confidenceOf priceData) (8 # 10)
    then Float64.plus confidence (1 # 10) else confidence in
  (* Increase confidence for clear intent *)
  let confidence :=
    if Float64.gtb (Data.confidence intent) (8 # 10)
    then Float64.plus confidence (1 # 10) else confidence in
  (* Decrease confidence for unknown products *)
  let confidence :=
    if productIsUnknown priceData
    then Float64.minus confidence (2 # 10) else confidence in
  Qmin confidence (Float64.nearest (95 # 100)).

(** [culturalContext.phrases.push(p)]: [phrases] is the array of
    [this.culturalPatterns.respectful], so the push lands in the instance. *)
Definition pushPhrase (this : Assistant) (r : ArrayRef) (p : jsstring)
  : Assistant :=
  match r with
  | RespectfulPhrases =>
      {| negotiationStrategies := negotiationStrategies this;
         respectful :=
           {| tone := tone (respectful this);
              phrases := phrases (respectful this) ++ [p];
              declineStyle := declineStyle (respectful this) |};
         friendly := friendly this;
         professional := professional this;
         counterOfferRules := counterOfferRules this |}
  end.

Definition getCulturalContext (this : Assistant) (intent : ClassifiedIntent)
  : CulturalContext * Assistant :=
  let approach := lit "respectful" in
  let tone := lit "polite" in
  let phrases := RespectfulPhrases in
  let declineStyle := declineStyle (respectful this) in
  let customary :=
    [ lit "Allow time for customer consideration";
      lit "Maintain respectful dialogue";
      lit "Avoid aggressive pressure tactics" ] in
  let mk approach customary :=
    {| cc_approach := approach; cc_tone := tone; cc_phrases := phrases;
       cc_declineStyle := declineStyle; customary := customary |} in
  (* Adjust cultural approach based on intent type *)
  match type intent with
  | Some bargaining =>
      (mk approach
          (customary ++ [ lit "Bargaining is expected and normal";
                          lit "Start higher to allow negotiation room" ]),
       pushPhrase this phrases (lit "This is a fair starting price"))
  | Some bulk_purchase =>
      (mk (lit "business_friendly")
          (customary ++ [ lit "Volume buyers deserve special consideration";
                          lit "Build long-term business relationships" ]),
       pushPhrase this phrases (lit "For bulk orders, I can offer better rates"))
  | Some casual_inquiry =>
      (mk (lit "informational")
          (customary ++ [ lit "Provide clear, honest information";
                          lit "No pressure to buy immediately" ]),
       pushPhrase this phrases (lit "Let me explain our pricing clearly"))
  | None => (mk approach customary, this)
  end.

Definition generateFallbackGuidance (this : Assistant)
  (intent : ClassifiedIntent) (originalText : Value)
  : Guidance * Assistant :=
  let '(culturalContext, this') := getCulturalContext this intent in
  ({| customerAnalysis :=
        {| priceAwareness := lit "unknown";
           urgency := lit "normal";
           ca_flexibility := lit "moderate";
           signals := [lit "insufficient_data"] |};
      counterOffers :=
        [ {| level := lit "standard";
             price := None;
             discount := None;
             o_message := lit "Let me check the current market price for you";
             reasoning := [lit "Price data not available"];
             recommended := true |} ];
      tactics :=
        {| primary := [lit "Be transparent about pricing"];
           secondary := [lit "Offer to check with suppliers"];
           avoid := [lit "Making price commitments without data"] |};
      valuePropositions :=
        [ {| vp_type := lit "service";
             vp_message :=
               lit "I will provide you with accurate pricing information";
             vp_reasoning := lit "Transparency builds trust" |} ];
      decisions :=
        {| accept := emptyBucket;
           counter :=
             {| conditions := [lit "Get accurate price data first"];
                b_reasoning :=
                  [lit "Cannot negotiate without reliable pricing"] |};
           decline := emptyBucket |};
      g_confidence := (3 # 10)%Q;
      culturalContext := culturalContext;
      fallback := true |},
   this').

Section WithHost.
Context {host : Host}.

Definition generateGuidance_try (this : Assistant) (intent : ClassifiedIntent)
  (priceData : option PriceInfo) (originalText : Value)
  : Exc (Guidance * Assistant) :=
  match priceData with
  | None => Ok (generateFallbackGuidance this intent originalText)
  | Some priceData =>
      (* Analyze customer intent and behavior *)
      customerAnalysis <- analyzeCustomerBehavior originalText intent ;;
      (* Generate counter-offer suggestions *)
      counterOffers <-
        generateCounterOffers this priceData intent customerAnalysis ;;
      (* Determine negotiation tactics *)
      tactics <- selectNegotiationTactics priceData intent customerAnalysis ;;
      (* Generate value propositions *)
      let valueProps := generateValuePropositions priceData intent in
      (* Assess decision recommendations *)
      decisions <- generateDecisionGuidance priceData intent customerAnalysis ;;
      let confidence := calculateGuidanceConfidence priceData intent in
      let '(culturalContext, this') := getCulturalContext this intent in
      Ok ({| customerAnalysis := customerAnalysis;
             counterOffers := counterOffers;
             tactics := tactics;
             valuePropositions := valueProps;
             decisions := decisions;
             g_confidence := confidence;
             culturalContext := culturalContext;
             fallback := false |},
          this')
  end.

(** The instance is passed through: the second component is the instance
    after the call. *)
Definition generateGuidance (this : Assistant) (intent : ClassifiedIntent)
  (priceData : option PriceInfo) (originalText : Value)
  : Guidance * Assistant :=
  catch (generateGuidance_try this intent priceData originalText)
        (fun _ => generateFallbackGuidance this intent originalText).

End WithHost.

End NegotiationAssistant.

(** ** Regular expressions of the program

    Each regular expression of the source is compiled by hand into a
    scanner over code units.  The scanners try the positions of the subject
    from left to right, as [RegExp.prototype.exec] does. *)

Module Regex.
Import JS.

Definition isWord (c : option char) : bool :=
  match c with
  | Some c => isWordChar c
  | None => false
  end.

(** [\b] between the code unit [prev] and the rest [s] of the subject. *)
Definition wordBoundary (prev : option char) (s : jsstring) : bool :=
  xorb (isWord prev) (isWord (hd_error s)).

(** The last code unit consumed when [n] code units of [s] are matched
    after [prev]. *)
Definition lastConsumed (prev : option char) (n : nat) (s : jsstring)
  : option char :=
  match n with
  | O => prev
  | S k => nth_error s k
  end.

(** [test]: some position of the subject satisfies [p]. *)
Fixpoint existsAt (p : option char -> jsstring -> bool) (prev : option char)
  (s : jsstring) : bool :=
  (p prev s ||
   match s with
   | [] => false
   | c :: s' => existsAt p (Some c) s'
   end)%bool.

(** [exec]: the result at the leftmost position where [p] succeeds. *)
Fixpoint findAt {R} (p : option char -> jsstring -> option R)
  (prev : option char) (s : jsstring) : option R :=
  match p prev s with
  | Some r => Some r
  | None =>
      match s with
      | [] => None
      | c :: s' => findAt p (Some c) s'
      end
  end.

(** An alternation [(a1|a2|...)] of literals under the [i] flag, followed by
    the continuation [k]: the alternatives are tried in order, [k] receives
    the matched text and the rest of the subject. *)
Fixpoint firstAlt {R} (alts : list jsstring) (s : jsstring)
  (k : jsstring -> jsstring -> option R) : option R :=
  match alts with
  | [] => None
  | alt :: alts' =>
      let tryNext := firstAlt alts' s k in
      if startsWith_ci alt s
      then match k (firstn (length alt) s) (skipn (length alt) s) with
           | Some r => Some r
           | None => tryNext
           end
      else tryNext
  end.

(** [/\b(a1|a2|...)\b/i.test(text)] *)
Definition testWordAlt (alts : list jsstring) (text : jsstring) : bool :=
  existsAt
    (fun prev s =>
       (wordBoundary prev s &&
        existsb (fun alt =>
                   (startsWith_ci alt s &&
                    wordBoundary (lastConsumed prev (length alt) s)
                                 (skipn (length alt) s))%bool)
                alts)%bool)
    None text.

Definition takeWhile {A} (p : A -> bool) : list A -> list A :=
  fix go l := match l with
              | [] => []
              | x :: l' => if p x then x :: go l' else []
              end.

(** [/(\d+)\s*(a1|a2|...)/i] at one position.  No alternative of the
    program starts with a digit or with white space, so giving back digits
    or white space never produces a match and the greedy split is the only
    one to try.  The result is the pair of captures. *)
Definition quantityAt (alts : list jsstring) (s : jsstring)
  : option (jsstring * jsstring) :=
  match takeWhile isDigit s with
  | [] => None
  | digits =>
      let rest := dropWhile isSpace (dropWhile isDigit s) in
      firstAlt alts rest (fun matched _ => Some (digits, matched))
  end.

(** [text.match(/(\d+)\s*(a1|a2|...)/i)] *)
Definition matchQuantity (alts : list jsstring) (text : jsstring)
  : option (jsstring * jsstring) :=
  findAt (fun _ s => quantityAt alts s) None text.

(** [/\b(a1|a2|...)\s+(\w+)/i] at one position; the result is the second
    capture.  White space is taken greedily: the code unit after a shorter
    run is white space, which [\w] rejects. *)
Definition afterVerbAt (alts : list jsstring) (prev : option char)
  (s : jsstring) : option jsstring :=
  if wordBoundary prev s
  then firstAlt alts s
         (fun _ rest =>
            match rest with
            | c :: _ =>
                if isSpace c
                then match takeWhile isWordChar (dropWhile isSpace rest) with
                     | [] => None
                     | word => Some word
                     end
                else None
            | [] => None
            end)
  else None.

Definition matchAfterVerb (alts : list jsstring) (text : jsstring)
  : option jsstring :=
  findAt (afterVerbAt alts) None text.

(** [parseInt] of a non-empty string of decimal digits. *)
Definition parseDigits (digits : jsstring) : Z :=
  fold_left (fun acc c => (acc * 10 + Z.of_N (c - 48))%Z) digits 0%Z.

(** [String.prototype.replace] with a global regular expression whose
    matches are never empty.  [m prev s] is the length of the match that
    starts at the current position, if there is one; [subst] receives the
    matched text, the part of the subject before the match and the part
    after it.  [skip] counts the code units of a match still to be passed
    over, [before] holds the part of the subject already passed, in
    reverse. *)
Fixpoint replaceFrom (m : option char -> jsstring -> option nat)
  (subst : jsstring -> jsstring -> jsstring -> jsstring)
  (skip : nat) (before : jsstring) (prev : option char) (s : jsstring)
  : jsstring :=
  match s with
  | [] => []
  | c :: s' =>
      match skip with
      | S k => replaceFrom m subst k (c :: before) (Some c) s'
      | O =>
          match m prev s with
          | Some (S n) =>
              subst (firstn (S n) s) (rev before) (skipn (S n) s)
              ++ replaceFrom m subst n (c :: before) (Some c) s'
          | _ => c :: replaceFrom m subst 0 (c :: before) (Some c) s'
          end
      end
  end.

Definition replaceAll (m : option char -> jsstring -> option nat)
  (subst : jsstring -> jsstring -> jsstring -> jsstring) (s : jsstring)
  : jsstring :=
  replaceFrom m subst 0 [] None s.

(** The replacement text of [replace] for a pattern without capture
    groups: [$$], [$&], [$`] and [$'] are expanded, any other [$] stands
    for itself. *)
Fixpoint getSubstitution (replacement matched before after : jsstring)
  : jsstring :=
  match replacement with
  | [] => []
  | c :: r =>
      if N.eqb c 36 then
        match r with
        | d :: r' =>
            if N.eqb d 36 then 36%N :: getSubstitution r' matched before after
            else if N.eqb d 38
            then matched ++ getSubstitution r' matched before after
            else if N.eqb d 96
            then before ++ getSubstitution r' matched before after
            else if N.eqb d 39
            then after ++ getSubstitution r' matched before after
            else c :: getSubstitution r matched before after
        | [] => [c]
        end
      else c :: getSubstitution r matched before after
  end.

(** A literal pattern. *)
Definition literalAt (pattern : jsstring) (prev : option char) (s : jsstring)
  : option nat :=
  if startsWith pattern s then Some (length pattern) else None.

(** [s.replace(new RegExp(pattern, 'g'), replacement)] for a pattern that
    stands for its own text. *)
Definition replaceLiteral (pattern replacement s : jsstring) : jsstring :=
  replaceAll (literalAt pattern) (getSubstitution replacement) s.

(** [/\{[^}]+\}/] at one position: an opening brace, one or more code
    units other than the closing brace, a closing brace.  The result is the
    length of the match. *)
Definition isCloseBrace (c : char) : bool := N.eqb c 125.

Definition placeholderAt (prev : option char) (s : jsstring) : option nat :=
  match s with
  | c :: s' =>
      if N.eqb c 123 then
        match takeWhile (fun d => negb (isCloseBrace d)) s' with
        | [] => None
        | run =>
            match skipn (length run) s' with
            | _ :: _ => Some (S (S (length run)))
            | [] => None
            end
        end
      else None
  | [] => None
  end.

(** [s.replace(/\{[^}]+\}/g, '')] *)
Definition removePlaceholders (s : jsstring) : jsstring :=
  replaceAll placeholderAt (fun _ _ _ => []) s.

(** [/\bword\b/gi] at one position. *)
Definition wordAt (word : jsstring) (prev : option char) (s : jsstring)
  : option nat :=
  if (wordBoundary prev s && startsWith_ci word s &&
      wordBoundary (lastConsumed prev (length word) s)
                   (skipn (length word) s))%bool
  then Some (length word) else None.

(** [s.replace(new RegExp(`\\b${word}\\b`, 'gi'), replacement)] *)
Definition replaceWord (word replacement s : jsstring) : jsstring :=
  replaceAll (wordAt word) (getSubstitution replacement) s.

(** The pattern that [createPatternFromTemplate] builds: the text of the
    template, with [\w+] in place of every placeholder. *)
Inductive Segment :=
| Lit (text : jsstring)
| Word.

Definition flush (cur : jsstring) : list Segment :=
  match cur with
  | [] => []
  | _ => [Lit (rev cur)]
  end.

Fixpoint segmentsFrom (skip : nat) (cur s : jsstring) : list Segment :=
  match s with
  | [] => flush cur
  | c :: s' =>
      match skip with
      | S k => segmentsFrom k cur s'
      | O =>
          match placeholderAt None s with
          | Some (S n) => flush cur ++ Word :: segmentsFrom n [] s'
          | _ => segmentsFrom 0 (c :: cur) s'
          end
      end
  end.

(** The subject [s] starts with a match of the segments, under the [i]
    flag.  [\w+] may stop after any of the word characters it meets. *)
Fixpoint matchSegments (segs : list Segment) (s : jsstring) : bool :=
  match segs with
  | [] => true
  | Lit text :: segs' =>
      (startsWith_ci text s && matchSegments segs' (skipn (length text) s))%bool
  | Word :: segs' =>
      (fix word (s : jsstring) : bool :=
         match s with
         | c :: s' => (isWordChar c && (matchSegments segs' s' || word s'))%bool
         | [] => false
         end) s
  end.

(** [text.match(new RegExp(pattern, 'i'))] is not [null]. *)
Definition testSegments (segs : list Segment) (text : jsstring) : bool :=
  existsAt (fun _ s => matchSegments segs s) None text.

End Regex.

(** ** IntentClassifier *)

Module IntentClassifier.
Import JS Data Regex.

Record Pattern := {
  keywords : list jsstring;
  phrases : list jsstring
}.

(** The tables of the instance.  [intentPatterns] is indexed by its three
    keys; [productPatterns] keeps the order of its keys. *)
Record Classifier := {
  intentPatterns : IntentType -> Pattern;
  productPatterns : list (jsstring * list jsstring);
  quantityPatterns : list (list jsstring)
}.

(** [Object.keys(this.intentPatterns)] and [Object.keys(scores)] *)
Definition intentKeys : list IntentType :=
  [bargaining; bulk_purchase; casual_inquiry].

Definition getScore (scores : Scores) (intent : IntentType) : Z :=
  match intent with
  | bargaining => s_bargaining scores
  | bulk_purchase => s_bulk_purchase scores
  | casual_inquiry => s_casual_inquiry scores
  end.

Definition setScore (scores : Scores) (intent : IntentType) (v : Z) : Scores :=
  match intent with
  | bargaining =>
      {| s_bargaining := v;
         s_bulk_purchase := s_bulk_purchase scores;
         s_casual_inquiry := s_casual_inquiry scores |}
  | bulk_purchase =>
      {| s_bargaining := s_bargaining scores;
         s_bulk_purchase := v;
         s_casual_inquiry := s_casual_inquiry scores |}
  | casual_inquiry =>
      {| s_bargaining := s_bargaining scores;
         s_bulk_purchase := s_bulk_purchase scores;
         s_casual_inquiry := v |}
  end.

Definition addScore (scores : Scores) (intent : IntentType) (d : Z) : Scores :=
  setScore scores intent (getScore scores intent + d)%Z.

Definition zeroScores : Scores :=
  {| s_bargaining := 0; s_bulk_purchase := 0; s_casual_inquiry := 0 |}.

Section WithHost.
Context {host : Host}.

(** Throws when [text] is not a string. *)
Definition normalizeText (text : Value) : Exc jsstring :=
  match text with
  | VString s =>
      Ok (trim
            (collapseSpaces
               (map (fun c => if (isWordChar c || isSpace c)%bool
                              then c else 32%N)     (* Remove punctuation *)
                    (toLowerCase s))))
  | _ => Throw typeError
  end.

End WithHost.

(** The two [forEach] loops over one entry of [intentPatterns]. *)
Definition scorePattern (text : jsstring) (pattern : Pattern)
  (scores : Scores) (intent : IntentType) : Scores :=
  (* Check keywords *)
  let scores :=
    fold_left (fun scores keyword =>
                 if includes text keyword
                 then addScore scores intent 1 else scores)
              (keywords pattern) scores in
  (* Check phrases (higher weight) *)
  fold_left (fun scores phrase =>
               if includes text phrase
               then addScore scores intent 2 else scores)
            (phrases pattern) scores.

(** The scores before the contextual rules are applied. *)
Definition lexiconScores (this : Classifier) (text : jsstring) : Scores :=
  fold_left (fun scores intent =>
               scorePattern text (intentPatterns this intent) scores intent)
            intentKeys zeroScores.

Definition rupee : jsstring := [8377%N].

Definition applyContextualRules (text : jsstring) (scores : Scores) : Scores :=
  (* Rule 1: Numbers + units suggest bulk purchase *)
  let scores :=
    if existsAt
         (fun _ s =>
            match quantityAt
                    (map lit ["kg"; "kilo"; "liter"; "piece"; "dozen"; "box";
                              "bag"]%string) s with
            | Some _ => true
            | None => false
            end)
         None text
    then addScore scores bulk_purchase 3 else scores in
  (* Rule 2: Price-related words suggest bargaining *)
  let scores :=
    if testWordAlt
         (map lit ["price"; "cost"; "rate"; "rupee"; "rs"]%string ++ [rupee])
         text
    then addScore scores bargaining 2 else scores in
  (* Rule 3: Question words suggest casual inquiry *)
  let scores :=
    if testWordAlt
         (map lit ["what"; "which"; "where"; "when"; "how"; "do you";
                   "is it"; "are you"]%string)
         text
    then addScore scores casual_inquiry 1 else scores in
  (* Rule 4: Comparison words suggest bargaining *)
  let scores :=
    if testWordAlt
         (map lit ["expensive"; "cheap"; "more"; "less"; "better"; "worse";
                   "compare"]%string)
         text
    then addScore scores bargaining 2 else scores in
  (* Rule 5: Availability questions suggest casual inquiry *)
  if testWordAlt
       (map lit ["available"; "have"; "sell"; "stock"; "fresh";
                 "quality"]%string)
       text
  then addScore scores casual_inquiry 2 else scores.

Definition calculateIntentScores (this : Classifier) (text : jsstring)
  : Scores :=
  applyContextualRules text (lexiconScores this text).

(** [Math.max(...Object.values(scores))] *)
Definition maxScoreOf (scores : Scores) : Z :=
  Z.max (Z.max (s_bargaining scores) (s_bulk_purchase scores))
        (s_casual_inquiry scores).

(** The result is [None] when [find] yields [undefined]. *)
Definition selectPrimaryIntent (scores : Scores) : option IntentType :=
  let maxScore := maxScoreOf scores in
  if (maxScore =? 0)%Z
  then Some casual_inquiry     (* Default fallback *)
  else find (fun intent => (getScore scores intent =? maxScore)%Z) intentKeys.

Definition extractProduct (this : Classifier) (text : jsstring)
  : option jsstring :=
  (* Check each product category *)
  match find (fun product => includes text product)
             (concat (map snd (productPatterns this))) with
  | Some product => Some product
  | None =>
      (* Try to extract unknown product using common patterns *)
      matchAfterVerb
        (map lit ["buy"; "sell"; "price of"; "cost of"; "rate of"]%string)
        text
  end.

Definition getProductCategory (this : Classifier) (product : option jsstring)
  : option jsstring :=
  match product with
  | None | Some [] => None
  | Some p =>
      match find (fun entry => existsb (str_eqb p) (snd entry))
                 (productPatterns this) with
      | Some entry => Some (fst entry)
      | None => Some (lit "general")
      end
  end.

Section WithHost.
Context {host : Host}.

Definition extractQuantity (this : Classifier) (text : jsstring)
  : option Quantity :=
  let fix go (patterns : list (list jsstring)) :=
    match patterns with
    | [] => None
    | pattern :: rest =>
        match matchQuantity pattern text with
        | Some (digits, unitText) =>
            Some {| amount := parseDigits digits;
                    q_unit := toLowerCase unitText |}
        | None => go rest
        end
    end in
  go (quantityPatterns this).

End WithHost.

Definition extractKeywords (this : Classifier) (text : jsstring)
  (intent : option IntentType) : list jsstring :=
  let keywords :=
    match intent with
    | Some intent =>
        let pattern := intentPatterns this intent in
        (* Extract matching keywords *)
        filter (fun keyword => includes text keyword) (keywords pattern)
        (* Extract matching phrases *)
        ++ filter (fun phrase => includes text phrase) (phrases pattern)
    | None => []
    end in
  firstn 5 keywords.    (* Limit to top 5 keywords *)

Definition calculateConfidence (scores : Scores) (keywords : list jsstring)
  (product : option jsstring) : Q :=
  let maxScore := maxScoreOf scores in
  let totalScore :=
    (s_bargaining scores + s_bulk_purchase scores + s_casual_inquiry scores)%Z in
  let confidence := (3 # 10)%Q in     (* Base confidence *)
  let confidence :=
    if (0 <? maxScore)%Z
    then
      (* Score-based confidence *)
      let confidence :=
        (confidence
         + (inject_Z maxScore / inject_Z (Z.max totalScore 1)) * (4 # 10))%Q in
      (* Keyword-based confidence *)
      let confidence :=
        (confidence
         + Qmin (inject_Z (Z.of_nat (length keywords)) * (1 # 10)) (2 # 10))%Q in
      (* Product identification bonus *)
      match product with
      | Some ((_ :: _) as p) =>
          if str_eqb p (lit "unknown") then confidence
          else (confidence + (1 # 10))%Q
      | _ => confidence
      end
    else confidence in
  Qmin confidence (95 # 100).      (* Cap at 95% *)

Section WithHost.
Context {host : Host}.

Definition classifyIntent_try (this : Classifier) (text : Value)
  (language : Tag) : Exc ClassifiedIntent :=
  (* Normalize text for processing *)
  normalizedText <- normalizeText text ;;
  (* Extract product and quantity information *)
  let product := extractProduct this normalizedText in
  let quantity := extractQuantity this normalizedText in
  let category := getProductCategory this product in
  (* Classify intent using deterministic rules *)
  let intentScores := calculateIntentScores this normalizedText in
  let primaryIntent := selectPrimaryIntent intentScores in
  (* Extract relevant keywords *)
  let keywords := extractKeywords this normalizedText primaryIntent in
  (* Calculate confidence based on keyword matches and patterns *)
  let confidence := calculateConfidence intentScores keywords product in
  Ok {| type := primaryIntent;
        confidence := confidence;
        Data.keywords := keywords;
        product := orStr product (lit "unknown");
        category := orStr category (lit "general");
        quantity := quantity;
        language := language;
        originalText := text;
        normalizedText := Some normalizedText;
        scores := Some intentScores;
        error := None |}.

Definition classifyIntent (this : Classifier) (text : Value)
  (language : Tag) : ClassifiedIntent :=
  catch (classifyIntent_try this text language)
        (fun message =>
           (* Fallback to basic classification *)
           {| type := Some casual_inquiry;
              confidence := (3 # 10)%Q;
              Data.keywords := [];
              product := lit "unknown";
              category := lit "general";
              quantity := None;
              language := language;
              originalText := text;
              normalizedText := None;
              scores := None;
              error := Some message |}).

End WithHost.

(** *** The tables of the constructor

    The four entries of the Arabic group that the source writes with an
    apostrophe inside the quotes are entered without the apostrophe, as
    the test report of the repository describes the repair. *)

Definition bargaining_keywords : list jsstring :=
  map lit
   [
     "price"; "cost"; "expensive"; "cheap"; "discount"; "reduce";
     "lower"; "negotiate"; "deal"; "offer"; "bargain"; "less"; "more";
     "final"; "best"; "last"; "counter"; "daam"; "kimat"; "sasta";
     "mehenga"; "kam"; "zyada"; "chhoot"; "discount"; "bhav"; "rate";
     "paisa"; "rupaya"; "mahanga"; "saste"; "kam karo"; "ghatao";
     "achha daam"; "theek hai"; "nahi chalega"; "zyada hai";
     "kam kijiye"; "bele"; "duddu"; "kammi"; "jaasti"; "olleya";
     "chennagide"; "bekagilla"; "rate"; "paisa"; "rupai"; "jaasti ide";
     "kammi maadi"; "bere bele"; "olleya bele"; "last bele"; "kam maadi";
     "vilai"; "panam"; "kammiya"; "jaastiya"; "nalla vilai";
     "kammi pannunga"; "rate"; "paisa"; "jaasti"; "kammi";
     "discount kudunga"; "vilai kammi"; "rate"; "dabbu"; "takkuva";
     "ekkuva"; "manchidi"; "takkuva cheyyandi"; "discount"; "paisa";
     "rate ekkuva"; "takkuva rate"; "manchiga ivvandi"; "dam"; "taka";
     "kom"; "beshi"; "bhalo dam"; "kom koren"; "discount"; "rate";
     "paisa"; "beshi hoyeche"; "kom korte hobe"; "bhalo rate"; "bhav";
     "paisa"; "kami"; "jasta"; "changle bhav"; "kami kara"; "discount";
     "rate"; "jasta ahe"; "kami karaycha"; "changla rate dya"; "bhav";
     "paisa"; "ochhu"; "vadhare"; "saras bhav"; "ochhu karo"; "discount";
     "rate"; "vadhare che"; "ochhu karvo"; "saras rate apo"; "rate";
     "paisa"; "ghat"; "vadh"; "changa rate"; "ghat karo"; "discount";
     "bhav"; "vadh hai"; "ghat karni"; "changa bhav deo"; "dam"; "paisa";
     "kam"; "besi"; "bhala dam"; "kam kara"; "discount"; "rate";
     "besi hei gala"; "kam kariba"; "bhala rate dia"; "vila"; "paisa";
     "kurav"; "kooduthal"; "nalla vila"; "kurav aakku"; "discount";
     "rate"; "kooduthal aanu"; "kurav aakkam"; "nalla rate tharumo";
     "dam"; "taka"; "kom"; "besi"; "bhal dam"; "kom kora"; "discount";
     "rate"; "besi hoise"; "kom koribo"; "bhal rate diba"; "qeemat";
     "paisa"; "kam"; "zyada"; "achhi qeemat"; "kam karo"; "discount";
     "rate"; "zyada hai"; "kam karna"; "achha rate do"; "qeemat";
     "paisa"; "ghat"; "vadh"; "sahi qeemat"; "ghat karo"; "discount";
     "rate"; "vadh ahe"; "ghat karyo"; "sahi rate dyo"; "qeemat";
     "paisa"; "kam"; "zyada"; "achhi qeemat"; "kam kar"; "discount";
     "rate"; "zyada chu"; "kam karin"; "achha rate diyiv"; "dam";
     "paisa"; "kam"; "besi"; "nik dam"; "kam karu"; "discount"; "rate";
     "besi achi"; "kam karna"; "nik rate diyau"; "dam"; "paisa"; "kam";
     "jyada"; "achha dam"; "kam kara"; "discount"; "rate"; "jyada ba";
     "kam kara"; "achha rate da"; "dam"; "paisa"; "kam"; "jyada";
     "achha dam"; "kam kara"; "discount"; "rate"; "jyada ba"; "kam kara";
     "achha rate da"; "bhav"; "paisa"; "ghat"; "vadh"; "achho bhav";
     "ghat karo"; "discount"; "rate"; "vadh hai"; "ghat karyo";
     "achho rate dyo"; "bhav"; "paisa"; "kam"; "jast"; "borem bhav";
     "kam kar"; "discount"; "rate"; "jast asa"; "kam kara";
     "borem rate di"; "dam"; "taka"; "huru"; "besi"; "bhal dam";
     "huru em"; "discount"; "rate"; "besi menakata"; "huru kora";
     "bhal rate em"; "sel"; "sel"; "machak"; "yamna"; "phaba sel";
     "machak touba"; "discount"; "rate"; "yamna chaoba"; "machak toukho";
     "phaba rate piba"; "mwi"; "taka"; "nwngkha"; "gab"; "gizang mwi";
     "nwngkha hwnay"; "discount"; "rate"; "gab dong"; "nwngkha hwnay";
     "gizang rate bi"; "bhav"; "paisa"; "ghat"; "jyada"; "achha bhav";
     "ghat karo"; "discount"; "rate"; "jyada hai"; "ghat karna";
     "achha rate dao"; "mulya"; "paisa"; "kam"; "dherai"; "ramro mulya";
     "kam gara"; "discount"; "rate"; "dherai cha"; "kam garnu";
     "ramro rate dinu"; "precio"; "dinero"; "barato"; "caro";
     "buen precio"; "reducir"; "descuento"; "rate"; "muy caro";
     "hacer descuento"; "mejor precio"; "prix"; "argent"; "pas cher";
     "cher"; "bon prix"; "reduire"; "remise"; "rate"; "trop cher";
     "faire remise"; "meilleur prix"; "sir"; "maal"; "rakhees"; "ghaali";
     "sir jayyid"; "qallil"; "takhfeed"; "rate"; "ghaali jiddan";
     "ati takhfeed"; "ahsan sir"; "preco"; "dinheiro"; "barato"; "caro";
     "bom preco"; "reduzir"; "desconto"; "rate"; "muito caro";
     "dar desconto"; "melhor preco"; "jiage"; "qian"; "pianyi"; "gui";
     "hao jiage"; "jianshao"; "zhekou"; "rate"; "tai gui"; "gei zhekou";
     "geng hao jiage"
   ]%string.

Definition bargaining_phrases : list jsstring :=
  map lit
   [
     "how much"; "what price"; "too expensive"; "too much";
     "can you reduce"; "best price"; "final price"; "last price";
     "give discount"; "make it cheaper"
   ]%string.

Definition bulk_purchase_keywords : list jsstring :=
  map lit
   [
     "bulk"; "wholesale"; "quantity"; "kg"; "liter"; "dozen"; "box";
     "sack"; "bag"; "many"; "lot"; "tons"; "kilos"; "pieces"; "units";
     "carton"; "thok"; "saara"; "bahut"; "kilo"; "litre"; "bori";
     "thaila"; "wholesale"; "jyada"; "poora"; "sabka"; "kitna kilo";
     "kitne kg"; "bada order"; "bulk mein"; "saath mein"; "ek saath";
     "thumba"; "sarva"; "kilo"; "litre"; "gunny"; "bere"; "jaasti";
     "wholesale"; "ella"; "total"; "eshtu kilo"; "dodda order"; "neraya";
     "ellam"; "kilo"; "litre"; "wholesale"; "periya order";
     "evvalavu kilo"; "total"; "bulk"; "jaasti quantity"; "ekkuva";
     "antha"; "kilo"; "litre"; "wholesale"; "pedda order"; "entha kilo";
     "total"; "bulk"; "ekkuva quantity"; "beshi"; "shob"; "kilo";
     "litre"; "wholesale"; "boro order"; "koto kilo"; "total"; "bulk";
     "beshi quantity"; "jasta"; "sarva"; "kilo"; "litre"; "wholesale";
     "motha order"; "kiti kilo"; "total"; "bulk"; "jasta quantity";
     "vadhare"; "badhu"; "kilo"; "litre"; "wholesale"; "motu order";
     "ketla kilo"; "total"; "bulk"; "vadhare quantity"; "vadh"; "sara";
     "kilo"; "litre"; "wholesale"; "vadda order"; "kinna kilo"; "total";
     "bulk"; "vadh quantity"; "besi"; "saba"; "kilo"; "litre";
     "wholesale"; "bada order"; "kete kilo"; "total"; "bulk";
     "besi quantity"; "kooduthal"; "ellam"; "kilo"; "litre"; "wholesale";
     "valiya order"; "ethra kilo"; "total"; "bulk"; "kooduthal quantity";
     "besi"; "xokolo"; "kilo"; "litre"; "wholesale"; "boro order";
     "kiman kilo"; "total"; "bulk"; "besi quantity"; "zyada"; "sab";
     "kilo"; "litre"; "wholesale"; "bara order"; "kitna kilo"; "total";
     "bulk"; "zyada quantity"; "vadh"; "sab"; "kilo"; "litre";
     "wholesale"; "vaddo order"; "ketro kilo"; "total"; "bulk";
     "vadh quantity"; "zyada"; "sab"; "kilo"; "litre"; "wholesale";
     "bado order"; "kati kilo"; "total"; "bulk"; "zyada quantity";
     "besi"; "sab"; "kilo"; "litre"; "wholesale"; "bara order";
     "kete kilo"; "total"; "bulk"; "besi quantity"; "jyada"; "sab";
     "kilo"; "litre"; "wholesale"; "bara order"; "ketna kilo"; "total";
     "bulk"; "jyada quantity"; "jyada"; "sab"; "kilo"; "litre";
     "wholesale"; "bara order"; "ketna kilo"; "total"; "bulk";
     "jyada quantity"; "vadh"; "sab"; "kilo"; "litre"; "wholesale";
     "moto order"; "ketlo kilo"; "total"; "bulk"; "vadh quantity";
     "jast"; "soglim"; "kilo"; "litre"; "wholesale"; "vhodd order";
     "kitlem kilo"; "total"; "bulk"; "jast quantity"; "besi"; "sanam";
     "kilo"; "litre"; "wholesale"; "maran order"; "chetan kilo"; "total";
     "bulk"; "besi quantity"; "yamna"; "pumnamak"; "kilo"; "litre";
     "wholesale"; "achouba order"; "kaya kilo"; "total"; "bulk";
     "yamna quantity"; "gohom"; "mwi"; "kilo"; "litre"; "wholesale";
     "gidang order"; "mansi kilo"; "total"; "bulk"; "gohom quantity";
     "mota"; "sara"; "kilo"; "litre"; "wholesale"; "wadda order";
     "kinna kilo"; "total"; "bulk"; "mota quantity"; "mucho"; "todo";
     "kilo"; "litro"; "mayoreo"; "gran pedido"; "cuanto kilo"; "total";
     "bulk"; "mucha cantidad"; "beaucoup"; "tout"; "kilo"; "litre";
     "gros"; "grande commande"; "combien kilo"; "total"; "bulk";
     "grande quantite"; "katheer"; "kull"; "kilo"; "litr"; "jumla";
     "talab kabeer"; "kam kilo"; "majmoo"; "bulk"; "kammiya kabeera";
     "muito"; "tudo"; "kilo"; "litro"; "atacado"; "grande pedido";
     "quanto kilo"; "total"; "bulk"; "muita quantidade"
   ]%string.

Definition bulk_purchase_phrases : list jsstring :=
  map lit
   [
     "buy in bulk"; "large quantity"; "wholesale price"; "bulk discount";
     "how much for"; "rate per kg"; "per kilo"; "per liter"
   ]%string.

Definition casual_inquiry_keywords : list jsstring :=
  map lit
   [
     "what"; "which"; "where"; "when"; "how"; "available"; "have";
     "sell"; "fresh"; "quality"; "good"; "best"; "type"; "variety";
     "kind"; "kya"; "kaun"; "kahan"; "kab"; "kaise"; "hai"; "milta";
     "accha"; "taaza"; "quality"; "fresh"; "available"; "kya hai";
     "kya milta"; "accha hai"; "taaza hai"; "fresh hai"; "quality kaisi";
     "kahan se"; "kab aaya"; "yaava"; "elli"; "yaavaga"; "hegge"; "ide";
     "chennaagide"; "hosa"; "quality"; "fresh"; "sigutta";
     "yaav quality"; "hosa ide"; "fresh ide"; "chennaag ide";
     "elli sigutta"; "yaavaga banthu"; "enna"; "enga"; "eppo"; "eppadi";
     "irukku"; "nalla"; "fresh"; "quality"; "kidaikuma"; "nalla quality";
     "fresh ah irukka"; "enga kedaikum"; "enti"; "ekkada"; "eppudu";
     "ela"; "undi"; "manchidi"; "fresh"; "quality"; "dorukutunda";
     "manchi quality"; "fresh ga unda"; "ekkada dorukutundi"; "ki";
     "kothay"; "kokhon"; "kemne"; "ache"; "bhalo"; "fresh"; "quality";
     "pawa jay"; "bhalo quality"; "fresh ache"; "kothay pabo"; "kay";
     "kuthe"; "kevha"; "kase"; "ahe"; "changla"; "fresh"; "quality";
     "milte"; "changla quality"; "fresh ahe"; "kuthe milte"; "shu";
     "kya"; "kyare"; "kem"; "che"; "saras"; "fresh"; "quality"; "male";
     "saras quality"; "fresh che"; "kya male"; "ki"; "kithe"; "kado";
     "kive"; "hai"; "changa"; "fresh"; "quality"; "milda";
     "changa quality"; "fresh hai"; "kithe milda"; "kana"; "kouthi";
     "kebe"; "kemiti"; "achi"; "bhala"; "fresh"; "quality"; "miliba";
     "bhala quality"; "fresh achi"; "kouthi miliba"; "enthu"; "evide";
     "eppol"; "engane"; "undu"; "nalla"; "fresh"; "quality"; "kittum";
     "nalla quality"; "fresh aanu"; "evide kittum"; "ki"; "kot"; "keti";
     "kene"; "ase"; "bhal"; "fresh"; "quality"; "pam"; "bhal quality";
     "fresh ase"; "kot pam"; "kya"; "kahan"; "kab"; "kaise"; "hai";
     "achha"; "taaza"; "quality"; "milta"; "achhi quality"; "taaza hai";
     "kahan milta"; "kya"; "kithe"; "kado"; "kiven"; "ahe"; "sahi";
     "taajo"; "quality"; "milando"; "sahi quality"; "taajo ahe";
     "kithe milando"; "kya"; "kati"; "kus"; "kathan"; "chu"; "zanaan";
     "taaza"; "quality"; "milaan"; "zanaan quality"; "taaza chu";
     "kati milaan"; "ki"; "kahan"; "kakhon"; "kona"; "achi"; "nik";
     "taaja"; "quality"; "bhetait"; "nik quality"; "taaja achi";
     "kahan bhetait"; "ka"; "kahan"; "kab"; "kaise"; "ba"; "achha";
     "taaja"; "quality"; "milela"; "achha quality"; "taaja ba";
     "kahan milela"; "ka"; "kahan"; "kab"; "kaise"; "ba"; "achha";
     "taaja"; "quality"; "milela"; "achha quality"; "taaja ba";
     "kahan milela"; "kya"; "kyan"; "kado"; "kaise"; "hai"; "achho";
     "taajo"; "quality"; "mile"; "achho quality"; "taajo hai";
     "kyan mile"; "kitem"; "khoim"; "kedna"; "koxem"; "asa"; "borem";
     "fresh"; "quality"; "mellta"; "borem quality"; "fresh asa";
     "khoim mellta"; "china"; "okare"; "okte"; "chinate"; "menakata";
     "bhal"; "noa"; "quality"; "namaka"; "bhal quality"; "noa menakata";
     "okare namaka"; "kari"; "kadaida"; "karamda"; "karamna"; "lei";
     "phaba"; "anaba"; "quality"; "phangani"; "phaba quality";
     "anaba lei"; "kadaida phangani"; "ma"; "mobai"; "mwjang"; "maobai";
     "dong"; "gober"; "gidang"; "quality"; "mwn"; "gober quality";
     "gidang dong"; "mobai mwn"; "kya"; "kithe"; "kado"; "kive"; "hai";
     "changa"; "taaja"; "quality"; "milda"; "changa quality";
     "taaja hai"; "kithe milda"; "que"; "donde"; "cuando"; "como";
     "esta"; "bueno"; "fresco"; "calidad"; "hay"; "buena calidad";
     "esta fresco"; "donde hay"; "quoi"; "ou"; "quand"; "comment"; "est";
     "bon"; "frais"; "qualite"; "il y a"; "bonne qualite"; "est frais";
     "ou il y a"; "matha"; "ayn"; "mata"; "kayf"; "huwa"; "jayyid";
     "taazaj"; "jawda"; "yujad"; "jawda jayyida"; "taazaj huwa";
     "ayn yujad"; "que"; "onde"; "quando"; "como"; "esta"; "bom";
     "fresco"; "qualidade"; "tem"; "boa qualidade"; "esta fresco";
     "onde tem"
   ]%string.

Definition casual_inquiry_phrases : list jsstring :=
  map lit
   [
     "do you have"; "is it fresh"; "what varieties"; "which type";
     "how is quality"; "what do you sell"; "what is available"
   ]%string.

Definition grains_products : list jsstring :=
  map lit
   [
     "rice"; "wheat"; "dal"; "lentil"; "chawal"; "gehun"; "daal";
     "masoor"; "akki"; "godhi"; "bele"; "hesaru"; "arisi"; "godhumai";
     "paruppu"; "thuvarai"; "biyyam"; "godhuma"; "pappu"; "pesalu";
     "chal"; "gom"; "dal"; "masur"; "tandul"; "gahu"; "dal"; "masur";
     "chaval"; "ghau"; "dal"; "masur"; "chawal"; "kanak"; "dal"; "masur";
     "chaula"; "gahama"; "dal"; "masura"; "ari"; "gothambu"; "parippu";
     "cherupayar"; "bhat"; "ghom"; "dal"; "masur"; "chawal"; "gehun";
     "dal"; "masoor"; "chawar"; "kani"; "dal"; "masur"; "batta"; "kanak";
     "dal"; "masur"; "chaur"; "gahum"; "dal"; "masur"; "chaur"; "gahum";
     "dal"; "masur"; "chaur"; "gahum"; "dal"; "masur"; "chawal"; "gehun";
     "dal"; "masur"; "tandul"; "gavu"; "dal"; "masur"; "baha"; "gahum";
     "dal"; "masur"; "cheng"; "sam"; "dal"; "masur"; "bai"; "gahum";
     "dal"; "masur"; "chawal"; "kanak"; "dal"; "masur"
   ]%string.

Definition vegetables_products : list jsstring :=
  map lit
   [
     "onion"; "tomato"; "potato"; "carrot"; "pyaaz"; "tamatar"; "aloo";
     "gajar"; "eerulli"; "tamata"; "aalugadde"; "gajjari"; "vengayam";
     "thakkali"; "urulaikizhangu"; "carrot"; "ullipaya"; "tamata";
     "bangaladumpa"; "carrot"; "peyaj"; "tomato"; "aloo"; "gajor";
     "kanda"; "tamatar"; "batata"; "gajar"; "dungri"; "tameta"; "bataka";
     "gajar"; "piyaz"; "tamatar"; "aloo"; "gajar"; "piyaja"; "tamata";
     "aloo"; "gajara"; "ulli"; "thakkali"; "urulakizhangu"; "carrot";
     "piyaj"; "bilahi"; "aloo"; "gajor"; "pyaz"; "tamatar"; "aloo";
     "gajar"; "piyazu"; "tamatar"; "aloo"; "gajar"; "pyaz"; "tamatar";
     "aloo"; "gajar"; "piyaj"; "tamatar"; "aloo"; "gajar"; "piyaj";
     "tamatar"; "aloo"; "gajar"; "piyaj"; "tamatar"; "aloo"; "gajar";
     "piyaj"; "tamatar"; "aloo"; "gajar"; "kando"; "tamatar"; "batata";
     "gajar"; "piyaj"; "tamatar"; "aloo"; "gajar"; "tilhou"; "tamatar";
     "aloo"; "gajar"; "piyaj"; "tamatar"; "aloo"; "gajar"; "piyaz";
     "tamatar"; "aloo"; "gajar"
   ]%string.

Definition fruits_products : list jsstring :=
  map lit
   [
     "apple"; "banana"; "mango"; "orange"; "seb"; "kela"; "aam";
     "santra"; "sebu"; "balehannu"; "mavina"; "kittale"; "apple";
     "vazhaipazham"; "maanga"; "orange"; "apple"; "arati"; "mamidi";
     "orange"; "apple"; "kola"; "aam"; "komla"; "safarchand"; "kela";
     "amba"; "santra"; "apple"; "kela"; "keri"; "santra"; "seb"; "kela";
     "aam"; "santra"; "apple"; "kadali"; "amba"; "komala"; "apple";
     "vazha"; "manga"; "orange"; "apple"; "kol"; "aam"; "komola"; "seb";
     "kela"; "aam"; "santra"; "seb"; "kela"; "aam"; "santra"; "seb";
     "kela"; "aam"; "santra"; "seb"; "kera"; "aam"; "santra"; "seb";
     "kera"; "aam"; "santra"; "seb"; "kera"; "aam"; "santra"; "seb";
     "kela"; "aam"; "santra"; "apple"; "kela"; "mango"; "santra";
     "apple"; "kela"; "aam"; "orange"; "apple"; "laphu"; "heinou";
     "orange"; "apple"; "kela"; "thaigri"; "orange"; "seb"; "kela";
     "aam"; "santra"
   ]%string.

Definition dairy_products : list jsstring :=
  map lit
   [
     "milk"; "egg"; "cheese"; "doodh"; "anda"; "paneer"; "haalu";
     "motte"; "paneer"; "paal"; "muttai"; "paneer"; "palu"; "guddu";
     "paneer"; "dudh"; "dim"; "paneer"; "dudh"; "ande"; "paneer"; "dudh";
     "anda"; "paneer"; "dudh"; "anda"; "paneer"; "dudha"; "anda";
     "paneer"; "paal"; "mutta"; "paneer"; "gakhir"; "koni"; "paneer";
     "doodh"; "anda"; "paneer"; "kheeru"; "ando"; "paneer"; "doodh";
     "anda"; "paneer"; "dudh"; "anda"; "paneer"; "dudh"; "anda";
     "paneer"; "dudh"; "anda"; "paneer"; "dudh"; "ando"; "paneer";
     "dudh"; "ande"; "paneer"; "dudh"; "sim"; "paneer"; "singju";
     "ankukpa"; "paneer"; "dudh"; "dao"; "paneer"; "dudh"; "anda";
     "paneer"
   ]%string.

Definition meat_products : list jsstring :=
  map lit
   [
     "chicken"; "fish"; "mutton"; "murgi"; "machli"; "bakra"; "koli";
     "meenu"; "kuri"; "kozhi"; "meen"; "aadu"; "kodi"; "chepa"; "meka";
     "murgi"; "mach"; "khashi"; "kombdi"; "masa"; "mutton"; "murgi";
     "machhi"; "mutton"; "murga"; "machhi"; "bakra"; "kukkuta"; "machha";
     "chhaaga"; "kozhi"; "meen"; "aadu"; "kukura"; "mas"; "sagoli";
     "murgi"; "machli"; "bakra"; "murgi"; "machhi"; "bakro"; "kokur";
     "gaad"; "mesh"; "murgi"; "machh"; "bakra"; "murgi"; "machh";
     "bakra"; "murgi"; "machh"; "bakra"; "murgi"; "machli"; "bakro";
     "kombdi"; "nustem"; "rend"; "sim"; "hako"; "merom"; "yen"; "nga";
     "shan"; "dao"; "na"; "mosou"; "murga"; "machhi"; "bakra"
   ]%string.

Definition cooking_products : list jsstring :=
  map lit
   [
     "oil"; "sugar"; "salt"; "tel"; "cheeni"; "namak"; "enne"; "sakkare";
     "uppu"; "ennai"; "sakkarai"; "uppu"; "nune"; "bellam"; "uppu";
     "tel"; "chini"; "noon"; "tel"; "sakhar"; "mith"; "tel"; "khand";
     "mithu"; "tel"; "cheeni"; "namak"; "tela"; "chini"; "laban"; "enna";
     "sarkara"; "uppu"; "tel"; "cheni"; "noon"; "tel"; "cheeni"; "namak";
     "tel"; "khando"; "mitho"; "tel"; "khand"; "noon"; "tel"; "chini";
     "noon"; "tel"; "chini"; "noon"; "tel"; "chini"; "noon"; "tel";
     "khand"; "noon"; "tel"; "sakhar"; "mith"; "tel"; "chini"; "noon";
     "thao"; "chini"; "thum"; "tel"; "chini"; "khaar"; "tel"; "cheeni";
     "namak"
   ]%string.

(** [constructor()] *)
Definition new : Classifier :=
  {| intentPatterns := fun intent =>
       match intent with
       | bargaining =>
           {| keywords := bargaining_keywords; phrases := bargaining_phrases |}
       | bulk_purchase =>
           {| keywords := bulk_purchase_keywords;
              phrases := bulk_purchase_phrases |}
       | casual_inquiry =>
           {| keywords := casual_inquiry_keywords;
              phrases := casual_inquiry_phrases |}
       end;
     productPatterns :=
       [ (lit "grains", grains_products);
         (lit "vegetables", vegetables_products);
         (lit "fruits", fruits_products);
         (lit "dairy", dairy_products);
         (lit "meat", meat_products);
         (lit "cooking", cooking_products) ];
     quantityPatterns :=
       map (map lit)
         [ ["kg"; "kilo"; "kilogram"];
           ["g"; "gram"; "grams"];
           ["l"; "liter"; "litre"];
           ["piece"; "pieces"; "pc"];
           ["dozen"; "doz"];
           ["box"; "boxes"];
           ["bag"; "bags"; "sack"] ]%string |}.

End IntentClassifier.

(** ** TranslationEngine *)

Module TranslationEngine.
Import JS Data Regex.

Record Engine := {
  tradePhrasesTemplates : list (jsstring * list (jsstring * list jsstring));
  commonTranslations : list (jsstring * list (jsstring * jsstring));
  tonePatterns : list (jsstring * list jsstring)
}.

Definition pairs (l : list (string * string)) : list (jsstring * jsstring) :=
  map (fun p => (lit (fst p), lit (snd p))) l.

(** [constructor()] *)
Definition new : Engine :=
  {| tradePhrasesTemplates :=
       [ (lit "english",
          [ (lit "price_inquiry",
             map lit [ "What is the price of {product}?";
                       "How much does {product} cost?";
                       "What is the rate for {product}?" ]%string);
            (lit "bargaining",
             map lit [ "Can you reduce the price of {product}?";
                       "This is too expensive for {product}.";
                       "What is your best price for {product}?";
                       "Can you give a discount on {product}?" ]%string);
            (lit "bulk_purchase",
             map lit [ "What is the wholesale price for {product}?";
                       "I want to buy {quantity} {product}.";
                       "Do you give bulk discount for {product}?" ]%string);
            (lit "acceptance",
             map lit [ "I will take {product} at this price.";
                       "This price is acceptable for {product}.";
                       "Okay, I agree to buy {product}." ]%string);
            (lit "rejection",
             map lit [ "This price is too high for {product}.";
                       "I cannot afford {product} at this rate.";
                       "Sorry, this is beyond my budget for {product}." ]%string) ]);
         (lit "hindi",
          [ (lit "price_inquiry",
             map lit [ "{product} ka daam kya hai?";
                       "{product} kitne mein milega?";
                       "{product} ka rate kya hai?" ]%string);
            (lit "bargaining",
             map lit [ "{product} ka daam kam kar sakte hain?";
                       "Yeh {product} bahut mehenga hai.";
                       "{product} ka best price kya hai?";
                       "{product} mein discount mil sakta hai?" ]%string);
            (lit "bulk_purchase",
             map lit [ "{product} ka wholesale rate kya hai?";
                       "Mujhe {quantity} {product} chahiye.";
                       "{product} mein bulk discount milega?" ]%string);
            (lit "acceptance",
             map lit [ "Main {product} is daam mein le lunga.";
                       "{product} ka yeh daam theek hai.";
                       "Accha, main {product} kharid lunga." ]%string);
            (lit "rejection",
             map lit [ "{product} ka daam bahut zyada hai.";
                       "Main {product} itne mein nahi le sakta.";
                       "Maaf kijiye, {product} mere budget se zyada hai." ]%string) ]);
         (lit "kannada",
          [ (lit "price_inquiry",
             map lit [ "{product} bele eshtu?";
                       "{product} eshtu duddu?";
                       "{product} rate enu?" ]%string);
            (lit "bargaining",
             map lit [ "{product} bele kammi maadtira?";
                       "Ee {product} tumba jaasti.";
                       "{product} best price enu?";
                       "{product} nalli discount sigutta?" ]%string);
            (lit "bulk_purchase",
             map lit [ "{product} wholesale rate enu?";
                       "Nanage {quantity} {product} beku.";
                       "{product} nalli bulk discount sigutta?" ]%string);
            (lit "acceptance",
             map lit [ "Naanu {product} ee bele nalli tagoltini.";
                       "{product} ee bele olledu.";
                       "Sari, naanu {product} kondukolteeni." ]%string);
            (lit "rejection",
             map lit [ "{product} bele tumba jaasti.";
                       "Naanu {product} eshtu duddu nalli tagolla sakilla.";
                       "Kshamissi, {product} nanna budget gintha jaasti." ]%string) ]) ];
     commonTranslations :=
       [ (lit "english_to_hindi",
          pairs [ ("price", "daam"); ("cost", "kimat");
                  ("expensive", "mehenga"); ("cheap", "sasta");
                  ("discount", "chhoot"); ("quality", "gunvatta");
                  ("fresh", "taaza"); ("good", "accha");
                  ("kg", "kilo"); ("liter", "litre");
                  ("piece", "tukda"); ("dozen", "darjan") ]%string);
         (lit "english_to_kannada",
          pairs [ ("price", "bele"); ("cost", "duddu");
                  ("expensive", "jaasti"); ("cheap", "kammi");
                  ("discount", "discount"); ("quality", "gunvatta");
                  ("fresh", "hosa"); ("good", "chennaagide");
                  ("kg", "kilo"); ("liter", "litre");
                  ("piece", "piece"); ("dozen", "dozen") ]%string);
         (lit "hindi_to_english",
          pairs [ ("daam", "price"); ("kimat", "cost");
                  ("mehenga", "expensive"); ("sasta", "cheap");
                  ("chhoot", "discount"); ("accha", "good");
                  ("taaza", "fresh"); ("kilo", "kg") ]%string);
         (lit "kannada_to_english",
          pairs [ ("bele", "price"); ("duddu", "cost");
                  ("jaasti", "expensive"); ("kammi", "cheap");
                  ("chennaagide", "good"); ("hosa", "fresh");
                  ("kilo", "kg") ]%string) ];
     tonePatterns :=
       [ (lit "polite",
          map lit ["please"; "kindly"; "if possible"; "kripaya";
                   "dayavittu"]%string);
         (lit "urgent",
          map lit ["quickly"; "fast"; "immediately"; "jaldi"; "bega"]%string);
         (lit "respectful",
          map lit ["sir"; "madam"; "sahab"; "amma"; "ayya"]%string);
         (lit "friendly",
          map lit ["brother"; "sister"; "bhai"; "didi"; "anna";
                   "akka"]%string) ] |}.

Section WithHost.
Context {host : Host}.

Definition normalizeLanguageCode (language : Tag) : Tag :=
  let langMap :=
    pairs [ ("en-US", "english"); ("hi-IN", "hindi"); ("kn-IN", "kannada");
            ("english", "english"); ("hindi", "hindi");
            ("kannada", "kannada") ]%string in
  orTag (get langMap (keyText language)) (lit "english").

End WithHost.

Definition createPatternFromTemplate (template : jsstring) : list Segment :=
  segmentsFrom 0 [] template.

Definition fillTemplate (template : jsstring) (intent : ClassifiedIntent)
  : jsstring :=
  let filled := template in
  (* Replace placeholders with actual values *)
  let filled :=
    if (truthy (product intent)
        && negb (str_eqb (product intent) (lit "unknown")))%bool
    then replaceLiteral (lit "{product}") (product intent) filled
    else filled in
  let filled :=
    match quantity intent with
    | Some q =>
        let quantityStr := Z_toString (amount q) ++ lit " " ++ q_unit q in
        replaceLiteral (lit "{quantity}") quantityStr filled
    | None => filled
    end in
  (* Remove unfilled placeholders *)
  let filled := removePlaceholders filled in
  trim filled.

(** [templates[intent.type]]; the key is ["undefined"] when the intent has
    no type. *)
Definition typeKey (intent : ClassifiedIntent) : jsstring :=
  match type intent with
  | Some t => typeName t
  | None => lit "undefined"
  end.

Section WithHost.
Context {host : Host}.

Definition translateUsingTemplates (this : Engine) (text : Value)
  (fromLang toLang : Tag) (intent : option ClassifiedIntent)
  : Exc (option jsstring) :=
  match intent with
  | None => Ok None
  | Some intent =>
      s <- asString text ;;
      let normalizedText := trim (toLowerCase s) in
      (* Check if text matches any template pattern *)
      match get (tradePhrasesTemplates this) (keyText fromLang) with
      | Undefined => Ok None
      | Inherited _ => Throw typeError     (* no templates to iterate over *)
      | Own templates =>
          (* Look for matching patterns in the intent category *)
          intentTemplates <-
            match lookup templates (typeKey intent) with
            | Some ts => Ok ts
            | None =>
                match lookup templates (lit "price_inquiry") with
                | Some ts => Ok ts
                | None => Throw typeError
                end
            end ;;
          let fix loop (ts : list jsstring) : Exc (option jsstring) :=
            match ts with
            | [] => Ok None
            | template :: rest =>
                let pattern := createPatternFromTemplate template in
                if testSegments pattern normalizedText
                then
                  (* Found a matching template, translate it; a member of
                     Object.prototype in the place of the target templates
                     has no templates for the intent *)
                  match lookup (tradePhrasesTemplates this) (keyText toLang) with
                  | Some targetTemplates =>
                      match lookup targetTemplates (typeKey intent) with
                      | Some targets =>
                          match targets with
                          | targetTemplate :: _ =>   (* Use first template *)
                              Ok (Some (fillTemplate targetTemplate intent))
                          | [] => Throw typeError
                          end
                      | None => loop rest
                      end
                  | None => loop rest
                  end
                else loop rest
            end in
          loop intentTemplates
      end
  end.

(** [`${fromLang}_to_${toLang}`] *)
Definition translationKey (fromLang toLang : Tag) : jsstring :=
  keyText fromLang ++ lit "_to_" ++ keyText toLang.

Definition translateWords (this : Engine) (text : Value)
  (fromLang toLang : Tag) : Exc Value :=
  match getRecord [] (commonTranslations this)
          (translationKey fromLang toLang) with
  | None => Ok text      (* No translation available *)
  | Some translations =>
      s <- asString text ;;
      let translatedText := toLowerCase s in
      (* Replace known words *)
      Ok (VString
            (fold_left (fun translatedText entry =>
                          replaceWord (fst entry) (snd entry) translatedText)
                       translations translatedText))
  end.

End WithHost.

Definition toneMarkers : list (jsstring * list (jsstring * jsstring)) :=
  [ (lit "english",
     pairs [ ("polite", "please "); ("urgent", "quickly ");
             ("respectful", "sir/madam "); ("friendly", "friend ") ]%string);
    (lit "hindi",
     pairs [ ("polite", "kripaya "); ("urgent", "jaldi ");
             ("respectful", "sahab "); ("friendly", "bhai ") ]%string);
    (lit "kannada",
     pairs [ ("polite", "dayavittu "); ("urgent", "bega ");
             ("respectful", "ayya "); ("friendly", "anna ") ]%string) ].

Section WithHost.
Context {host : Host}.

(** [language] is a language of [normalizeLanguageCode]: one of the three
    names, or a member of [Object.prototype], whose text is no name of a
    member.  [tone] is a key of [tonePatterns]; when it names a member of
    [Object.prototype], the marker is that member and its [trim] is not a
    function. *)
Definition addToneMarkers (text tone : jsstring) (language : Tag)
  : Exc jsstring :=
  match lookup toneMarkers (keyText language) with
  | Some markers =>
      match get markers tone with
      | Own ((_ :: _) as marker) =>
          if negb (includes text (trim marker))
          then Ok (marker ++ text) else Ok text
      | Inherited _ => Throw typeError
      | _ => Ok text
      end
  | None => Ok text
  end.

(** [Array.prototype.forEach] with a body that updates one variable and
    may throw. *)
Fixpoint forEachUpdate {A S} (f : S -> A -> Exc S) (l : list A) (state : S)
  : Exc S :=
  match l with
  | [] => Ok state
  | x :: l' => state' <- f state x ;; forEachUpdate f l' state'
  end.

Definition preserveNegotiationTone (this : Engine)
  (translatedText originalText : Value) (targetLanguage : Tag)
  : Exc jsstring :=
  original <- asString originalText ;;
  let originalLower := toLowerCase original in
  tonePreservedText <- asString translatedText ;;
  (* Detect and preserve tone *)
  forEachUpdate
    (fun tonePreservedText entry =>
       forEachUpdate
         (fun tonePreservedText pattern =>
            if includes originalLower pattern
            then addToneMarkers tonePreservedText (fst entry) targetLanguage
            else Ok tonePreservedText)
         (snd entry) tonePreservedText)
    (tonePatterns this) tonePreservedText.

Definition translate_try (this : Engine) (text : Value)
  (fromLanguage toLanguage : Tag) (intent : option ClassifiedIntent)
  : Exc Value :=
  (* If same language, return original text *)
  if tag_eqb fromLanguage toLanguage then Ok text
  else
    (* Normalize language codes *)
    let fromLang := normalizeLanguageCode fromLanguage in
    let toLang := normalizeLanguageCode toLanguage in
    (* Try template-based translation first *)
    templateTranslation <-
      translateUsingTemplates this text fromLang toLang intent ;;
    match templateTranslation with
    | Some ((_ :: _) as t) => Ok (VString t)
    | _ =>
        (* Use word-by-word translation with tone preservation *)
        wordTranslation <- translateWords this text fromLang toLang ;;
        (* Preserve negotiation tone *)
        tonePreservedTranslation <-
          preserveNegotiationTone this wordTranslation text toLang ;;
        (* Fallback to original if translation fails *)
        if truthy tonePreservedTranslation
        then Ok (VString tonePreservedTranslation)
        else Ok text
    end.

Definition translate (this : Engine) (text : Value)
  (fromLanguage toLanguage : Tag) (intent : option ClassifiedIntent)
  : Value :=
  catch (translate_try this text fromLanguage toLanguage intent)
        (fun _ => text).     (* Return original text on error *)

End WithHost.

End TranslationEngine.

(** ** ResponseGenerator *)

Module ResponseGenerator.
Import JS Data Regex.

Record PriceGuidance := {
  with_price : jsstring;
  price_range : jsstring;
  no_price : jsstring
}.

Record NegotiationAdvice := {
  counter_offer : jsstring;
  accept_offer : jsstring;
  decline_offer : jsstring
}.

Record BulkPricing := {
  eligible : jsstring;
  not_eligible : jsstring
}.

Record CulturalGuidance := {
  respectful : jsstring;
  flexible : jsstring;
  firm : jsstring
}.

Record Templates := {
  price_guidance : PriceGuidance;
  negotiation_advice : NegotiationAdvice;
  bulk_pricing : BulkPricing;
  cultural_guidance : CulturalGuidance
}.

Record Generator := {
  responseTemplates : list (jsstring * Templates)
}.

(** The rupee sign, U+20B9. *)
Definition rs : jsstring := [8377%N].

(** [constructor()] *)
Definition new : Generator :=
  {| responseTemplates :=
       [ (lit "english",
          {| price_guidance :=
               {| with_price :=
                    lit "Based on current market conditions, {product} is priced at "
                    ++ rs ++ lit "{price} per {unit}. {guidance}";
                  price_range :=
                    lit "For {product}, the market range is " ++ rs
                    ++ lit "{minPrice} to " ++ rs
                    ++ lit "{maxPrice} per {unit}. {guidance}";
                  no_price :=
                    lit "I don't have current pricing for {product}, but I can help you with general guidance. {guidance}" |};
             negotiation_advice :=
               {| counter_offer :=
                    lit "Consider offering " ++ rs
                    ++ lit "{price} per {unit}. {reasoning}";
                  accept_offer :=
                    lit "This is a good offer at " ++ rs
                    ++ lit "{price} per {unit}. {reasoning}";
                  decline_offer :=
                    lit "This price is below your minimum. {reasoning}" |};
             bulk_pricing :=
               {| eligible :=
                    lit "For {quantity} {unit}, you can offer bulk pricing at "
                    ++ rs ++ lit "{bulkPrice} per {unit} (" ++ rs
                    ++ lit "{savings} savings).";
                  not_eligible :=
                    lit "Bulk pricing starts at {threshold} {unit}. Current quantity is {quantity} {unit}." |};
             cultural_guidance :=
               {| respectful :=
                    lit "Remember to be respectful and patient during negotiations.";
                  flexible :=
                    lit "You have room for negotiation with this product.";
                  firm :=
                    lit "Maintain your price - this is already a fair deal." |} |});
         (lit "hindi",
          {| price_guidance :=
               {| with_price :=
                    lit "Bazaar ke hisaab se, {product} ka daam " ++ rs
                    ++ lit "{price} per {unit} hai. {guidance}";
                  price_range :=
                    lit "{product} ke liye bazaar mein " ++ rs
                    ++ lit "{minPrice} se " ++ rs
                    ++ lit "{maxPrice} per {unit} tak milta hai. {guidance}";
                  no_price :=
                    lit "Mujhe {product} ka current rate nahi pata, lekin main aapko general guidance de sakta hun. {guidance}" |};
             negotiation_advice :=
               {| counter_offer :=
                    rs ++ lit "{price} per {unit} offer kar sakte hain. {reasoning}";
                  accept_offer :=
                    rs ++ lit "{price} per {unit} mein accha deal hai. {reasoning}";
                  decline_offer :=
                    lit "Yeh price aapke minimum se kam hai. {reasoning}" |};
             bulk_pricing :=
               {| eligible :=
                    lit "{quantity} {unit} ke liye bulk rate " ++ rs
                    ++ lit "{bulkPrice} per {unit} de sakte hain (" ++ rs
                    ++ lit "{savings} ki bachat).";
                  not_eligible :=
                    lit "Bulk pricing {threshold} {unit} se shuru hoti hai. Abhi {quantity} {unit} hai." |};
             cultural_guidance :=
               {| respectful :=
                    lit "Negotiation mein respect aur patience rakhiye.";
                  flexible :=
                    lit "Is product mein negotiation ki gunjaish hai.";
                  firm :=
                    lit "Apna price maintain kariye - yeh already fair deal hai." |} |});
         (lit "kannada",
          {| price_guidance :=
               {| with_price :=
                    lit "Market nalli, {product} bele " ++ rs
                    ++ lit "{price} per {unit} ide. {guidance}";
                  price_range :=
                    lit "{product} ge market nalli " ++ rs
                    ++ lit "{minPrice} to " ++ rs
                    ++ lit "{maxPrice} per {unit} sigutta. {guidance}";
                  no_price :=
                    lit "Nanage {product} current rate gottilla, aadre general guidance kodabaudu. {guidance}" |};
             negotiation_advice :=
               {| counter_offer :=
                    rs ++ lit "{price} per {unit} offer maadabaudu. {reasoning}";
                  accept_offer :=
                    rs ++ lit "{price} per {unit} nalli chennaagide. {reasoning}";
                  decline_offer :=
                    lit "Ee price nimma minimum gintha kammi. {reasoning}" |};
             bulk_pricing :=
               {| eligible :=
                    lit "{quantity} {unit} ge bulk rate " ++ rs
                    ++ lit "{bulkPrice} per {unit} kodabaudu (" ++ rs
                    ++ lit "{savings} save aagutta).";
                  not_eligible :=
                    lit "Bulk pricing {threshold} {unit} ninda start aagutta. Eeega {quantity} {unit} ide." |};
             cultural_guidance :=
               {| respectful :=
                    lit "Negotiation nalli respect mattu patience iddkoli.";
                  flexible :=
                    lit "Ee product nalli negotiation maadabaudu.";
                  firm :=
                    lit "Nimma price maintain maadi - idu already fair deal." |} |}) ] |}.

(** A value of the [variables] object of [fillTemplate]: a string, an
    integer, a value of [Math.round], or [null]. *)
Inductive Var :=
| VarString (s : jsstring)
| VarNumber (z : Z)
| VarRounded (x : Float64.Number)
| VarNull.

(** [String(x)] for a value of [Math.round]: an integer with all its
    digits, as [String] writes a number below [10^21], or [NaN], or an
    infinity. *)
Definition roundedText (x : Float64.Number) : jsstring :=
  match x with
  | Float64.NaN => lit "NaN"
  | Float64.Infinity false => lit "Infinity"
  | Float64.Infinity true => lit "-Infinity"
  | Float64.Fin q => Z_toString (Qfloor q)
  end.

(** [value || ''], converted to a string by [replace]. *)
Definition varText (v : Var) : jsstring :=
  match v with
  | VarString s => s
  | VarNumber z => if (z =? 0)%Z then [] else Z_toString z
  | VarRounded x => if Float64.falsy x then [] else roundedText x
  | VarNull => []
  end.

(** The keys of the program are plain words, so the regular expression
    built from [{key}] stands for its own text. *)
Definition fillTemplate (template : jsstring) (variables : list (jsstring * Var))
  : jsstring :=
  let filled :=
    fold_left
      (fun filled entry =>
         let placeholder := lit "{" ++ fst entry ++ lit "}" in
         replaceLiteral placeholder (varText (snd entry)) filled)
      variables template in
  (* Clean up any remaining placeholders *)
  let filled := removePlaceholders filled in
  (* Clean up extra spaces *)
  trim (collapseSpaces filled).

Definition maxLength : nat := 300.   (* Maximum characters for mobile display *)

(** The [for] loop of [formatForDisplay], with its [break]. *)
Fixpoint truncateSentences (truncated : jsstring) (sentences : list jsstring)
  : jsstring :=
  match sentences with
  | [] => truncated
  | sentence :: rest =>
      if (length (truncated ++ sentence ++ lit ". ") <=? maxLength)%nat
      then truncateSentences (truncated ++ sentence ++ lit ". ") rest
      else truncated
  end.

Record Display := {
  d_text : jsstring;
  originalLength : nat;
  truncated : bool
}.

Definition formatForDisplay (text : jsstring) : Display :=
  let displayText :=
    if (maxLength <? length text)%nat
    then
      (* Truncate at sentence boundary if possible *)
      let sentences := split (lit ". ") text in
      let truncated := truncateSentences [] sentences in
      match trim truncated with
      | (_ :: _) as t => t
      | [] => substring0 (maxLength - 3) text ++ lit "..."
      end
    else text in
  {| d_text := displayText;
     originalLength := length text;
     truncated := (length displayText <? length text)%nat |}.

Section WithHost.
Context {host : Host}.

Definition normalizeLanguage (language : Tag) : Tag :=
  let langMap :=
    TranslationEngine.pairs
      [ ("en-US", "english"); ("hi-IN", "hindi"); ("kn-IN", "kannada");
        ("english", "english"); ("hindi", "hindi");
        ("kannada", "kannada") ]%string in
  orTag (get langMap (keyText language)) (lit "english").

(** [this.responseTemplates[language].group.template]: the read throws
    when the language has no templates, and also when [language] names a
    member of [Object.prototype], which has no group of templates. *)
Definition templatesFor (this : Generator) (language : Tag)
  : Exc Templates :=
  match get (responseTemplates this) (keyText language) with
  | Own t => Ok t
  | Inherited _ | Undefined => Throw typeError
  end.

Definition generatePriceGuidance (this : Generator) (priceData : PriceInfo)
  (language : Tag) : Exc jsstring :=
  let flexibility :=
    match priceData with
    | OfRange r => orStr (Some (flexibility (negotiation r))) (lit "moderate")
    | OfQuote _ => lit "moderate"
    end in
  t <- templatesFor this language ;;
  let templates := cultural_guidance t in
  if str_eqb flexibility (lit "high") then Ok (flexible templates)
  else if str_eqb flexibility (lit "low") then Ok (firm templates)
  else Ok (respectful templates).

Definition optVar (s : option jsstring) : Var :=
  match s with
  | Some s => VarString s
  | None => VarNull
  end.

Definition generatePrimaryResponse (this : Generator)
  (intent : ClassifiedIntent) (priceData : option PriceInfo)
  (language : Tag) : Exc jsstring :=
  templates <- templatesFor this language ;;
  match priceData with
  | None =>
      Ok (fillTemplate (no_price (price_guidance templates))
            [ (lit "product",
               VarString (orStr (Some (product intent)) (lit "this item")));
              (lit "guidance",
               VarString (lit "Let me help you with what I can.")) ])
  | Some (OfRange r as priceData) =>
      (* Generate price-based response *)
      guidance <- generatePriceGuidance this priceData language ;;
      Ok (fillTemplate (price_range (price_guidance templates))
            [ (lit "product", VarString (pr_product r));
              (lit "minPrice", VarNumber (minimum (ranges r)));
              (lit "maxPrice", VarNumber (premium (ranges r)));
              (lit "unit", VarString (pr_unit r));
              (lit "guidance", VarString guidance) ])
  | Some (OfQuote q as priceData) =>
      guidance <- generatePriceGuidance this priceData language ;;
      Ok (fillTemplate (with_price (price_guidance templates))
            [ (lit "product", optVar (PriceDiscoveryEngine.product q));
              (lit "price", VarRounded (PriceDiscoveryEngine.marketPrice q));
              (lit "unit", VarString (PriceDiscoveryEngine.unit q));
              (lit "guidance", VarString guidance) ])
  end.

(** [this.responseTemplates[language].negotiation_advice]: the read
    throws when the language has no templates; for a member of
    [Object.prototype] it yields [undefined], and the later read of
    [templates.counter_offer] throws. *)
Definition generateNegotiationResponse (this : Generator)
  (negotiationGuidance : NegotiationAssistant.Guidance) (language : Tag)
  : Exc jsstring :=
  match NegotiationAssistant.counterOffers negotiationGuidance with
  | [] => Ok []
  | offers =>
      templates <-
        match get (responseTemplates this) (keyText language) with
        | Own t => Ok (Some (negotiation_advice t))
        | Inherited _ => Ok None
        | Undefined => Throw typeError
        end ;;
      let recommendedOffer := find NegotiationAssistant.recommended offers in
      match recommendedOffer with
      | Some offer =>
          match NegotiationAssistant.price offer with
          | Some p =>
              if (p =? 0)%Z then Ok []
              else
                match templates with
                | Some templates =>
                    Ok (fillTemplate (counter_offer templates)
                          [ (lit "price", VarNumber p);
                            (lit "unit", VarString (lit "kg"));   (* Default unit *)
                            (lit "reasoning",
                             VarString (NegotiationAssistant.o_message offer)) ])
                | None => Throw typeError
                end
          | None => Ok []
          end
      | None => Ok []
      end
  end.

Definition culturalTranslations : list (jsstring * list (jsstring * jsstring)) :=
  [ (lit "english",
     TranslationEngine.pairs
       [ ("Allow time for customer consideration",
          "Give the customer time to think.");
         ("Maintain respectful dialogue", "Keep the conversation respectful.");
         ("Avoid aggressive pressure tactics",
          "Don't pressure the customer too much.") ]%string);
    (lit "hindi",
     TranslationEngine.pairs
       [ ("Allow time for customer consideration",
          "Customer ko sochne ka time dijiye.");
         ("Maintain respectful dialogue", "Baat-cheet mein respect rakhiye.");
         ("Avoid aggressive pressure tactics",
          "Customer par zyada pressure na daliye.") ]%string);
    (lit "kannada",
     TranslationEngine.pairs
       [ ("Allow time for customer consideration",
          "Customer ge aalochane maadakke time kodi.");
         ("Maintain respectful dialogue", "Maatanaaduvaga respect iddkoli.");
         ("Avoid aggressive pressure tactics",
          "Customer mele jaasti pressure haakbeda.") ]%string) ].

(** [language] is a language of [normalizeLanguage]: one of the three
    names, or a member of [Object.prototype], whose text is no name of a
    member.  [guidance] is any string: when it names a member of
    [Object.prototype], the result is that member. *)
Definition translateCulturalGuidance (guidance : jsstring) (language : Tag)
  : Tag :=
  let translations :=
    match lookup culturalTranslations (keyText language) with
    | Some t => t
    | None =>
        match lookup culturalTranslations (lit "english") with
        | Some t => t
        | None => []
        end
    end in
  orTag (get translations guidance) guidance.

Definition generateCulturalResponse
  (culturalContext : NegotiationAssistant.CulturalContext)
  (language : Tag) : Tag :=
  (* Select most relevant cultural guidance *)
  let guidance :=
    orStr (hd_error (NegotiationAssistant.customary culturalContext))
          (lit "Be respectful in your negotiations.") in
  (* Translate cultural guidance to appropriate language *)
  translateCulturalGuidance guidance language.

(** [response.trim()] in the filter of [combineResponses] throws for a
    response that is not a string. *)
Definition responseText (response : Tag) : Exc jsstring :=
  match response with
  | Str s => Ok s
  | Member _ => Throw typeError
  end.

(** [connectors[language] || '. '], as the separator of [join]: a member
    of [Object.prototype] found under [language] is joined in as its
    text. *)
Definition connectorFor (language : Tag) : jsstring :=
  let connectors :=
    TranslationEngine.pairs
      [ ("english", ". "); ("hindi", ". "); ("kannada", ". ") ]%string in
  match get connectors (keyText language) with
  | Own ((_ :: _) as connector) => connector
  | Inherited name => memberText name
  | _ => lit ". "
  end.

Definition combineResponses (responses : list jsstring) (language : Tag)
  : jsstring :=
  (* Filter out empty responses *)
  let validResponses :=
    filter (fun response =>
              (truthy response && (0 <? length (trim response))%nat)%bool)
           responses in
  (* Join responses with appropriate connectors *)
  let connector := connectorFor language in
  join connector validResponses.

(** The argument [data] of [formatResponse]; a caller that leaves
    [negotiationGuidance] out makes the body throw. *)
Record ResponseData := {
  intent : ClassifiedIntent;
  priceData : option PriceInfo;
  negotiationGuidance : option NegotiationAssistant.Guidance;
  originalText : Value;
  processedText : Value
}.

Record Metadata := {
  m_intent : option IntentType;
  m_confidence : Q;
  hasPrice : bool;
  wordCount : nat
}.

Record LocalizedResponse := {
  text : jsstring;
  language : Tag;
  actionable : bool;
  fallback : bool;
  components : option (jsstring * jsstring * jsstring);
  metadata : Metadata
}.

(** [responseLanguage] is a language of [normalizeLanguage], whose text
    is no name of a member of [Object.prototype]. *)
Definition createFallbackResponse (data : ResponseData) (language : Tag)
  : LocalizedResponse :=
  let fallbackMessages :=
    TranslationEngine.pairs
      [ ("english",
         "I'm here to help with your pricing questions. Please try asking again.");
        ("hindi",
         "Main aapke price ke sawal mein madad kar sakta hun. Phir se puchiye.");
        ("kannada",
         "Naanu nimma price questions nalli help maadabaudu. Mathe keli.") ]%string in
  let responseLanguage := normalizeLanguage language in
  let fallbackText :=
    orStr (lookup fallbackMessages (keyText responseLanguage))
          (orStr (lookup fallbackMessages (lit "english")) []) in
  {| text := fallbackText;
     language := responseLanguage;
     actionable := false;
     fallback := true;
     components := None;
     metadata :=
       {| m_intent := type (intent data);
          m_confidence := (3 # 10)%Q;
          hasPrice := false;
          wordCount := length (split (lit " ") fallbackText) |} |}.

Definition formatResponse_try (this : Generator) (data : ResponseData)
  (language : Tag) : Exc LocalizedResponse :=
  (* Determine response language *)
  let responseLanguage := normalizeLanguage language in
  (* Generate primary response based on intent *)
  primaryResponse <-
    generatePrimaryResponse this (intent data) (priceData data)
                            responseLanguage ;;
  guidance <-
    match negotiationGuidance data with
    | Some g => Ok g
    | None => Throw typeError
    end ;;
  (* Add negotiation guidance *)
  negotiationResponse <-
    generateNegotiationResponse this guidance responseLanguage ;;
  (* Add cultural context *)
  culturalResponse <-
    responseText
      (generateCulturalResponse (NegotiationAssistant.culturalContext guidance)
                                responseLanguage) ;;
  (* Combine and prioritize responses *)
  let combinedResponse :=
    combineResponses [primaryResponse; negotiationResponse; culturalResponse]
                     responseLanguage in
  (* Format for display *)
  let formattedResponse := formatForDisplay combinedResponse in
  Ok {| text := d_text formattedResponse;
        language := responseLanguage;
        actionable := true;
        fallback := false;
        components :=
          Some (primaryResponse, negotiationResponse, culturalResponse);
        metadata :=
          {| m_intent := type (intent data);
             m_confidence := NegotiationAssistant.g_confidence guidance;
             hasPrice := match priceData data with Some _ => true | None => false end;
             wordCount := length (split (lit " ") (d_text formattedResponse)) |} |}.

Definition formatResponse (this : Generator) (data : ResponseData)
  (language : Tag) : LocalizedResponse :=
  catch (formatResponse_try this data language)
        (fun _ => createFallbackResponse data language).

End WithHost.

End ResponseGenerator.

(** ** LinguisticBridge *)

Module LinguisticBridge.
Import JS Data.

(** The components created by the constructor, and the language selected
    in the page. *)
Record Bridge := {
  intentClassifier : IntentClassifier.Classifier;
  translationEngine : TranslationEngine.Engine;
  priceDiscoveryEngine : PriceDiscoveryEngine.Engine;
  negotiationAssistant : NegotiationAssistant.Assistant;
  responseGenerator : ResponseGenerator.Generator;
  currentLanguage : jsstring
}.

(** [constructor()]; the price data arrive later through
    [loadPriceData]. *)
Definition new : Bridge :=
  {| intentClassifier := IntentClassifier.new;
     translationEngine := TranslationEngine.new;
     priceDiscoveryEngine := PriceDiscoveryEngine.new;
     negotiationAssistant := NegotiationAssistant.new;
     responseGenerator := ResponseGenerator.new;
     currentLanguage := lit "en-US" |}.

Definition getLanguageCode (browserLang : jsstring) : Tag :=
  let langMap :=
    TranslationEngine.pairs
      [ ("en-US", "english"); ("hi-IN", "hindi"); ("kn-IN", "kannada");
        ("ta-IN", "tamil"); ("te-IN", "telugu"); ("bn-IN", "bengali");
        ("mr-IN", "marathi"); ("gu-IN", "gujarati"); ("pa-IN", "punjabi");
        ("or-IN", "odia"); ("ml-IN", "malayalam"); ("as-IN", "assamese");
        ("ur-IN", "urdu"); ("sd-IN", "sindhi"); ("ks-IN", "kashmiri");
        ("mai-IN", "maithili"); ("mag-IN", "magahi");
        ("bho-IN", "bhojpuri"); ("raj-IN", "rajasthani");
        ("kok-IN", "konkani"); ("sat-IN", "santali");
        ("mni-IN", "manipuri"); ("brx-IN", "bodo"); ("doi-IN", "dogri");
        ("ne-IN", "nepali"); ("si-LK", "sinhala"); ("dv-MV", "dhivehi");
        ("es-ES", "spanish"); ("fr-FR", "french"); ("ar-SA", "arabic");
        ("pt-BR", "portuguese"); ("zh-CN", "chinese") ]%string in
  orTag (get langMap browserLang) (lit "english").

Section WithHost.
Context {host : Host}.

(** Steps 1 to 5 of [processVoiceInput]: from the recognised text to the
    response that is displayed.  [u] is the value that [Math.random()]
    returns inside [getMarketPrice].  Every component catches its own
    errors, so the handlers around the five calls are never entered; the
    result carries the bridge after the call. *)
Definition processVoiceInput (this : Bridge) (text : Value) (u : Q)
  : ResponseGenerator.LocalizedResponse * Bridge :=
  let languageCode := getLanguageCode (currentLanguage this) in
  (* Step 1: Classify intent *)
  let intent :=
    IntentClassifier.classifyIntent (intentClassifier this) text languageCode in
  (* Step 2: Translate if needed *)
  let processedText :=
    if negb (str_eqb (currentLanguage this) (lit "en-US"))
    then TranslationEngine.translate (translationEngine this) text
           languageCode (lit "english") (Some intent)
    else text in
  (* Step 3: Get price information *)
  let priceData :=
    match type intent with
    | Some bargaining | Some bulk_purchase =>
        option_map OfQuote
          (PriceDiscoveryEngine.getMarketPrice (priceDiscoveryEngine this)
             (product intent) (category intent) u)
    | _ => None
    end in
  (* Step 4: Get negotiation guidance *)
  let '(negotiationGuidance, assistant) :=
    NegotiationAssistant.generateGuidance (negotiationAssistant this)
      intent priceData processedText in
  (* Step 5: Generate response *)
  let response :=
    ResponseGenerator.formatResponse (responseGenerator this)
      {| ResponseGenerator.intent := intent;
         ResponseGenerator.priceData := priceData;
         ResponseGenerator.negotiationGuidance := Some negotiationGuidance;
         ResponseGenerator.originalText := text;
         ResponseGenerator.processedText := processedText |}
      languageCode in
  (response,
   {| intentClassifier := intentClassifier this;
      translationEngine := translationEngine this;
      priceDiscoveryEngine := priceDiscoveryEngine this;
      negotiationAssistant := assistant;
      responseGenerator := responseGenerator this;
      currentLanguage := currentLanguage this |}).

End WithHost.

End LinguisticBridge.

(** ** The static dataset *)

Module Dataset.
Import JS Float64 PriceDiscoveryEngine.

(** Modelled from the spec: the file [mock_data/prices.json] that
    [loadPriceData] receives is not among the sources.  A dataset of the
    documented format, with the figures of the category table of
    [generateFallbackPriceRange]. *)
Definition sampleFile : PriceFile :=
  {| products := Some
       [ (lit "rice",
          {| pd_category := Some (lit "grains");
             pd_marketPrice := Some (number 40);
             pd_minPrice := Some (number 35);
             pd_maxPrice := Some (number 50);
             pd_unit := Some (lit "kg");
             pd_bulkThreshold := Some 10%Q;
             pd_bulkDiscount := Some (1 # 10)%Q;
             pd_source := None; pd_confidence := None |});
         (lit "tomato",
          {| pd_category := Some (lit "vegetables");
             pd_marketPrice := Some (number 30);
             pd_minPrice := Some (number 25);
             pd_maxPrice := Some (number 40);
             pd_unit := Some (lit "kg");
             pd_bulkThreshold := None;
             pd_bulkDiscount := None;
             pd_source := None; pd_confidence := None |}) ];
     file_categories := Some
       [ (lit "grains",
          {| averagePrice := Some 40%Q; defaultMargin := None;
             seasonalVariation := None;
             keywords := Some [lit "chawal"; lit "atta"] |});
         (lit "vegetables",
          {| averagePrice := Some 30%Q; defaultMargin := Some (2 # 10)%Q;
             seasonalVariation := Some (2 # 10)%Q;
             keywords := None |}) ];
     negotiationRules := Some (Some (15 # 100)%Q) |}.

(** The engine after [loadPriceData(sampleFile)]. *)
Definition sample : Engine := loadPriceData new sampleFile.

(** The application after its constructor and the load of the sample. *)
Definition sampleBridge : LinguisticBridge.Bridge :=
  {| LinguisticBridge.intentClassifier := IntentClassifier.new;
     LinguisticBridge.translationEngine := TranslationEngine.new;
     LinguisticBridge.priceDiscoveryEngine := sample;
     LinguisticBridge.negotiationAssistant := NegotiationAssistant.new;
     LinguisticBridge.responseGenerator := ResponseGenerator.new;
     LinguisticBridge.currentLanguage := lit "en-US" |}.

End Dataset.

(** ** PriceDiscoveryEngine: bulk discounts and similar names *)

Module PriceMethods.
Import JS Data PriceDiscoveryEngine.

(** The object that [applyBulkDiscount] returns for a quantity;
    [quantityNeeded] is present when the quantity does not qualify. *)
Record BulkPrice := {
  originalPrice : Q;
  discountedPrice : Q;
  bp_discount : Q;
  savings : Q;
  qualifiesForBulk : bool;
  threshold : Q;
  bp_unit : jsstring;
  quantityNeeded : option Q
}.

(** [applyBulkDiscount] returns the number [price] itself when the product
    data or the quantity is missing. *)
Inductive BulkResult :=
| PriceOnly (price : Q)
| Priced (b : BulkPrice).

Definition applyBulkDiscount (price : Q) (quantity : option Quantity)
  (productData : option ProductData) : BulkResult :=
  match productData, quantity with
  | Some productData, Some quantity =>
      let bulkThreshold := orNum (pd_bulkThreshold productData) 5%Q in
      let bulkDiscount := orNum (pd_bulkDiscount productData) (5 # 100)%Q in
      (* Check if quantity qualifies for bulk discount *)
      if Qle_bool bulkThreshold (inject_Z (amount quantity))
      then
        let discountedPrice := (price * (1 - bulkDiscount))%Q in
        Priced {| originalPrice := price;
                  discountedPrice := inject_Z (Math_round discountedPrice);
                  bp_discount := bulkDiscount;
                  savings := inject_Z (Math_round (price - discountedPrice)%Q);
                  qualifiesForBulk := true;
                  threshold := bulkThreshold;
                  bp_unit := q_unit quantity;
                  quantityNeeded := None |}
      else
        Priced {| originalPrice := price;
                  discountedPrice := price;
                  bp_discount := 0%Q;
                  savings := 0%Q;
                  qualifiesForBulk := false;
                  threshold := bulkThreshold;
                  bp_unit := q_unit quantity;
                  quantityNeeded :=
                    Some (bulkThreshold - inject_Z (amount quantity))%Q |}
  | _, _ => PriceOnly price
  end.

Definition getAvailableProducts (this : Engine) : list jsstring :=
  map fst (priceData this).

(** *** [levenshteinDistance]

    The matrix is kept as the list of its rows.  Row [0] holds
    [matrix[0][j] = j]; the first entry of row [i] is [matrix[i][0] = i]. *)
Definition firstRow (str1 : jsstring) : list nat := seq 0 (S (length str1)).

(** The inner loop for one row: the entries [matrix[i][j]] for [j >= 1].
    [above] is the row [i - 1] from column [j - 1] on, [left] is
    [matrix[i][j - 1]], [c2] is [str2.charAt(i - 1)]. *)
Fixpoint fillRow (c2 : char) (str1 : jsstring) (above : list nat) (left : nat)
  : list nat :=
  match str1, above with
  | c1 :: rest, diagonal :: ((up :: _) as above') =>
      let cell :=
        if char_eqb c2 c1 then diagonal
        else Nat.min (diagonal + 1) (Nat.min (left + 1) (up + 1)) in
      cell :: fillRow c2 rest above' cell
  | _, _ => []
  end.

(** The outer loop: the rows [i + 1], [i + 2], ... for the code units of
    [str2] that remain, [above] being row [i]. *)
Fixpoint fillRows (str1 str2 : jsstring) (i : nat) (above : list nat)
  : list (list nat) :=
  match str2 with
  | [] => []
  | c2 :: rest =>
      let row := S i :: fillRow c2 str1 above (S i) in
      row :: fillRows str1 rest (S i) row
  end.

Definition matrixOf (str1 str2 : jsstring) : list (list nat) :=
  firstRow str1 :: fillRows str1 str2 0 (firstRow str1).

Definition levenshteinDistance (str1 str2 : jsstring) : nat :=
  nth (length str1) (nth (length str2) (matrixOf str1 str2) []) 0%nat.

Definition calculateStringSimilarity (str1 str2 : jsstring) : Q :=
  let longer := if (length str2 <? length str1)%nat then str1 else str2 in
  let shorter := if (length str2 <? length str1)%nat then str2 else str1 in
  if (length longer =? 0)%nat then 1%Q
  else
    let editDistance := levenshteinDistance longer shorter in
    ((inject_Z (Z.of_nat (length longer)) - inject_Z (Z.of_nat editDistance))
     / inject_Z (Z.of_nat (length longer)))%Q.

Definition findSimilarProduct (this : Engine) (searchProduct : option jsstring)
  : option jsstring :=
  match searchProduct with
  | None | Some [] => None
  | Some s =>
      (* Find products with similar names *)
      find (fun productName =>
              negb (Qle_bool (calculateStringSimilarity s productName) (6 # 10)))
           (map fst (priceData this))
  end.

End PriceMethods.

(** ** IntentClassifier: reliability *)

Module ClassifierMethods.
Import JS Data.

Definition getConfidenceThreshold : Q := (6 # 10)%Q.

Definition isReliable (result : ClassifiedIntent) : bool :=
  Qle_bool getConfidenceThreshold (confidence result).

End ClassifierMethods.

(** ** TranslationEngine: the script of a text *)

Module TranslatorMethods.
Import JS Data.

(** [(text.match(/[c]+/g) || []).length]: the number of maximal runs of
    code units of the class [p].  [inRun] records that the previous code
    unit was of the class. *)
Fixpoint countRuns (p : char -> bool) (inRun : bool) (s : jsstring) : nat :=
  match s with
  | [] => 0
  | c :: s' =>
      if p c
      then (if inRun then countRuns p true s' else S (countRuns p true s'))
      else countRuns p false s'
  end.

Definition isLatinLetter (c : char) : bool := (isLowerAZ c || isUpperAZ c)%bool.
Definition isDevanagari (c : char) : bool := inRange 2304 2431 c.
Definition isKannada (c : char) : bool := inRange 3200 3327 c.

Definition detectMixedLanguage (text : jsstring) : jsstring :=
  let englishWords := countRuns isLatinLetter false text in
  let devanagariChars := countRuns isDevanagari false text in
  let kannadaChars := countRuns isKannada false text in
  let total := (englishWords + devanagariChars + kannadaChars)%nat in
  let share (n : nat) : Q :=
    (inject_Z (Z.of_nat n) / inject_Z (Z.of_nat total))%Q in
  if (total =? 0)%nat then lit "unknown"
  else if negb (Qle_bool (share englishWords) (7 # 10)) then lit "english"
  else if negb (Qle_bool (share devanagariChars) (7 # 10)) then lit "hindi"
  else if negb (Qle_bool (share kannadaChars) (7 # 10)) then lit "kannada"
  else lit "mixed".

End TranslatorMethods.

(** ** ResponseGenerator: short responses and literacy levels *)

Module GeneratorMethods.
Import JS Data Regex ResponseGenerator.

Definition getBrowserLanguage {host : Host} (language : Tag) : Tag :=
  let langMap :=
    TranslationEngine.pairs
      [ ("english", "en-US"); ("hindi", "hi-IN");
        ("kannada", "kn-IN") ]%string in
  orTag (get langMap (keyText language)) (lit "en-US").

(** The object of [generateEssentialResponse] and of
    [generateSimpleResponse]. *)
Record ShortResponse := {
  sr_text : jsstring;
  sr_language : jsstring;
  sr_actionable : bool;
  sr_fallback : bool;
  sr_type : jsstring
}.

Section WithHost.
Context {host : Host}.

(** Neither method has a handler: an error of a callee leaves the method. *)
Definition generateEssentialResponse (this : Generator)
  (intent : ClassifiedIntent) (priceData : option PriceInfo)
  (negotiationGuidance : NegotiationAssistant.Guidance) (language : jsstring)
  : Exc ShortResponse :=
  primaryResponse <- generatePrimaryResponse this intent priceData language ;;
  negotiationResponse <-
    generateNegotiationResponse this negotiationGuidance language ;;
  let combinedResponse :=
    combineResponses [primaryResponse; negotiationResponse] language in
  let formattedResponse := formatForDisplay combinedResponse in
  Ok {| sr_text := d_text formattedResponse;
        sr_language := language;
        sr_actionable := true;
        sr_fallback := false;
        sr_type := lit "essential" |}.

Definition generateSimpleResponse (this : Generator)
  (intent : ClassifiedIntent) (priceData : option PriceInfo)
  (language : jsstring) : Exc ShortResponse :=
  primaryResponse <- generatePrimaryResponse this intent priceData language ;;
  let formattedResponse := formatForDisplay primaryResponse in
  Ok {| sr_text := d_text formattedResponse;
        sr_language := language;
        sr_actionable := true;
        sr_fallback := false;
        sr_type := lit "simple" |}.

End WithHost.

(** A literal pattern under the [i] flag. *)
Definition literalAt_ci (pattern : jsstring) (prev : option char)
  (s : jsstring) : option nat :=
  if startsWith_ci pattern s then Some (length pattern) else None.

(** [s.replace(new RegExp(pattern, 'gi'), replacement)] for a pattern that
    stands for its own text. *)
Definition replaceLiteral_ci (pattern replacement s : jsstring) : jsstring :=
  replaceAll (literalAt_ci pattern) (getSubstitution replacement) s.

Definition simplifications : list (jsstring * jsstring) :=
  TranslationEngine.pairs
    [ ("market conditions", "market price");
      ("negotiation", "bargaining");
      ("consideration", "thinking");
      ("approximately", "about");
      ("currently", "now") ]%string.

(** A response after [adaptForLiteracyLevel]: the fields of the response,
    with the two fields that the adaptation may add. *)
Record Adapted := {
  response : LocalizedResponse;
  adaptedFor : option jsstring;
  additionalContext : option jsstring
}.

Definition withText (r : LocalizedResponse) (t : jsstring)
  : LocalizedResponse :=
  {| text := t;
     language := language r;
     actionable := actionable r;
     fallback := fallback r;
     components := components r;
     metadata := metadata r |}.

Definition simplifyLanguage (r : LocalizedResponse) : Adapted :=
  let simplified := text r in
  (* Replace complex terms with simpler ones *)
  let simplified :=
    fold_left (fun simplified entry =>
                 replaceLiteral_ci (fst entry) (snd entry) simplified)
              simplifications simplified in
  (* Break long sentences *)
  let simplified := replaceLiteral (lit ". ") (lit ". ") simplified in
  {| response := withText r simplified;
     adaptedFor := Some (lit "low_literacy");
     additionalContext := None |}.

Definition enhanceWithDetails (r : LocalizedResponse) : Adapted :=
  {| response := withText r (text r);
     adaptedFor := Some (lit "high_literacy");
     additionalContext :=
       Some (lit "Detailed market analysis and negotiation strategies available upon request.") |}.

Definition adaptForLiteracyLevel (r : LocalizedResponse)
  (literacyLevel : jsstring) : Adapted :=
  if str_eqb literacyLevel (lit "low") then simplifyLanguage r
  else if str_eqb literacyLevel (lit "high") then enhanceWithDetails r
  else {| response := r; adaptedFor := None; additionalContext := None |}.

End GeneratorMethods.

(** ** LinguisticBridge: the season *)

Module BridgeMethods.
Import JS.

Record Season := {
  month : Z;
  isWinter : bool;
  isSummer : bool;
  isMonsoon : bool;
  isPostMonsoon : bool
}.

(** [getMonth] is the value of [new Date().getMonth()], from 0 to 11. *)
Definition getCurrentSeason (getMonth : Z) : Season :=
  let month := (getMonth + 1)%Z in     (* 1-12 *)
  let includes (months : list Z) := existsb (Z.eqb month) months in
  {| month := month;
     isWinter := includes [12; 1; 2]%Z;
     isSummer := includes [4; 5; 6]%Z;
     isMonsoon := includes [7; 8; 9]%Z;
     isPostMonsoon := includes [10; 11]%Z |}.

End BridgeMethods.

(** ** CulturalContextManager: the filter of the displayed response *)

Module CulturalContextManager.
Import JS Data Regex ResponseGenerator.

Record CommunicationStyle := {
  directness : jsstring;
  politeness : jsstring;
  formality : jsstring;
  patience : jsstring
}.

(** The table of the instance that [filterResponse] reads. *)
Record Manager := {
  communicationPatterns : list (jsstring * CommunicationStyle)
}.

(** [constructor()] *)
Definition new : Manager :=
  {| communicationPatterns :=
       [ (lit "english",
          {| directness := lit "moderate"; politeness := lit "high";
             formality := lit "medium"; patience := lit "medium" |});
         (lit "hindi",
          {| directness := lit "low"; politeness := lit "very_high";
             formality := lit "high"; patience := lit "high" |});
         (lit "kannada",
          {| directness := lit "low"; politeness := lit "very_high";
             formality := lit "high"; patience := lit "high" |}) ] |}.

Definition normalizeLanguageCode (language : jsstring) : jsstring :=
  let langMap :=
    TranslationEngine.pairs
      [ ("en-US", "english"); ("hi-IN", "hindi"); ("kn-IN", "kannada");
        ("english", "english"); ("hindi", "hindi");
        ("kannada", "kannada") ]%string in
  orStr (lookup langMap language) (lit "english").




Section WithHost.
Context {host : Host}.


End WithHost.




Section WithHost.
Context {host : Host}.


End WithHost.

End CulturalContextManager.

(** ** Notions used in the statements *)

Module Statement.
Import JS Data.

(** The tables of the assistant other than the array of respectful
    phrases are the same in [a] and [b]. *)
Definition sameFixedTables (a b : NegotiationAssistant.Assistant) : Prop :=
  NegotiationAssistant.negotiationStrategies a
  = NegotiationAssistant.negotiationStrategies b
  /\ NegotiationAssistant.friendly a = NegotiationAssistant.friendly b
  /\ NegotiationAssistant.professional a = NegotiationAssistant.professional b
  /\ NegotiationAssistant.counterOfferRules a
     = NegotiationAssistant.counterOfferRules b
  /\ NegotiationAssistant.tone (NegotiationAssistant.respectful a)
     = NegotiationAssistant.tone (NegotiationAssistant.respectful b)
  /\ NegotiationAssistant.declineStyle (NegotiationAssistant.respectful a)
     = NegotiationAssistant.declineStyle (NegotiationAssistant.respectful b).

(** What a call with this intent pushes onto the respectful phrases. *)
Definition pushedPhrase (intent : ClassifiedIntent) : list jsstring :=
  match type intent with
  | Some bargaining => [lit "This is a fair starting price"]
  | Some bulk_purchase => [lit "For bulk orders, I can offer better rates"]
  | Some casual_inquiry => [lit "Let me explain our pricing clearly"]
  | None => []
  end.

(** The customer text mentions that the price is high: the condition under
    which [analyzeCustomerBehavior] sets [priceAwareness] to ['high']. *)
Definition mentionsHighPrice {host : Host} (text : jsstring) : bool :=
  let lowerText := toLowerCase text in
  (includes lowerText (lit "expensive") || includes lowerText (lit "costly")
   || includes lowerText (lit "mehenga"))%bool.

(** The placeholder offer of [generateFallbackGuidance]. *)
Definition placeholderOffer : NegotiationAssistant.Offer :=
  {| NegotiationAssistant.level := lit "standard";
     NegotiationAssistant.price := None;
     NegotiationAssistant.discount := None;
     NegotiationAssistant.o_message :=
       lit "Let me check the current market price for you";
     NegotiationAssistant.reasoning := [lit "Price data not available"];
     NegotiationAssistant.recommended := true |}.

(** The price of the counter-offer with the given reduction: the reduced
    starting price, rounded, and not below the safe floor. *)
Definition offerPrice (startingPrice safeFloor : Z) (reduction : Q) : Z :=
  Z.max (Math_round (inject_Z startingPrice * (1 - reduction))%Q) safeFloor.

(** The raw score in the words of the specification: one point for every
    token of the normalised text that matches some keyword of the category
    by containment in either direction, two points for every phrase of the
    category found in the text.  The tokens are the words between the
    spaces of the normalised text. *)
Definition tokens (text : jsstring) : list jsstring :=
  filter truthy (split (lit " ") text).

Definition tokenMatches (keywords : list jsstring) (token : jsstring) : bool :=
  existsb (fun keyword =>
             (includes token keyword || includes keyword token)%bool)
          keywords.

Definition specRawScore (this : IntentClassifier.Classifier)
  (intent : IntentType) (text : jsstring) : Z :=
  let pattern := IntentClassifier.intentPatterns this intent in
  (Z.of_nat (length (filter (tokenMatches (IntentClassifier.keywords pattern))
                            (tokens text)))
   + 2 * Z.of_nat (length (filter (fun phrase => includes text phrase)
                                  (IntentClassifier.phrases pattern))))%Z.

(** The number of entries of a list of the lexicon that the text
    contains, every entry counted as often as it is listed. *)
Definition containedEntries (text : jsstring) (entries : list jsstring) : Z :=
  Z.of_nat (length (filter (fun entry => includes text entry) entries)).

(** The points that [applyContextualRules] adds to a category. *)
Definition contextualBoost (text : jsstring) (intent : IntentType) : Z :=
  IntentClassifier.getScore
    (IntentClassifier.applyContextualRules text IntentClassifier.zeroScores)
    intent.

(** [0.7 - 0.2] in binary64: 0.49999999999999994, the value below 0.5
    that is nearest to it. *)
Definition lowestConfidence : Q := (9007199254740991 # 18014398509481984)%Q.

Definition nonNegative (scores : Scores) : Prop :=
  (0 <= s_bargaining scores /\ 0 <= s_bulk_purchase scores
   /\ 0 <= s_casual_inquiry scores)%Z.

(** [/\{[^}]+\}/.test(text)]: the text contains a placeholder token, that
    is an opening brace, one or more code units other than the closing
    brace, and a closing brace. *)
Definition hasPlaceholder (text : jsstring) : bool :=
  Regex.existsAt
    (fun prev s =>
       match Regex.placeholderAt prev s with
       | Some _ => true
       | None => false
       end)
    None text.

End Statement.

(** ** No translation rule applies *)

Module Rules.
Import JS Data Regex.

Section WithHost.
Context {host : Host}.

(** The template path yields no translation: [translateUsingTemplates]
    returns [null] or the empty string. *)
Definition templateSilent (this : TranslationEngine.Engine) (text : jsstring)
  (fromLang toLang : Tag) (intent : option ClassifiedIntent) : bool :=
  match TranslationEngine.translateUsingTemplates this (VString text)
          fromLang toLang intent with
  | Ok None | Ok (Some []) => true
  | _ => false
  end.

(** [new RegExp(`\\b${word}\\b`, 'gi').test(text)] *)
Definition wordOccurs (word text : jsstring) : bool :=
  existsAt (fun prev s =>
              match wordAt word prev s with
              | Some _ => true
              | None => false
              end)
           None text.

(** The dictionary of the language pair, if there is one: the own
    property of [commonTranslations] under the key of the pair. *)
Definition dictionaryFor (this : TranslationEngine.Engine)
  (fromLang toLang : Tag) : option (list (jsstring * jsstring)) :=
  lookup (TranslationEngine.commonTranslations this)
         (TranslationEngine.translationKey fromLang toLang).

(** No word of the dictionary occurs in the lower-cased text. *)
Definition dictionarySilent (this : TranslationEngine.Engine) (text : jsstring)
  (fromLang toLang : Tag) : bool :=
  match dictionaryFor this fromLang toLang with
  | Some translations =>
      forallb (fun entry => negb (wordOccurs (fst entry) (toLowerCase text)))
              translations
  | None => true
  end.

(** No tone pattern occurs in the lower-cased text. *)
Definition toneSilent (this : TranslationEngine.Engine) (text : jsstring)
  : bool :=
  forallb (fun entry =>
             forallb (fun pattern => negb (includes (toLowerCase text) pattern))
                     (snd entry))
          (TranslationEngine.tonePatterns this).

(** None of the three kinds of rule applies to the text. *)
Definition noRuleApplies (this : TranslationEngine.Engine) (text : jsstring)
  (fromLanguage toLanguage : Tag) (intent : option ClassifiedIntent)
  : bool :=
  let fromLang := TranslationEngine.normalizeLanguageCode fromLanguage in
  let toLang := TranslationEngine.normalizeLanguageCode toLanguage in
  (templateSilent this text fromLang toLang intent
   && dictionarySilent this text fromLang toLang
   && toneSilent this text)%bool.

End WithHost.

End Rules.

(** ** Braces in a response text *)

Module Braces.
Import JS Data Regex.

(** A code unit other than the closing brace. *)
Definition notClose (c : char) : bool := negb (isCloseBrace c).

(** The string contains a closing brace. *)
Definition hasClose (s : jsstring) : bool := existsb isCloseBrace s.

(** What must follow an opening brace to make a placeholder token: a code
    unit other than the closing brace, and a closing brace somewhere after
    it. *)
Definition goodRun (s : jsstring) : bool :=
  match s with
  | [] => false
  | x :: s' => (notClose x && hasClose s')%bool
  end.

(** [hasPlaceholder], by recursion on the string. *)
Fixpoint holds (s : jsstring) : bool :=
  match s with
  | [] => false
  | c :: s' => ((N.eqb c 123 && goodRun s') || holds s')%bool
  end.

(** The rest of the string after its first closing brace. *)
Definition afterClose (s : jsstring) : jsstring := tl (dropWhile notClose s).

(** [removePlaceholders], without the arguments that it does not use. *)
Fixpoint strip (skip : nat) (s : jsstring) : jsstring :=
  match s with
  | [] => []
  | c :: s' =>
      match skip with
      | S k => strip k s'
      | O =>
          match placeholderAt None s with
          | Some (S n) => strip n s'
          | _ => c :: strip 0 s'
          end
      end
  end.

(** [c'] is a closing brace when [c] is one, and an opening brace only when
    [c] is one. *)
Definition sameBrace (c c' : char) : Prop :=
  isCloseBrace c = isCloseBrace c' /\ (N.eqb c' 123 = true -> N.eqb c 123 = true).

(** [thins s t]: [t] is [s] with code units other than the closing brace
    left out, and others replaced by code units of the same kind. *)
Inductive thins : jsstring -> jsstring -> Prop :=
| thins_nil : thins [] []
| thins_same c c' s t : sameBrace c c' -> thins s t -> thins (c :: s) (c' :: t)
| thins_drop c s t : isCloseBrace c = false -> thins s t -> thins (c :: s) t.

(** The languages that have response templates. *)
Definition supported : list jsstring :=
  [lit "english"; lit "hindi"; lit "kannada"].

(** The browser codes of the response generator. *)
Definition browserCodes : list jsstring :=
  [lit "en-US"; lit "hi-IN"; lit "kn-IN"].

(** Price data that has no [ranges]. *)
Definition withoutRanges (priceData : option PriceInfo) : bool :=
  match priceData with
  | Some (OfRange _) => false
  | _ => true
  end.

End Braces.

(** ** The display of a text *)

Module Display.
Import JS.

(** The sentences of a text, each with the separator [". "] that follows
    it. *)
Definition closed (sentences : list jsstring) : jsstring :=
  concat (map (fun sentence => sentence ++ lit ". ") sentences).

(** The display of a text under the cap of 300 code units, in the words of
    the specification.  A text within the cap is shown as it is.  A longer
    text is cut at a sentence boundary: shown are its leading sentences, as
    many as fit under the cap together with their separators, without the
    white space at the end; when not even the first sentence fits, shown
    are the first 297 code units of the text and an ellipsis. *)
Definition shownAs (full shown : jsstring) : Prop :=
  if (length full <=? 300)%nat then shown = full
  else
    let sentences := split (lit ". ") full in
    exists k,
      (k <= length sentences)%nat
      /\ (length (closed (firstn k sentences)) <= 300)%nat
      /\ (k < length sentences ->
          300 < length (closed (firstn (S k) sentences)))%nat
      /\ shown = match k with
                 | O => firstn 297 full ++ lit "..."
                 | S _ => trim (closed (firstn k sentences))
                 end.

End Display.
(** ** The edit distance by its recurrence *)

Module EditDistance.
Import JS.

(** The distance between two strings read from their ends: [p] and [q] are
    reversed prefixes, so their heads are the last code units.  Deleting,
    inserting or replacing a code unit costs one. *)
Fixpoint dist (p : jsstring) : jsstring -> nat :=
  match p with
  | [] => fun q => length q
  | a :: p' =>
      fix distRow (q : jsstring) : nat :=
        match q with
        | [] => S (length p')
        | b :: q' =>
            if char_eqb a b then dist p' q'
            else Nat.min (dist p' q' + 1)
                         (Nat.min (distRow q' + 1) (dist p' q + 1))
        end
  end.

(** The reversed prefixes of [acc] followed by [s], from [acc] itself to
    the whole string. *)
Fixpoint revPrefixes (acc s : jsstring) : list jsstring :=
  acc :: match s with
         | [] => []
         | c :: s' => revPrefixes (c :: acc) s'
         end.

End EditDistance.

(** ** The shape of a normalised text *)

Module Shape.
Import JS.

(** [shape afterSpace s]: [s] consists of word characters and single
    spaces (U+0020), it does not begin with a space when [afterSpace] is
    set, and it does not end with one. *)
Fixpoint shape (afterSpace : bool) (s : jsstring) : bool :=
  match s with
  | [] => negb afterSpace
  | c :: s' =>
      if N.eqb c 32 then (negb afterSpace && shape true s')%bool
      else (isWordChar c && shape false s')%bool
  end.

(** Words of the characters [A-Za-z0-9_], separated by single spaces; the
    empty string has no word. *)
Definition wordsBySingleSpaces (s : jsstring) : bool :=
  match s with
  | [] => true
  | _ :: _ => shape true s
  end.

(** As [shape], but a space at the end is allowed. *)
Fixpoint loose (afterSpace : bool) (s : jsstring) : bool :=
  match s with
  | [] => true
  | c :: s' =>
      if N.eqb c 32 then (negb afterSpace && loose true s')%bool
      else (isWordChar c && loose false s')%bool
  end.

End Shape.

(** ** Keys with a bracket *)

Module Brackets.
Import JS.

(** The string holds an opening bracket. *)
Definition hasBracket (s : jsstring) : bool := existsb (N.eqb 91) s.

(** No key of the table holds an opening bracket. *)
Definition plainKeys {V} (table : list (jsstring * V)) : bool :=
  forallb (fun entry => negb (hasBracket (fst entry))) table.

End Brackets.
(** * Properties of the host language *)

(** ** Property lookup *)

Module LookupProperties.
Import JS Brackets.

Lemma str_eqb_eq a b : str_eqb a b = true <-> a = b.
Proof.
  revert b. induction a as [| x a IH]; intros [| y b]; cbn; split;
    try congruence; try reflexivity.
  - intro H. apply andb_true_iff in H. destruct H as [H1 H2].
    apply N.eqb_eq in H1. apply IH in H2. congruence.
  - intro H. injection H as -> ->. apply andb_true_iff. split.
    + apply N.eqb_refl.
    + apply IH. reflexivity.
Qed.

Lemma str_eqb_refl s : str_eqb s s = true.
Proof. now apply str_eqb_eq. Qed.

Lemma startsWith_app sub b : startsWith sub (sub ++ b) = true.
Proof.
  induction sub as [| c sub IH]; [reflexivity |].
  cbn. unfold char_eqb. rewrite N.eqb_refl. exact IH.
Qed.

Lemma includes_app a sub b : includes (a ++ sub ++ b) sub = true.
Proof.
  induction a as [| c a IH].
  - cbn [app]. destruct (sub ++ b) eqn:E; cbn; rewrite <- E, startsWith_app;
      reflexivity.
  - cbn [app includes]. rewrite IH. apply orb_true_r.
Qed.

Lemma getRecord_own {V} (blank : V) table key :
  inherited key = false -> getRecord blank table key = lookup table key.
Proof.
  intros H. unfold getRecord, get.
  destruct (lookup table key); [reflexivity |]. now rewrite H.
Qed.

Lemma getRecord_inherited {V} (blank : V) table key :
  inherited key = true -> lookup table key = None ->
  getRecord blank table key = Some blank.
Proof. intros H Hl. unfold getRecord, get. now rewrite Hl, H. Qed.

Lemma get_own {V} (table : list (jsstring * V)) key v :
  lookup table key = Some v -> get table key = Own v.
Proof. intros H. unfold get. now rewrite H. Qed.

(** A key with an opening bracket is no key of a table whose keys have
    none, and no name of a member of [Object.prototype]. *)
Lemma lookup_bracket {V} (table : list (jsstring * V)) key :
  plainKeys table = true -> hasBracket key = true -> lookup table key = None.
Proof.
  intros Hkeys Hkey. induction table as [| [k v] table IH]; [reflexivity |].
  cbn [plainKeys forallb fst] in Hkeys.
  apply andb_prop in Hkeys as [Hk Hkeys]. cbn [lookup].
  destruct (str_eqb k key) eqn:E; [| now apply IH].
  apply str_eqb_eq in E. subst k. rewrite Hkey in Hk. discriminate.
Qed.

Lemma inherited_bracket key : hasBracket key = true -> inherited key = false.
Proof.
  intros Hkey. unfold inherited.
  destruct (existsb _ _) eqn:E; [| reflexivity].
  apply existsb_exists in E as [name [Hin Heq]].
  apply str_eqb_eq in Heq. subst name.
  assert (Hall : forallb (fun n => negb (hasBracket n)) objectPrototype = true)
    by reflexivity.
  rewrite forallb_forall in Hall. specialize (Hall key Hin).
  rewrite Hkey in Hall. discriminate.
Qed.

Lemma get_bracket {V} (table : list (jsstring * V)) key :
  plainKeys table = true -> hasBracket key = true -> get table key = Undefined.
Proof.
  intros Hkeys Hkey. unfold get.
  now rewrite (lookup_bracket _ _ Hkeys Hkey), (inherited_bracket _ Hkey).
Qed.

Section WithHost.
Context {host : Host}.

(** The text of a member of [Object.prototype] holds an opening
    bracket. *)
Lemma memberText_bracket name : hasBracket (memberText name) = true.
Proof.
  unfold memberText. destruct (str_eqb name (lit "__proto__")); [reflexivity |].
  unfold hasBracket. rewrite existsb_app. cbn [existsb].
  rewrite N.eqb_refl. cbn [orb]. apply orb_true_r.
Qed.

Lemma get_memberText {V} (table : list (jsstring * V)) name :
  plainKeys table = true -> get table (memberText name) = Undefined.
Proof. intros H. apply get_bracket; [exact H | apply memberText_bracket]. Qed.

Lemma lookup_memberText {V} (table : list (jsstring * V)) name :
  plainKeys table = true -> lookup table (memberText name) = None.
Proof. intros H. apply lookup_bracket; [exact H | apply memberText_bracket]. Qed.

End WithHost.

End LookupProperties.
(** * Properties *)

(** ** Price discovery *)

Module PriceProperties.
Import JS Float64 PriceTypes PriceDiscoveryEngine Dataset LookupProperties.

Lemma Math_round_le (x y : Q) : (x <= y)%Q -> (Math_round x <= Math_round y)%Z.
Proof.
  intros Hxy. unfold Math_round. apply Qfloor_resp_le.
  apply Qplus_le_compat; [exact Hxy | apply Qle_refl].
Qed.

Lemma Math_round_lower (z : Z) (x : Q) :
  (inject_Z z <= x + (1 # 2))%Q -> (z <= Math_round x)%Z.
Proof.
  intros H. unfold Math_round.
  rewrite <- (Qfloor_Z z). apply Qfloor_resp_le. exact H.
Qed.

Lemma Qfloor_upper (z : Z) (x : Q) : (x < inject_Z (z + 1))%Q -> (Qfloor x <= z)%Z.
Proof.
  intros H.
  assert (Hlt : (inject_Z (Qfloor x) < inject_Z (z + 1))%Q).
  { eapply Qle_lt_trans; [apply Qfloor_le | exact H]. }
  rewrite <- Zlt_Qlt in Hlt. lia.
Qed.

Lemma Math_round_upper (z : Z) (x : Q) :
  (x <= inject_Z z)%Q -> (Math_round x <= z)%Z.
Proof.
  intros H. unfold Math_round. apply Qfloor_upper.
  rewrite inject_Z_plus. change (inject_Z 1) with 1%Q. lra.
Qed.

Lemma lookup_In {V} (t : list (jsstring * V)) k v :
  lookup t k = Some v -> In v (map snd t).
Proof.
  induction t as [| [k' v'] t IH]; simpl; [discriminate |].
  destruct (str_eqb k' k).
  - intros [= ->]. now left.
  - intros H. right. now apply IH.
Qed.

Lemma getCategoryDefaults_None this category :
  getCategoryDefaults this category = None
  <-> getRecord memberCategory (categories this) category = None.
Proof.
  unfold getCategoryDefaults.
  destruct (getRecord _ _ _); split; congruence.
Qed.

Section WithHost.
Context {host : Host}.


Lemma getMarketPrice_None this product category u :
  getMarketPrice this product category u = None
  <-> resolveProductData this (normalizeProductName product) category = None.
Proof.
  unfold getMarketPrice, getMarketPrice_try.
  destruct (resolveProductData _ _ _) as [d |].
  - destruct (applyMarketVariations this d category u) as [[a b] c].
    cbn. split; discriminate.
  - cbn. split; reflexivity.
Qed.

(** C1, as amended.  For a product and a category whose names are not
    names of members of [Object.prototype], [getMarketPrice] returns
    [null] exactly when the direct lookup and the fuzzy match both fail and
    the category is empty, is ['general'], or is not a key of the category
    table: the function has no general bucket. *)
Theorem getMarketPrice_null_iff this product category u :
  let normalizedProduct := normalizeProductName product in
  inherited (keyOf normalizedProduct) = false ->
  inherited category = false ->
  (getMarketPrice this product category u = None <->
   lookup (priceData this) (keyOf normalizedProduct) = None
   /\ findProductByFuzzyMatch this normalizedProduct = None
   /\ (truthy category = false
       \/ str_eqb category (lit "general") = true
       \/ lookup (categories this) category = None)).
Proof.
  cbv zeta. intros Hproduct Hcategory.
  rewrite getMarketPrice_None. unfold resolveProductData.
  rewrite (getRecord_own _ _ _ Hproduct).
  destruct (lookup (priceData this) _) as [d |].
  - split; [discriminate | intros [H _]; discriminate].
  - destruct (findProductByFuzzyMatch this _) as [d |].
    + split; [discriminate | intros [_ [H _]]; discriminate].
    + destruct (truthy category); cbn [andb].
      * destruct (str_eqb category (lit "general")); cbn [negb].
        -- split; auto.
        -- rewrite getCategoryDefaults_None, (getRecord_own _ _ _ Hcategory).
           split; [auto |].
           intros [_ [_ [H | [H | H]]]]; [discriminate | discriminate | exact H].
      * split; auto.
Qed.


(** C4.  The product name ['constructor'] is found in the price table of
    every engine that has no product of that name: the lookup
    [this.priceData[normalizedProduct]] yields the member [constructor] of
    [Object.prototype], which has no prices, and the quote that is
    returned has [NaN] for its three prices. *)
Theorem constructor_quote_has_no_prices this category u :
  toLowerCase (lit "constructor") = lit "constructor" ->
  lookup (priceData this) (lit "constructor") = None ->
  exists q,
    getMarketPrice this (lit "constructor") category u = Some q
    /\ marketPrice q = NaN /\ minPrice q = NaN /\ maxPrice q = NaN.
Proof.
  intros Hlower Hown.
  assert (Hname : normalizeProductName (lit "constructor")
                  = Some (lit "constructor")).
  { unfold normalizeProductName. rewrite Hlower. reflexivity. }
  unfold getMarketPrice, getMarketPrice_try. rewrite Hname.
  unfold resolveProductData. cbn [keyOf].
  rewrite (getRecord_inherited memberData _ (lit "constructor") eq_refl Hown).
  unfold applyMarketVariations.
  cbn [memberData pd_marketPrice pd_minPrice pd_maxPrice toNumber mul round
       catch].
  eexists. split; [reflexivity |]. cbn [marketPrice minPrice maxPrice].
  repeat split.
Qed.

End WithHost.

(** C1: a product that matches nothing, asked under the category
    ['general'], has no quote, before and after the dataset is loaded. *)
Lemma getMarketPrice_null_for_general :
  getMarketPrice (host := asciiHost) PriceDiscoveryEngine.new
    (lit "zorblax") (lit "general") (1 # 2)%Q = None
  /\ getMarketPrice (host := asciiHost) sample
       (lit "zorblax") (lit "general") (1 # 2)%Q = None.
Proof. split; vm_compute; reflexivity. Qed.

Lemma getMarketPrice_null_iff_witness :
  inherited (keyOf (normalizeProductName (host := asciiHost) (lit "zorblax")))
  = false
  /\ inherited (lit "spices") = false
  /\ getMarketPrice (host := asciiHost) sample (lit "zorblax") (lit "spices")
       (1 # 2)%Q = None.
Proof.
  split; [reflexivity |]. split; [reflexivity |].
  apply (getMarketPrice_null_iff (host := asciiHost) sample (lit "zorblax")
           (lit "spices") (1 # 2)%Q); [reflexivity | reflexivity |].
  split; [reflexivity |]. split; [vm_compute; reflexivity |].
  right. right. reflexivity.
Defined.



(** The adjustment in binary64: a price of 60 with the draw [0.75] and the
    default variation is adjusted to 61.49999999999999 and quoted as 61,
    and the category defaults for an average price of 50 have the maximum
    57, where exact arithmetic gives 61.5 and 57.5, rounded to 62 and 58. *)
Lemma adjustment_in_binary64 :
  round (mul (number 60) (variationFactor (1 # 10) (3 # 4))) = Fin 61
  /\ option_map pd_maxPrice
       (getCategoryDefaults
          {| priceData := [];
             categories :=
               [ (lit "grains",
                  {| averagePrice := None; defaultMargin := None;
                     seasonalVariation := None; keywords := None |}) ];
             negotiationRules_maxDiscount := None; isDataLoaded := true |}
          (lit "grains"))
     = Some (Some (Fin 57))
  /\ Math_round (60 * (1 + ((3 # 4) - (1 # 2)) * (1 # 10)))%Q = 62%Z
  /\ Math_round (50 * (1 + (15 # 100)))%Q = 58%Z.
Proof. vm_compute. repeat split. Qed.

Lemma constructor_quote_has_no_prices_witness :
  toLowerCase (Host := asciiHost) (lit "constructor") = lit "constructor"
  /\ lookup (priceData sample) (lit "constructor") = None
  /\ exists q,
       getMarketPrice (host := asciiHost) sample (lit "constructor")
         (lit "general") (1 # 2)%Q = Some q
       /\ marketPrice q = NaN /\ minPrice q = NaN /\ maxPrice q = NaN.
Proof.
  split; [reflexivity |]. split; [reflexivity |].
  apply (constructor_quote_has_no_prices (host := asciiHost) sample
           (lit "general") (1 # 2)%Q); reflexivity.
Defined.

(** C4 in the pipeline: the utterance "cost of constructor" is classified
    as bargaining about the product ['constructor'], the quote has [NaN]
    for its market price, and the response names no price. *)
Lemma constructor_quote_in_pipeline :
  let utterance := Data.VString (lit "cost of constructor") in
  let intent :=
    IntentClassifier.classifyIntent (host := asciiHost) IntentClassifier.new
      utterance (lit "english") in
  Data.type intent = Some Data.bargaining
  /\ Data.product intent = lit "constructor"
  /\ option_map marketPrice
       (getMarketPrice (host := asciiHost) sample (Data.product intent)
          (Data.category intent) (1 # 2)%Q)
     = Some NaN
  /\ ResponseGenerator.text
       (fst (LinguisticBridge.processVoiceInput (host := asciiHost)
               sampleBridge utterance (1 # 2)%Q))
     = lit "Based on current market conditions, constructor is priced at "
       ++ ResponseGenerator.rs
       ++ lit " per kg. Remember to be respectful and patient during negotiations.. Give the customer time to think.".
Proof. vm_compute. repeat split. Qed.

End PriceProperties.

(** ** Intent classification *)

Module IntentProperties.
Import JS Data IntentClassifier Statement.

Lemma getScore_setScore scores i v j :
  getScore (setScore scores i v) j
  = if IntentType_eqb i j then v else getScore scores j.
Proof. destruct i, j; reflexivity. Qed.

Lemma getScore_addScore scores i d j :
  getScore (addScore scores i d) j
  = (getScore scores j + if IntentType_eqb i j then d else 0)%Z.
Proof.
  unfold addScore. rewrite getScore_setScore.
  destruct i, j; cbn; lia.
Qed.

Lemma fold_addScore text i d (l : list jsstring) scores j :
  getScore
    (fold_left (fun scores entry =>
                  if includes text entry then addScore scores i d else scores)
               l scores) j
  = (getScore scores j
     + if IntentType_eqb i j then d * containedEntries text l else 0)%Z.
Proof.
  revert scores. unfold containedEntries.
  induction l as [| x l IH]; intros scores; cbn [fold_left filter].
  - cbn. destruct (IntentType_eqb i j); lia.
  - rewrite IH. destruct (includes text x).
    + rewrite getScore_addScore. cbn [length].
      destruct (IntentType_eqb i j); lia.
    + reflexivity.
Qed.

Lemma getScore_scorePattern text pattern scores i j :
  getScore (scorePattern text pattern scores i) j
  = (getScore scores j
     + if IntentType_eqb i j
       then containedEntries text (keywords pattern)
            + 2 * containedEntries text (phrases pattern)
       else 0)%Z.
Proof.
  unfold scorePattern. rewrite !fold_addScore.
  destruct (IntentType_eqb i j); lia.
Qed.

Lemma getScore_lexiconScores this text j :
  getScore (lexiconScores this text) j
  = (containedEntries text (keywords (intentPatterns this j))
     + 2 * containedEntries text (phrases (intentPatterns this j)))%Z.
Proof.
  unfold lexiconScores, intentKeys. cbn [fold_left].
  rewrite !getScore_scorePattern. destruct j; cbn; lia.
Qed.

Lemma getScore_applyContextualRules text scores j :
  getScore (applyContextualRules text scores) j
  = (getScore scores j + contextualBoost text j)%Z.
Proof.
  unfold contextualBoost, applyContextualRules.
  repeat match goal with
         | |- context [if ?c then _ else _] => destruct c
         end;
    rewrite ?getScore_addScore; destruct j; cbn; lia.
Qed.

Lemma containedEntries_nonneg text l : (0 <= containedEntries text l)%Z.
Proof. unfold containedEntries. lia. Qed.

Lemma contextualBoost_nonneg text j : (0 <= contextualBoost text j)%Z.
Proof.
  unfold contextualBoost, applyContextualRules.
  repeat match goal with
         | |- context [if ?c then _ else _] => destruct c
         end;
    rewrite ?getScore_addScore; destruct j; cbn; lia.
Qed.

Lemma getScore_calculateIntentScores this text j :
  getScore (calculateIntentScores this text) j
  = (containedEntries text (keywords (intentPatterns this j))
     + 2 * containedEntries text (phrases (intentPatterns this j))
     + contextualBoost text j)%Z.
Proof.
  unfold calculateIntentScores.
  now rewrite getScore_applyContextualRules, getScore_lexiconScores.
Qed.

Lemma calculateIntentScores_nonNegative this text :
  nonNegative (calculateIntentScores this text).
Proof.
  unfold nonNegative.
  pose proof (getScore_calculateIntentScores this text bargaining) as H1.
  pose proof (getScore_calculateIntentScores this text bulk_purchase) as H2.
  pose proof (getScore_calculateIntentScores this text casual_inquiry) as H3.
  cbn [getScore] in H1, H2, H3. rewrite H1, H2, H3.
  pose proof (containedEntries_nonneg text).
  pose proof (contextualBoost_nonneg text).
  repeat split;
    repeat match goal with
           | |- (0 <= _ + _)%Z => apply Z.add_nonneg_nonneg
           | |- (0 <= 2 * _)%Z => apply Z.mul_nonneg_nonneg; [lia |]
           end; auto.
Qed.

Lemma selectPrimaryIntent_defined scores :
  exists t, selectPrimaryIntent scores = Some t.
Proof.
  unfold selectPrimaryIntent, maxScoreOf, intentKeys.
  destruct (Z.eqb_spec
              (Z.max (Z.max (s_bargaining scores) (s_bulk_purchase scores))
                     (s_casual_inquiry scores)) 0) as [_ | _];
    [eexists; reflexivity |].
  cbn [find getScore].
  destruct (Z.eqb_spec (s_bargaining scores)
              (Z.max (Z.max (s_bargaining scores) (s_bulk_purchase scores))
                     (s_casual_inquiry scores))); [eexists; reflexivity |].
  destruct (Z.eqb_spec (s_bulk_purchase scores)
              (Z.max (Z.max (s_bargaining scores) (s_bulk_purchase scores))
                     (s_casual_inquiry scores))); [eexists; reflexivity |].
  destruct (Z.eqb_spec (s_casual_inquiry scores)
              (Z.max (Z.max (s_bargaining scores) (s_bulk_purchase scores))
                     (s_casual_inquiry scores))); [eexists; reflexivity |].
  lia.
Qed.

Lemma ratio_bounds (m t : Z) :
  (0 < m)%Z -> (m <= t)%Z ->
  (0 <= inject_Z m / inject_Z (Z.max t 1))%Q
  /\ (inject_Z m / inject_Z (Z.max t 1) <= 1)%Q.
Proof.
  intros Hm Hmt.
  assert (Hmax : Z.max t 1 = t) by lia. rewrite Hmax.
  assert (Ht : (0 < inject_Z t)%Q).
  { change 0%Q with (inject_Z 0). rewrite <- Zlt_Qlt. lia. }
  split.
  - apply Qle_shift_div_l; [exact Ht |].
    rewrite Qmult_0_l. change 0%Q with (inject_Z 0). rewrite <- Zle_Qle. lia.
  - apply Qle_shift_div_r; [exact Ht |].
    rewrite Qmult_1_l. rewrite <- Zle_Qle. lia.
Qed.

Lemma Qmin_bounds (a b lo : Q) :
  (lo <= a)%Q -> (lo <= b)%Q -> (lo <= Qmin a b)%Q /\ (Qmin a b <= b)%Q.
Proof.
  intros Ha Hb. split.
  - apply Q.min_glb; assumption.
  - apply Q.le_min_r.
Qed.

Lemma keywordBonus_bounds (n : nat) :
  (0 <= Qmin (inject_Z (Z.of_nat n) * (1 # 10)) (2 # 10))%Q
  /\ (Qmin (inject_Z (Z.of_nat n) * (1 # 10)) (2 # 10) <= 2 # 10)%Q.
Proof.
  apply Qmin_bounds; [| lra].
  assert (0 <= inject_Z (Z.of_nat n))%Q.
  { change 0%Q with (inject_Z 0). rewrite <- Zle_Qle. lia. }
  lra.
Qed.

Lemma calculateConfidence_bounds scores kws product :
  nonNegative scores ->
  (3 # 10 <= calculateConfidence scores kws product)%Q
  /\ (calculateConfidence scores kws product <= 95 # 100)%Q.
Proof.
  intros [Hb [Hk Hc]]. unfold calculateConfidence.
  apply Qmin_bounds; [| lra].
  destruct (Z.ltb_spec 0 (maxScoreOf scores)) as [Hpos | _]; [| lra].
  assert (Hle : (maxScoreOf scores
                 <= s_bargaining scores + s_bulk_purchase scores
                    + s_casual_inquiry scores)%Z)
    by (unfold maxScoreOf; lia).
  destruct (ratio_bounds _ _ Hpos Hle) as [Hr0 Hr1].
  destruct (keywordBonus_bounds (length kws)) as [Hk0 Hk1].
  set (ratio := (inject_Z (maxScoreOf scores) / _)%Q) in *.
  set (bonus := Qmin _ _) in *.
  destruct product as [[| c p] |]; [lra | | lra].
  destruct (str_eqb (c :: p) (lit "unknown")); lra.
Qed.

Section WithHost.
Context {host : Host}.

(** C5.  For every text and language [classifyIntent] returns an intent
    whose type is one of the three categories and whose confidence lies in
    [[0, 1]] (indeed in [[0.3, 0.95]]).  For a string the body completes
    and its result is returned; otherwise the body throws and the result is
    the fallback intent: [casual_inquiry], confidence [0.3], no keywords,
    product ['unknown']. *)
Theorem classifyIntent_total this text language :
  let r := classifyIntent this text language in
  (exists t, type r = Some t)
  /\ (0 <= confidence r)%Q /\ (confidence r <= 1)%Q
  /\ (3 # 10 <= confidence r)%Q /\ (confidence r <= 95 # 100)%Q
  /\ match text with
     | VString _ => classifyIntent_try this text language = Ok r
     | _ =>
         classifyIntent_try this text language = Throw typeError
         /\ type r = Some casual_inquiry
         /\ confidence r = (3 # 10)%Q
         /\ Data.keywords r = []
         /\ product r = lit "unknown"
     end.
Proof.
  cbv zeta. unfold classifyIntent, classifyIntent_try.
  destruct text as [| | q | s]; cbn [normalizeText bind catch];
    try (cbn [type confidence Data.keywords product];
         repeat split; try reflexivity; try lra;
         eexists; reflexivity).
  cbn [type confidence].
  set (n := trim _).
  destruct (calculateConfidence_bounds
              (calculateIntentScores this n)
              (extractKeywords this n
                 (selectPrimaryIntent (calculateIntentScores this n)))
              (extractProduct this n)
              (calculateIntentScores_nonNegative this n)) as [Hlo Hhi].
  repeat split; try assumption; try lra.
  apply selectPrimaryIntent_defined.
Qed.

(** C6, as amended.  The score of a category before the contextual rules
    is the number of its keyword entries that the normalised text contains
    as a substring, each entry counted as often as the lexicon lists it,
    plus two for every phrase entry that the text contains; the final score
    adds the contextual boosts.  When the three scores are zero the intent
    is [casual_inquiry]. *)
Theorem raw_score_counts_entries this text intent s language :
  getScore (lexiconScores this text) intent
  = (containedEntries text (keywords (intentPatterns this intent))
     + 2 * containedEntries text (phrases (intentPatterns this intent)))%Z
  /\ getScore (calculateIntentScores this text) intent
     = (getScore (lexiconScores this text) intent
        + contextualBoost text intent)%Z
  /\ (let r := classifyIntent this (VString s) language in
      scores r = Some zeroScores -> type r = Some casual_inquiry).
Proof.
  split; [apply getScore_lexiconScores |].
  split; [apply getScore_applyContextualRules |].
  cbv zeta. unfold classifyIntent, classifyIntent_try.
  cbn [normalizeText bind catch scores type].
  intros [= ->]. reflexivity.
Qed.

(** C10.  The list of matched keywords of a classified intent has at most
    five entries.  For a string it is cut from the matches in the
    normalised text of that string: the first five of the keyword entries,
    followed by the phrase entries, of the winning category that the
    normalised text contains, so that five are returned whenever five or
    more entries match.  For any other value it is empty. *)
Theorem keywords_at_most_five this text language :
  let r := classifyIntent this text language in
  (length (Data.keywords r) <= 5)%nat
  /\ match text with
     | VString s =>
         exists n t,
           normalizeText (VString s) = Ok n
           /\ normalizedText r = Some n
           /\ selectPrimaryIntent (calculateIntentScores this n) = Some t
           /\ type r = Some t
           /\ let matched :=
                filter (fun keyword => includes n keyword)
                       (keywords (intentPatterns this t))
                ++ filter (fun phrase => includes n phrase)
                          (phrases (intentPatterns this t)) in
              Data.keywords r = firstn 5 matched
              /\ length (Data.keywords r) = Nat.min 5 (length matched)
     | _ => Data.keywords r = []
     end.
Proof.
  cbv zeta. unfold classifyIntent, classifyIntent_try.
  destruct text as [| | q | s]; cbn [normalizeText bind catch];
    cbn [Data.keywords normalizedText type length];
    try (split; [lia | reflexivity]).
  set (n := trim _). unfold extractKeywords.
  split; [apply firstn_le_length |].
  destruct (selectPrimaryIntent_defined (calculateIntentScores this n))
    as [t Ht].
  exists n, t. rewrite Ht.
  repeat split; try reflexivity. apply length_firstn.
Qed.

End WithHost.

Lemma raw_score_counts_entries_witness :
  getScore (lexiconScores new (lit "rate")) bargaining = 29%Z
  /\ type (classifyIntent (host := asciiHost) new (VString (lit "zzz"))
             (lit "english"))
     = Some casual_inquiry.
Proof.
  destruct (raw_score_counts_entries (host := asciiHost) new (lit "rate")
              bargaining (lit "zzz") (lit "english")) as [Hraw [_ Hzero]].
  split.
  - rewrite Hraw. vm_compute. reflexivity.
  - apply Hzero. vm_compute. reflexivity.
Defined.

(** C6: for the text "rate" the code gives the category bargaining 29
    points before the contextual rules and 31 after them, one for each of
    the 29 entries 'rate' of its keyword table, where the count of matching
    tokens is 1; for the text "pri" the code gives 0 points, where the
    token is contained in the keyword 'price' and the count of matching
    tokens is 1. *)
Lemma raw_score_is_not_token_count :
  getScore (lexiconScores new (lit "rate")) bargaining = 29%Z
  /\ getScore (calculateIntentScores new (lit "rate")) bargaining = 31%Z
  /\ specRawScore new bargaining (lit "rate") = 1%Z
  /\ getScore (lexiconScores new (lit "pri")) bargaining = 0%Z
  /\ getScore (calculateIntentScores new (lit "pri")) bargaining = 0%Z
  /\ specRawScore new bargaining (lit "pri") = 1%Z.
Proof. vm_compute. repeat split. Qed.

(** C10 on an input with more than five matches: the text "rate" contains
    29 keyword entries of the winning category, five are returned. *)
Lemma keywords_truncated_example :
  let r := classifyIntent (host := asciiHost) new (VString (lit "rate"))
             (lit "english") in
  type r = Some bargaining
  /\ containedEntries (lit "rate") (keywords (intentPatterns new bargaining))
     = 29%Z
  /\ Data.keywords r
     = [lit "rate"; lit "rate"; lit "rate"; lit "rate"; lit "rate"].
Proof. vm_compute. repeat split. Qed.

End IntentProperties.

(** ** Negotiation guidance *)

Module NegotiationProperties.
Import JS Data NegotiationAssistant Statement.

Lemma getCulturalContext_state this intent :
  let this' := snd (getCulturalContext this intent) in
  phrases (respectful this')
  = phrases (respectful this) ++ pushedPhrase intent
  /\ sameFixedTables this' this.
Proof.
  unfold getCulturalContext, pushedPhrase, sameFixedTables.
  destruct (type intent) as [[| |] |]; cbn.
  all: rewrite ?app_nil_r; repeat split; reflexivity.
Qed.

Lemma generateFallbackGuidance_state this intent text :
  snd (generateFallbackGuidance this intent text)
  = snd (getCulturalContext this intent).
Proof.
  unfold generateFallbackGuidance.
  destruct (getCulturalContext this intent) as [cc this']. reflexivity.
Qed.

Lemma rule_first :
  lookupExc (counterOfferRules new) (lit "first_offer")
  = Ok {| reduction := (5 # 100)%Q;
          message := lit "Let me see what I can do for you" |}.
Proof. reflexivity. Qed.

Lemma rule_second :
  lookupExc (counterOfferRules new) (lit "second_offer")
  = Ok {| reduction := (8 # 100)%Q;
          message := lit "This is getting close to my best price" |}.
Proof. reflexivity. Qed.

Lemma rule_final :
  lookupExc (counterOfferRules new) (lit "final_offer")
  = Ok {| reduction := (12 # 100)%Q;
          message := lit "This is my final offer" |}.
Proof. reflexivity. Qed.

Lemma generateCounterOffers_range this r intent ca :
  counterOfferRules this = counterOfferRules new ->
  exists offers,
    generateCounterOffers this (OfRange r) intent ca = Ok offers
    /\ let start :=
         if str_eqb (priceAwareness ca) (lit "high")
         then market (ranges r) else PriceTypes.recommended (ranges r) in
       map level offers = offerLevels
       /\ map price offers
          = map (fun red => Some (offerPrice start (safe (ranges r)) red))
                [(5 # 100)%Q; (8 # 100)%Q; (12 # 100)%Q]
       /\ map recommended offers = [true; false; false].
Proof.
  intros Hrules. unfold generateCounterOffers.
  cbn [rangesOf negotiationOf bind]. rewrite Hrules.
  unfold offerLevels. cbn [forEachIndexed].
  rewrite rule_first, rule_second, rule_final. cbn [bind].
  eexists. split; [reflexivity |]. cbn [map level price recommended reduction].
  repeat split.
Qed.

Lemma selectNegotiationTactics_range r intent ca :
  exists t, selectNegotiationTactics (OfRange r) intent ca = Ok t.
Proof.
  unfold selectNegotiationTactics. cbn [negotiationOf bind].
  repeat match goal with
         | |- context [if existsb ?f ?l then _ else _] => destruct (existsb f l)
         end;
    eexists; reflexivity.
Qed.

Section WithHost.
Context {host : Host}.

Lemma analyzeCustomerBehavior_priceAwareness s intent :
  exists ca,
    analyzeCustomerBehavior (VString s) intent = Ok ca
    /\ str_eqb (priceAwareness ca) (lit "high") = mentionsHighPrice s.
Proof.
  unfold analyzeCustomerBehavior, mentionsHighPrice.
  cbn [asString bind].
  set (lower := toLowerCase s).
  destruct (includes lower (lit "expensive") || includes lower (lit "costly")
            || includes lower (lit "mehenga"))%bool.
  - repeat match goal with
           | |- context [if ?c then _ else _] => destruct c
           | |- context [match quantity intent with _ => _ end] =>
               destruct (quantity intent)
           end;
      (eexists; split; [reflexivity | reflexivity]).
  - destruct (includes lower (lit "fair") || includes lower (lit "reasonable")
              || includes lower (lit "accha"))%bool;
      repeat match goal with
             | |- context [if ?c then _ else _] => destruct c
             | |- context [match quantity intent with _ => _ end] =>
                 destruct (quantity intent)
             end;
      (eexists; split; [reflexivity | reflexivity]).
Qed.

Lemma generateGuidance_state this intent priceData text :
  snd (generateGuidance this intent priceData text)
  = snd (getCulturalContext this intent).
Proof.
  unfold generateGuidance, generateGuidance_try.
  destruct priceData as [pd |]; cbn [catch].
  - destruct (analyzeCustomerBehavior text intent) as [ca | e]; cbn [bind catch];
      [| apply generateFallbackGuidance_state].
    destruct (generateCounterOffers this pd intent ca) as [offers | e];
      cbn [bind catch]; [| apply generateFallbackGuidance_state].
    destruct (selectNegotiationTactics pd intent ca) as [t | e];
      cbn [bind catch]; [| apply generateFallbackGuidance_state].
    destruct (generateDecisionGuidance pd intent ca) as [d | e];
      cbn [bind catch]; [| apply generateFallbackGuidance_state].
    destruct (getCulturalContext this intent) as [cc this']. reflexivity.
  - apply generateFallbackGuidance_state.
Qed.

(** C3.  Every call of [generateGuidance] pushes a phrase onto the array
    [this.culturalPatterns.respectful.phrases] of the instance (one for
    each intent that has a type); nothing else in the tables changes.  The
    cultural table therefore grows from call to call. *)
Theorem generateGuidance_grows_table this intent priceData text :
  let this' := snd (generateGuidance this intent priceData text) in
  phrases (respectful this')
  = phrases (respectful this) ++ pushedPhrase intent
  /\ sameFixedTables this' this.
Proof.
  cbv zeta. rewrite generateGuidance_state.
  apply getCulturalContext_state.
Qed.

(** C7, as amended.  With price data that carry [ranges] and a customer
    text that is a string, the guidance has exactly the three offers
    [first_offer], [second_offer], [final_offer]; their prices are the
    starting price reduced by 5%, 8% and 12%, rounded, and never below the
    safe floor [ranges.safe]; only the first is recommended.  The starting
    price is [ranges.recommended], unless the text mentions a high price
    ('expensive', 'costly', 'mehenga'): then it is [ranges.market].  Without
    price data the guidance has the single placeholder offer, with a
    [null] price and [recommended = true]. *)
Theorem counter_offer_ladder this intent r s text :
  counterOfferRules this = counterOfferRules new ->
  (let g := fst (generateGuidance this intent (Some (OfRange r)) (VString s)) in
   let start :=
     if mentionsHighPrice s
     then market (ranges r) else PriceTypes.recommended (ranges r) in
   map level (counterOffers g)
   = [lit "first_offer"; lit "second_offer"; lit "final_offer"]
   /\ map price (counterOffers g)
      = [ Some (offerPrice start (safe (ranges r)) (5 # 100)%Q);
          Some (offerPrice start (safe (ranges r)) (8 # 100)%Q);
          Some (offerPrice start (safe (ranges r)) (12 # 100)%Q) ]
   /\ Forall (fun o => exists p, price o = Some p /\ (safe (ranges r) <= p)%Z)
             (counterOffers g)
   /\ map recommended (counterOffers g) = [true; false; false])
  /\ counterOffers (fst (generateGuidance this intent None text))
     = [placeholderOffer].
Proof.
  intros Hrules. split.
  - cbv zeta. unfold generateGuidance, generateGuidance_try.
    destruct (analyzeCustomerBehavior_priceAwareness s intent) as [ca [-> Hpa]].
    cbn [bind].
    destruct (generateCounterOffers_range this r intent ca Hrules)
      as [offers [-> [Hl [Hp Hr]]]].
    rewrite Hpa in Hp. cbn [bind].
    destruct (selectNegotiationTactics_range r intent ca) as [t ->].
    unfold generateDecisionGuidance. cbn [bind extractCustomerOffer].
    destruct (getCulturalContext this intent) as [cc this'].
    cbn [catch bind fst counterOffers].
    split; [exact Hl |]. split; [exact Hp |]. split; [| exact Hr].
    apply Forall_forall. intros o Ho.
    apply (in_map price) in Ho. rewrite Hp in Ho. cbn [map] in Ho.
    destruct Ho as [Ho | [Ho | [Ho | []]]]; symmetry in Ho;
      eexists; (split; [exact Ho | unfold offerPrice; lia]).
  - unfold generateGuidance, generateGuidance_try, generateFallbackGuidance.
    destruct (getCulturalContext this intent) as [cc this']. reflexivity.
Qed.

End WithHost.

Lemma counter_offer_ladder_witness :
  counterOfferRules new = counterOfferRules new
  /\ match PriceDiscoveryEngine.generateFallbackPriceRange
             (lit "mutton") (lit "meat") with
     | PriceDiscoveryEngine.Estimated r =>
         map price
           (counterOffers
              (fst (generateGuidance (host := asciiHost) new
                      (IntentClassifier.classifyIntent (host := asciiHost)
                         IntentClassifier.new
                         (VString (lit "What is your best price for mutton"))
                         (lit "english"))
                      (Some (OfRange r))
                      (VString (lit "What is your best price for mutton")))))
         = [Some 209%Z; Some 202%Z; Some 194%Z]
     | PriceDiscoveryEngine.WithoutPrices _ _ => False
     end.
Proof.
  split; [reflexivity |].
  destruct (PriceDiscoveryEngine.generateFallbackPriceRange
              (lit "mutton") (lit "meat")) as [r |] eqn:Hr;
    [| discriminate Hr].
  destruct (counter_offer_ladder (host := asciiHost) new
              (IntentClassifier.classifyIntent (host := asciiHost)
                 IntentClassifier.new
                 (VString (lit "What is your best price for mutton"))
                 (lit "english"))
              r (lit "What is your best price for mutton") VNull eq_refl)
    as [[_ [Hprices _]] _].
  rewrite Hprices. injection Hr as <-. vm_compute. reflexivity.
Defined.

(** C7: for the customer text "This mutton is too expensive" the three
    offers start from the market price 200 and not from the recommended
    price 220: they are 190, 184 and 180, where the recommended price
    would give 209, 202 and 194. *)
Lemma offers_start_from_market_price :
  match PriceDiscoveryEngine.generateFallbackPriceRange
          (lit "mutton") (lit "meat") with
  | PriceDiscoveryEngine.Estimated r =>
      let text := VString (lit "This mutton is too expensive") in
      let intent :=
        IntentClassifier.classifyIntent (host := asciiHost)
          IntentClassifier.new text (lit "english") in
      (PriceTypes.recommended (ranges r), market (ranges r), safe (ranges r))
      = (220, 200, 180)%Z
      /\ map price
           (counterOffers
              (fst (generateGuidance (host := asciiHost) new intent
                      (Some (OfRange r)) text)))
         = [Some 190%Z; Some 184%Z; Some 180%Z]
      /\ map (offerPrice 220 180) [(5 # 100)%Q; (8 # 100)%Q; (12 # 100)%Q]
         = [209; 202; 194]%Z
  | PriceDiscoveryEngine.WithoutPrices _ _ => False
  end.
Proof. vm_compute. repeat split. Qed.

(** The quote of [getMarketPrice] has no [ranges]: with it the body of
    [generateGuidance] throws and the guidance is the fallback guidance,
    with the placeholder offer. *)
Lemma guidance_for_quote_is_fallback :
  match PriceDiscoveryEngine.getMarketPrice (host := asciiHost) Dataset.sample
          (lit "rice") (lit "grains") (1 # 2)%Q with
  | Some q =>
      let intent :=
        IntentClassifier.classifyIntent (host := asciiHost)
          IntentClassifier.new (VString (lit "best price for rice"))
          (lit "english") in
      let g := fst (generateGuidance (host := asciiHost) new intent
                      (Some (OfQuote q))
                      (VString (lit "best price for rice"))) in
      fallback g = true /\ counterOffers g = [placeholderOffer]
  | None => False
  end.
Proof. vm_compute. split; reflexivity. Qed.

(** C3 on the whole pipeline: two requests through [processVoiceInput]
    leave the array of respectful phrases with five entries instead of the
    three entries of the constructor. *)
Lemma pipeline_calls_grow_table :
  let text := VString (lit "What is the price of 5 kg rice?") in
  let bridge0 := LinguisticBridge.new in
  let bridge1 :=
    snd (LinguisticBridge.processVoiceInput (host := asciiHost) bridge0 text
           (1 # 2)%Q) in
  let bridge2 :=
    snd (LinguisticBridge.processVoiceInput (host := asciiHost) bridge1 text
           (1 # 2)%Q) in
  map (fun b =>
         length (phrases (respectful (LinguisticBridge.negotiationAssistant b))))
      [bridge0; bridge1; bridge2]
  = [3; 4; 5].
Proof. vm_compute. reflexivity. Qed.

End NegotiationProperties.


(** ** Response synthesis *)

Module ResponseProperties.
Import JS Data Regex Statement Braces Brackets Display LookupProperties.

Lemma skipn_takeWhile {A} (p : A -> bool) s :
  skipn (length (takeWhile p s)) s = dropWhile p s.
Proof.
  induction s as [| x s IH]; cbn; [reflexivity |].
  destruct (p x); cbn; [exact IH | reflexivity].
Qed.

Lemma dropWhile_notClose_nil s :
  dropWhile notClose s = [] <-> hasClose s = false.
Proof.
  unfold hasClose, notClose. induction s as [| x s IH]; cbn; [tauto |].
  destruct (isCloseBrace x); cbn; [split; discriminate | exact IH].
Qed.

Lemma takeWhile_nil_head s :
  takeWhile (fun d => negb (isCloseBrace d)) s = [] ->
  s = [] \/ exists x s', s = x :: s' /\ isCloseBrace x = true.
Proof.
  destruct s as [| x s]; cbn; [now left |].
  destruct (isCloseBrace x) eqn:E; cbn; [| discriminate].
  intros _. right. now exists x, s.
Qed.

Lemma placeholderAt_spec prev c s :
  placeholderAt prev (c :: s)
  = if (N.eqb c 123 && goodRun s)%bool
    then Some (S (S (length (takeWhile notClose s))))
    else None.
Proof.
  unfold placeholderAt. destruct (N.eqb c 123); cbn [andb]; [| reflexivity].
  fold notClose.
  destruct s as [| x s]; [reflexivity |].
  cbn [takeWhile goodRun]. destruct (notClose x) eqn:Hx; cbn [andb]; [| reflexivity].
  cbn [length skipn]. rewrite skipn_takeWhile.
  destruct (dropWhile notClose s) as [| y r] eqn:Hd.
  - apply dropWhile_notClose_nil in Hd. now rewrite Hd.
  - destruct (hasClose s) eqn:Hc; [reflexivity |].
    apply dropWhile_notClose_nil in Hc. congruence.
Qed.

Lemma placeholderAt_nil prev : placeholderAt prev [] = None.
Proof. reflexivity. Qed.

Lemma hasPlaceholder_holds s : hasPlaceholder s = holds s.
Proof.
  unfold hasPlaceholder. generalize (@None char).
  induction s as [| c s IH]; intros prev; cbn [existsAt holds].
  - reflexivity.
  - rewrite placeholderAt_spec, IH.
    destruct (N.eqb c 123 && goodRun s)%bool; reflexivity.
Qed.

Lemma replaceFrom_strip skip before prev s :
  replaceFrom placeholderAt (fun _ _ _ => []) skip before prev s = strip skip s.
Proof.
  revert skip before prev.
  induction s as [| c s IH]; intros skip before prev; cbn [replaceFrom strip];
    [reflexivity |].
  destruct skip as [| k]; [| apply IH].
  rewrite !placeholderAt_spec.
  destruct (N.eqb c 123 && goodRun s)%bool; cbn [app]; now rewrite IH.
Qed.

Lemma removePlaceholders_strip s : removePlaceholders s = strip 0 s.
Proof. apply replaceFrom_strip. Qed.

Lemma strip_skipn k s : strip k s = strip 0 (skipn k s).
Proof.
  revert k. induction s as [| c s IH]; intros [| k]; try reflexivity.
  cbn [strip skipn]. apply IH.
Qed.

Lemma skipn_S_tl {A} n (l : list A) : skipn (S n) l = tl (skipn n l).
Proof.
  revert l. induction n as [| n IH]; intros [| x l]; try reflexivity.
  - cbn [skipn] in *. apply (IH l).
Qed.

Lemma strip_cons c s :
  strip 0 (c :: s)
  = if (N.eqb c 123 && goodRun s)%bool
    then strip 0 (afterClose s)
    else c :: strip 0 s.
Proof.
  cbn [strip]. rewrite placeholderAt_spec.
  destruct (N.eqb c 123 && goodRun s)%bool; [| reflexivity].
  rewrite strip_skipn, skipn_S_tl, skipn_takeWhile. reflexivity.
Qed.

Lemma length_dropWhile {A} (p : A -> bool) s :
  (length (dropWhile p s) <= length s)%nat.
Proof.
  induction s as [| x s IH]; cbn; [lia |].
  destruct (p x); cbn; lia.
Qed.

Lemma length_afterClose s : (length (afterClose s) <= length s)%nat.
Proof.
  unfold afterClose. pose proof (length_dropWhile notClose s) as H.
  destruct (dropWhile notClose s); cbn in *; lia.
Qed.

Lemma hasClose_dropWhile s :
  hasClose (dropWhile notClose s) = hasClose s.
Proof.
  unfold hasClose, notClose. induction s as [| x s IH]; cbn; [reflexivity |].
  destruct (isCloseBrace x) eqn:E; cbn; [now rewrite E | exact IH].
Qed.

Lemma hasClose_cons c s : hasClose (c :: s) = (isCloseBrace c || hasClose s)%bool.
Proof. reflexivity. Qed.

Lemma hasClose_tl s : hasClose (tl s) = true -> hasClose s = true.
Proof.
  destruct s as [| x s]; [auto |]. cbn [tl]. rewrite hasClose_cons.
  intros ->. apply orb_true_r.
Qed.

Lemma hasClose_strip0 n s :
  (length s <= n)%nat -> hasClose (strip 0 s) = true -> hasClose s = true.
Proof.
  revert s. induction n as [| n IH]; intros [| c s] Hlen; cbn [length] in Hlen;
    try lia; try (cbn; discriminate).
  rewrite strip_cons.
  destruct (N.eqb c 123 && goodRun s)%bool.
  - intros H. apply IH in H; [| pose proof (length_afterClose s); lia].
    unfold afterClose in H. apply hasClose_tl in H.
    rewrite hasClose_dropWhile in H.
    rewrite hasClose_cons, H. apply orb_true_r.
  - rewrite !hasClose_cons.
    destruct (isCloseBrace c); [reflexivity |]. cbn [orb].
    apply IH. lia.
Qed.

Lemma goodRun_hasClose s : goodRun s = true -> hasClose s = true.
Proof.
  destruct s as [| x s]; cbn [goodRun]; [discriminate |].
  intros H. apply andb_prop in H as [_ H].
  rewrite hasClose_cons, H. apply orb_true_r.
Qed.

Lemma goodRun_strip0 s : goodRun (strip 0 s) = true -> goodRun s = true.
Proof.
  destruct s as [| x s]; [cbn; discriminate |].
  rewrite strip_cons.
  destruct (N.eqb x 123 && goodRun s)%bool eqn:E.
  - intros _. apply andb_prop in E as [Hx Hg].
    cbn [goodRun]. apply N.eqb_eq in Hx. subst x.
    rewrite (goodRun_hasClose _ Hg). reflexivity.
  - cbn [goodRun]. intros H. apply andb_prop in H as [Hx Hc].
    rewrite Hx. cbn [andb].
    apply (hasClose_strip0 (length s)); [lia | exact Hc].
Qed.

Lemma holds_strip0 n s : (length s <= n)%nat -> holds (strip 0 s) = false.
Proof.
  revert s. induction n as [| n IH]; intros [| c s] Hlen; cbn [length] in Hlen;
    try lia; try reflexivity.
  rewrite strip_cons.
  destruct (N.eqb c 123 && goodRun s)%bool eqn:E.
  - apply IH. pose proof (length_afterClose s). lia.
  - cbn [holds]. rewrite (IH s) by lia. rewrite orb_false_r.
    destruct (N.eqb c 123) eqn:Hc; [| reflexivity]. cbn [andb] in *.
    destruct (goodRun (strip 0 s)) eqn:Hg; [| reflexivity].
    apply goodRun_strip0 in Hg. congruence.
Qed.

Lemma removePlaceholders_clean s :
  hasPlaceholder (removePlaceholders s) = false.
Proof.
  rewrite hasPlaceholder_holds, removePlaceholders_strip.
  now apply (holds_strip0 (length s)).
Qed.

Lemma sameBrace_refl c : sameBrace c c.
Proof. split; auto. Qed.

Lemma thins_refl s : thins s s.
Proof. induction s; constructor; auto using sameBrace_refl. Qed.

Lemma thins_hasClose s t : thins s t -> hasClose t = true -> hasClose s = true.
Proof.
  induction 1 as [| c c' s t [Hc _] _ IH | c s t Hc _ IH]; auto.
  - rewrite !hasClose_cons, Hc.
    destruct (isCloseBrace c'); cbn [orb]; auto.
  - intros H. rewrite hasClose_cons, (IH H). apply orb_true_r.
Qed.

Lemma thins_goodRun s t : thins s t -> goodRun t = true -> goodRun s = true.
Proof.
  induction 1 as [| c c' s t [Hc _] Hst IH | c s t Hc _ IH].
  - auto.
  - cbn [goodRun]. unfold notClose. rewrite Hc.
    intros H. apply andb_prop in H as [-> H].
    now rewrite (thins_hasClose _ _ Hst H).
  - intros H. cbn [goodRun]. unfold notClose. rewrite Hc.
    now rewrite (goodRun_hasClose _ (IH H)).
Qed.

Lemma thins_holds s t : thins s t -> holds t = true -> holds s = true.
Proof.
  induction 1 as [| c c' s t [Hc Ho] Hst IH | c s t Hc _ IH].
  - auto.
  - cbn [holds]. intros H. apply orb_prop in H as [H | H].
    + apply andb_prop in H as [H1 H2].
      now rewrite (Ho H1), (thins_goodRun _ _ Hst H2).
    + rewrite (IH H). apply orb_true_r.
  - intros H. cbn [holds]. rewrite (IH H). apply orb_true_r.
Qed.

Lemma space_not_brace c :
  isSpace c = true -> isCloseBrace c = false /\ N.eqb c 123 = false.
Proof.
  intros H. unfold isCloseBrace. split.
  - destruct (N.eqb_spec c 125) as [-> | _]; [discriminate H | reflexivity].
  - destruct (N.eqb_spec c 123) as [-> | _]; [discriminate H | reflexivity].
Qed.

Lemma thins_collapseFrom inRun s : thins s (collapseFrom inRun s).
Proof.
  revert inRun. induction s as [| c s IH]; intros inRun; cbn [collapseFrom];
    [constructor |].
  destruct (isSpace c) eqn:Hc.
  - destruct (space_not_brace c Hc) as [Hclose Hopen].
    destruct inRun.
    + apply thins_drop; auto.
    + apply thins_same; auto. split; [exact Hclose | discriminate].
  - apply thins_same; auto using sameBrace_refl.
Qed.

Lemma thins_drop_all a b :
  forallb notClose b = true -> thins (a ++ b) a.
Proof.
  intros Hb. induction a as [| c a IH]; cbn [app].
  - induction b as [| x b IHb]; [constructor |].
    cbn [forallb] in Hb. apply andb_prop in Hb as [Hx Hb].
    apply thins_drop; [| now apply IHb].
    unfold notClose in Hx. now destruct (isCloseBrace x).
  - apply thins_same; auto using sameBrace_refl.
Qed.

Lemma thins_dropWhile_space s : thins s (dropWhile isSpace s).
Proof.
  induction s as [| c s IH]; cbn [dropWhile]; [constructor |].
  destruct (isSpace c) eqn:Hc; [| apply thins_refl].
  apply thins_drop; [apply (space_not_brace c Hc) | exact IH].
Qed.

Lemma takeWhile_dropWhile {A} (p : A -> bool) l :
  takeWhile p l ++ dropWhile p l = l.
Proof.
  induction l as [| x l IH]; cbn; [reflexivity |].
  destruct (p x); cbn; [now rewrite IH | reflexivity].
Qed.

Lemma takeWhile_all {A} (p : A -> bool) l : forallb p (takeWhile p l) = true.
Proof.
  induction l as [| x l IH]; cbn; [reflexivity |].
  destruct (p x) eqn:E; cbn; [now rewrite E | reflexivity].
Qed.

Lemma trimEnd_split s :
  exists b, s = trimEnd s ++ b /\ forallb isSpace b = true.
Proof.
  unfold trimEnd. exists (rev (takeWhile isSpace (rev s))). split.
  - rewrite <- rev_app_distr, takeWhile_dropWhile. now rewrite rev_involutive.
  - rewrite forallb_forall. intros x Hx. apply in_rev in Hx.
    pose proof (takeWhile_all isSpace (rev s)) as H.
    rewrite forallb_forall in H. now apply H.
Qed.

Lemma thins_trimEnd s : thins s (trimEnd s).
Proof.
  destruct (trimEnd_split s) as [b [Hs Hb]].
  rewrite Hs at 1. apply thins_drop_all.
  rewrite forallb_forall in *. intros x Hx.
  unfold notClose. now rewrite (proj1 (space_not_brace x (Hb x Hx))).
Qed.

Lemma holds_trim s : holds (trim s) = true -> holds s = true.
Proof.
  unfold trim, trimStart. intros H.
  apply (thins_holds _ _ (thins_trimEnd _)) in H.
  now apply (thins_holds _ _ (thins_dropWhile_space _)) in H.
Qed.

Lemma holds_collapseSpaces s : holds (collapseSpaces s) = true -> holds s = true.
Proof. apply thins_holds, thins_collapseFrom. Qed.

Lemma hasClose_app a b : hasClose (a ++ b) = (hasClose a || hasClose b)%bool.
Proof. apply existsb_app. Qed.

Lemma holds_hasClose s : holds s = true -> hasClose s = true.
Proof.
  induction s as [| c s IH]; cbn [holds]; [discriminate |].
  intros H. rewrite hasClose_cons. apply orb_prop in H as [H | H].
  - apply andb_prop in H as [_ H]. rewrite (goodRun_hasClose _ H).
    apply orb_true_r.
  - rewrite (IH H). apply orb_true_r.
Qed.

Lemma goodRun_app_l a b : goodRun a = true -> goodRun (a ++ b) = true.
Proof.
  destruct a as [| x a]; cbn [goodRun app]; [discriminate |].
  intros H. apply andb_prop in H as [-> H].
  now rewrite hasClose_app, H.
Qed.

Lemma holds_app_l a b : holds a = true -> holds (a ++ b) = true.
Proof.
  induction a as [| c a IH]; cbn [holds app]; [discriminate |].
  intros H. apply orb_prop in H as [H | H].
  - apply andb_prop in H as [-> H]. now rewrite (goodRun_app_l _ b H).
  - rewrite (IH H). apply orb_true_r.
Qed.

Lemma goodRun_app_noClose a b :
  hasClose b = false -> goodRun (a ++ b) = true -> goodRun a = true.
Proof.
  intros Hb. destruct a as [| x a]; cbn [app].
  - intros H. apply goodRun_hasClose in H. congruence.
  - cbn [goodRun]. now rewrite hasClose_app, Hb, orb_false_r.
Qed.

Lemma holds_app_noClose a b :
  hasClose b = false -> holds (a ++ b) = true -> holds a = true.
Proof.
  intros Hb. induction a as [| c a IH]; cbn [holds app].
  - intros H. apply holds_hasClose in H. congruence.
  - intros H. apply orb_prop in H as [H | H].
    + apply andb_prop in H as [-> H].
      now rewrite (goodRun_app_noClose _ _ Hb H).
    + rewrite (IH H). apply orb_true_r.
Qed.

Import ResponseGenerator.

Lemma join_cons sep x y l :
  join sep (x :: y :: l) = x ++ sep ++ join sep (y :: l).
Proof. reflexivity. Qed.

Lemma splitFrom_cons sep k cur s :
  exists x l, splitFrom sep k cur s = x :: l.
Proof.
  revert k cur. induction s as [| c s IH]; intros k cur; cbn [splitFrom].
  - now eexists _, _.
  - destruct k as [| k]; [| apply IH].
    destruct (startsWith sep (c :: s)); [now eexists _, _ | apply IH].
Qed.

Lemma startsWith_split p s :
  startsWith p s = true -> s = p ++ skipn (length p) s.
Proof.
  unfold startsWith. revert s.
  induction p as [| x p IH]; intros s; cbn [startsWithBy app length skipn];
    [reflexivity |].
  destruct s as [| y s]; [discriminate |].
  intros H. apply andb_prop in H as [Hxy H].
  apply N.eqb_eq in Hxy. subst y. f_equal. now apply IH.
Qed.

Lemma join_splitFrom sep s k cur :
  sep <> [] -> (k <= length s)%nat ->
  join sep (splitFrom sep k cur s) = rev cur ++ skipn k s.
Proof.
  intros Hsep. revert k cur.
  induction s as [| c s IH]; intros k cur Hk; cbn [length] in Hk.
  - assert (k = 0)%nat as -> by lia. cbn [splitFrom join skipn].
    now rewrite app_nil_r.
  - cbn [splitFrom]. destruct k as [| k].
    + destruct (startsWith sep (c :: s)) eqn:Hstart.
      * pose proof (startsWith_split _ _ Hstart) as Hs.
        destruct sep as [| x sep]; [congruence |].
        cbn [length pred].
        destruct (splitFrom_cons (x :: sep) (length sep) [] s) as [y [l Hy]].
        rewrite Hy, join_cons, <- Hy.
        cbn [length skipn app] in Hs. injection Hs as Hc Hs.
        rewrite IH.
        -- cbn [rev app skipn]. subst c. f_equal. f_equal. exact (eq_sym Hs).
        -- apply (f_equal (@length _)) in Hs. rewrite length_app in Hs. lia.
      * rewrite IH by lia. cbn [rev skipn]. now rewrite <- app_assoc.
    + cbn [skipn]. apply IH. lia.
Qed.

Lemma join_split sep s : sep <> [] -> join sep (split sep s) = s.
Proof.
  intros Hsep. unfold split. rewrite join_splitFrom; auto. lia.
Qed.

Lemma concat_join sep x l :
  concat (map (fun p => p ++ sep) (x :: l)) = join sep (x :: l) ++ sep.
Proof.
  revert x. induction l as [| y l IH]; intros x.
  - cbn. now rewrite app_nil_r.
  - rewrite join_cons. cbn [map concat]. cbn [map concat] in IH.
    rewrite IH. now rewrite <- !app_assoc.
Qed.

Lemma truncateSentences_prefix sentences acc :
  exists rest,
    acc ++ concat (map (fun p => p ++ lit ". ") sentences)
    = truncateSentences acc sentences ++ rest.
Proof.
  revert acc. induction sentences as [| x l IH]; intros acc; cbn [truncateSentences].
  - exists []. reflexivity.
  - destruct (_ <=? _)%nat.
    + destruct (IH (acc ++ x ++ lit ". ")) as [rest Hrest].
      exists rest. rewrite <- Hrest. cbn [map concat].
      now rewrite <- !app_assoc.
    + eexists. reflexivity.
Qed.

Lemma truncateSentences_length sentences acc :
  (length acc <= maxLength)%nat ->
  (length (truncateSentences acc sentences) <= maxLength)%nat.
Proof.
  revert acc. induction sentences as [| x l IH]; intros acc Hacc;
    cbn [truncateSentences]; [exact Hacc |].
  destruct (Nat.leb_spec (length (acc ++ x ++ lit ". ")) maxLength);
    [now apply IH | exact Hacc].
Qed.

Lemma length_trim s : (length (trim s) <= length s)%nat.
Proof.
  unfold trim, trimEnd, trimStart. rewrite length_rev.
  etransitivity; [apply length_dropWhile |]. rewrite length_rev.
  apply length_dropWhile.
Qed.

Lemma formatForDisplay_length text :
  (length (d_text (formatForDisplay text)) <= maxLength)%nat.
Proof.
  unfold formatForDisplay. cbn [d_text].
  destruct (Nat.ltb_spec maxLength (length text)) as [Hlong | Hshort];
    [| exact Hshort].
  destruct (trim (truncateSentences [] (split (lit ". ") text))) as [| c t] eqn:Ht.
  - unfold substring0. rewrite length_app, length_firstn.
    change (length (lit "...")) with 3%nat. unfold maxLength in *. lia.
  - rewrite <- Ht. etransitivity; [apply length_trim |].
    apply truncateSentences_length. cbn. unfold maxLength. lia.
Qed.

Lemma concat_split sep s :
  sep <> [] -> concat (map (fun p => p ++ sep) (split sep s)) = s ++ sep.
Proof.
  intros Hsep. rewrite <- (join_split sep s Hsep) at 2.
  unfold split. destruct (splitFrom_cons sep 0 [] s) as [x [l ->]].
  apply concat_join.
Qed.

Lemma truncated_prefix text :
  exists rest,
    text ++ lit ". "
    = truncateSentences [] (split (lit ". ") text) ++ rest.
Proof.
  destruct (truncateSentences_prefix (split (lit ". ") text) []) as [rest Hrest].
  exists rest. rewrite <- Hrest. cbn [app].
  symmetry. apply concat_split. discriminate.
Qed.

Lemma formatForDisplay_holds text :
  holds (d_text (formatForDisplay text)) = true -> holds text = true.
Proof.
  unfold formatForDisplay. cbn [d_text].
  destruct (maxLength <? length text)%nat; [| auto].
  destruct (trim (truncateSentences [] (split (lit ". ") text))) as [| c t] eqn:Ht.
  - intros H. apply holds_app_noClose in H; [| reflexivity].
    unfold substring0 in H.
    rewrite <- (firstn_skipn (maxLength - 3) text). now apply holds_app_l.
  - rewrite <- Ht. intros H. apply holds_trim in H.
    destruct (truncated_prefix text) as [rest Hrest].
    apply (holds_app_l _ rest) in H. rewrite <- Hrest in H.
    now apply holds_app_noClose in H.
Qed.

Lemma fillTemplate_clean template variables :
  hasPlaceholder (fillTemplate template variables) = false.
Proof.
  rewrite hasPlaceholder_holds. unfold fillTemplate.
  destruct (holds _) eqn:H; [| reflexivity].
  apply holds_trim, holds_collapseSpaces in H.
  rewrite <- hasPlaceholder_holds, removePlaceholders_clean in H. discriminate.
Qed.

Lemma truncateSentences_cut sentences acc :
  (length acc <= maxLength)%nat ->
  exists k,
    (k <= length sentences)%nat
    /\ truncateSentences acc sentences = acc ++ closed (firstn k sentences)
    /\ (k < length sentences ->
        maxLength < length (acc ++ closed (firstn (S k) sentences)))%nat.
Proof.
  revert acc. induction sentences as [| x l IH]; intros acc Hacc;
    cbn [truncateSentences].
  - exists 0%nat. cbn. rewrite app_nil_r. repeat split; lia.
  - destruct (Nat.leb_spec (length (acc ++ x ++ lit ". ")) maxLength)
      as [Hfit | Hover].
    + destruct (IH _ Hfit) as [k [Hk [Heq Hmax]]].
      exists (S k). cbn [length firstn]. unfold closed in *.
      cbn [map concat]. rewrite Heq, <- !app_assoc.
      repeat split; [lia |].
      intros Hlt. rewrite <- !app_assoc in Hmax.
      apply Hmax. lia.
    + exists 0%nat. cbn [firstn length]. unfold closed. cbn [map concat].
      rewrite !app_nil_r. repeat split; [lia |].
      intros _. exact Hover.
Qed.

Lemma In_dropWhile_keep {A} (p : A -> bool) x l :
  In x l -> p x = false -> In x (dropWhile p l).
Proof.
  intros Hin Hx. induction l as [| a l IH]; [destruct Hin |].
  cbn. destruct (p a) eqn:Ha.
  - destruct Hin as [-> | Hin]; [congruence | now apply IH].
  - exact Hin.
Qed.

Lemma trim_keeps c s : In c s -> isSpace c = false -> In c (trim s).
Proof.
  intros Hin Hc. unfold trim, trimEnd, trimStart.
  apply in_rev. rewrite rev_involutive.
  apply In_dropWhile_keep; [| exact Hc].
  apply -> in_rev. now apply In_dropWhile_keep.
Qed.

Lemma closed_has_stop x l : In 46%N (closed (x :: l)).
Proof.
  unfold closed. cbn [map concat]. apply in_or_app. left.
  apply in_or_app. right. now left.
Qed.

(** The text that [formatForDisplay] returns is the display of the
    specification. *)
Lemma formatForDisplay_shownAs text :
  shownAs text (d_text (formatForDisplay text)).
Proof.
  unfold shownAs, formatForDisplay. cbn [d_text].
  change maxLength with 300%nat.
  destruct (Nat.leb_spec (length text) 300) as [Hshort | Hlong].
  - destruct (Nat.ltb_spec 300 (length text)); [lia | reflexivity].
  - destruct (Nat.ltb_spec 300 (length text)) as [_ |]; [| lia].
    cbv zeta.
    destruct (truncateSentences_cut (split (lit ". ") text) [])
      as [k [Hk [Heq Hmax]]]; [cbn; unfold maxLength; lia |].
    cbn [app] in Heq, Hmax. exists k. split; [exact Hk |].
    split.
    { rewrite <- Heq. apply truncateSentences_length.
      cbn. unfold maxLength. lia. }
    split; [exact Hmax |].
    rewrite Heq. destruct k as [| k].
    + reflexivity.
    + destruct (split (lit ". ") text) as [| x l] eqn:Hs;
        [cbn in Hk; lia |].
      cbn [firstn].
      pose proof (trim_keeps 46%N _ (closed_has_stop x (firstn k l)) eq_refl)
        as Hin.
      destruct (trim (closed (x :: firstn k l))); [destruct Hin | reflexivity].
Qed.

Import NegotiationAssistant.

Lemma lookup_In_values {V} (t : list (jsstring * V)) k v :
  lookup t k = Some v -> In v (map snd t).
Proof.
  induction t as [| [k' v'] t IH]; cbn [lookup map snd]; [discriminate |].
  destruct (str_eqb k' k).
  - intros [= ->]. now left.
  - intros H. right. now apply IH.
Qed.

Lemma getCulturalContext_customary this intent :
  hd_error (customary (fst (getCulturalContext this intent)))
  = Some (lit "Allow time for customer consideration").
Proof.
  unfold getCulturalContext. destruct (type intent) as [[| |] |]; reflexivity.
Qed.

Lemma generateFallbackGuidance_shape this intent text :
  let g := fst (generateFallbackGuidance this intent text) in
  counterOffers g = [placeholderOffer]
  /\ hd_error (customary (culturalContext g))
     = Some (lit "Allow time for customer consideration").
Proof.
  cbv zeta. unfold generateFallbackGuidance.
  pose proof (getCulturalContext_customary this intent) as H.
  destruct (getCulturalContext this intent) as [cc this'].
  cbn [fst counterOffers culturalContext] in *. now split.
Qed.

Section WithHost.
Context {host : Host}.

(** The language of a response is one of the three languages that have
    templates, or a member of [Object.prototype]. *)
Lemma normalizeLanguage_cases language :
  (exists L, normalizeLanguage language = Str L /\ In L supported)
  \/ exists name, normalizeLanguage language = Member name.
Proof.
  unfold normalizeLanguage, get.
  match goal with
  | |- context [lookup ?t ?k] => destruct (lookup t k) as [v |] eqn:Hl
  end.
  - left. apply lookup_In_values in Hl.
    cbn [map snd TranslationEngine.pairs fst] in Hl. unfold supported.
    repeat (destruct Hl as [<- | Hl];
            [eexists; split; [reflexivity | vm_compute; tauto] |]).
    destruct Hl.
  - destruct (inherited _).
    + right. eexists. reflexivity.
    + left. eexists. split; [reflexivity | vm_compute; tauto].
Qed.

Lemma normalizeLanguage_member name :
  normalizeLanguage (Member name) = Str (lit "english").
Proof.
  unfold normalizeLanguage. cbn [keyText].
  rewrite get_memberText; reflexivity.
Qed.

(** In the pipeline the language of the response is one of the three. *)
Lemma normalizeLanguage_getLanguageCode browserLang :
  exists L,
    normalizeLanguage (LinguisticBridge.getLanguageCode browserLang) = Str L
    /\ In L supported.
Proof.
  unfold LinguisticBridge.getLanguageCode, get.
  match goal with
  | |- context [lookup ?t ?k] => destruct (lookup t k) as [v |] eqn:Hl
  end.
  - apply lookup_In_values in Hl.
    cbn [map snd TranslationEngine.pairs fst] in Hl.
    repeat (destruct Hl as [<- | Hl];
            [eexists; split; [reflexivity | vm_compute; tauto] |]).
    destruct Hl.
  - destruct (inherited browserLang).
    + cbn [orTag]. rewrite normalizeLanguage_member.
      eexists. split; [reflexivity | vm_compute; tauto].
    + eexists. split; [reflexivity | vm_compute; tauto].
Qed.

Lemma templatesFor_supported L :
  In L supported -> exists t, templatesFor ResponseGenerator.new (Str L) = Ok t.
Proof.
  unfold supported. intros [<- | [<- | [<- | []]]]; eexists; reflexivity.
Qed.

Lemma generatePriceGuidance_ok L pd :
  In L supported ->
  exists g, generatePriceGuidance ResponseGenerator.new pd (Str L) = Ok g.
Proof.
  intros HL. unfold generatePriceGuidance.
  destruct (templatesFor_supported L HL) as [t ->]. cbn [bind].
  repeat match goal with
         | |- context [if ?c then _ else _] => destruct c
         end; eexists; reflexivity.
Qed.

Lemma generatePrimaryResponse_fill L intent priceData :
  In L supported ->
  exists template variables,
    generatePrimaryResponse ResponseGenerator.new intent priceData (Str L)
    = Ok (fillTemplate template variables).
Proof.
  intros HL. unfold generatePrimaryResponse.
  destruct (templatesFor_supported L HL) as [t ->]. cbn [bind].
  destruct priceData as [[q | r] |].
  - destruct (generatePriceGuidance_ok L (OfQuote q) HL) as [g ->].
    cbn [bind]. eexists _, _. reflexivity.
  - destruct (generatePriceGuidance_ok L (OfRange r) HL) as [g ->].
    cbn [bind]. eexists _, _. reflexivity.
  - eexists _, _. reflexivity.
Qed.

Lemma generateGuidance_withoutRanges this intent priceData text :
  withoutRanges priceData = true ->
  let g := fst (generateGuidance this intent priceData text) in
  counterOffers g = [placeholderOffer]
  /\ hd_error (customary (culturalContext g))
     = Some (lit "Allow time for customer consideration").
Proof.
  intros Hpd. cbv zeta. unfold generateGuidance, generateGuidance_try.
  destruct priceData as [[q | r] |]; try discriminate.
  - destruct (analyzeCustomerBehavior text intent) as [ca | e];
      cbn [bind catch rangesOf generateCounterOffers];
      apply generateFallbackGuidance_shape.
  - cbn [catch]. apply generateFallbackGuidance_shape.
Qed.

Lemma generateNegotiationResponse_placeholder L g :
  In L supported -> counterOffers g = [placeholderOffer] ->
  generateNegotiationResponse ResponseGenerator.new g (Str L) = Ok [].
Proof.
  intros HL Hg. unfold generateNegotiationResponse. rewrite Hg.
  unfold supported in HL.
  destruct HL as [<- | [<- | [<- | []]]]; reflexivity.
Qed.

Lemma culturalResponse_noClose L cc :
  In L supported ->
  hd_error (customary cc) = Some (lit "Allow time for customer consideration") ->
  exists C,
    generateCulturalResponse cc (Str L) = Str C
    /\ hasClose C = false /\ C <> [].
Proof.
  unfold generateCulturalResponse. intros HL ->.
  unfold supported in HL.
  destruct HL as [<- | [<- | [<- | []]]]; eexists;
    (split; [vm_compute; reflexivity | split; [reflexivity | discriminate]]).
Qed.

Lemma connectorFor_supported L :
  In L supported -> connectorFor (Str L) = lit ". ".
Proof.
  unfold supported. intros [<- | [<- | [<- | []]]]; reflexivity.
Qed.

Lemma combineResponses_holds P C L :
  In L supported ->
  holds P = false -> hasClose C = false ->
  holds (combineResponses [P; []; C] (Str L)) = false.
Proof.
  intros HL HP HC. unfold combineResponses.
  rewrite (connectorFor_supported L HL). cbn [filter truthy andb].
  destruct (holds (join _ _)) eqn:H; [| reflexivity].
  destruct (truthy P && (0 <? length (trim P))%nat)%bool;
    destruct (truthy C && (0 <? length (trim C))%nat)%bool; cbn [join] in H.
  - apply holds_app_noClose in H; [congruence |].
    rewrite hasClose_app, HC. reflexivity.
  - congruence.
  - apply holds_hasClose in H. congruence.
  - discriminate.
Qed.

Lemma fallbackText_length data language :
  (length (text (createFallbackResponse data language)) <= maxLength)%nat.
Proof.
  unfold createFallbackResponse. cbn [text].
  destruct (normalizeLanguage_cases language) as [[L [-> HL]] | [name ->]].
  - unfold supported in HL. cbn [keyText].
    destruct HL as [<- | [<- | [<- | []]]]; vm_compute; lia.
  - cbn [keyText]. rewrite lookup_memberText by reflexivity.
    vm_compute. lia.
Qed.

Lemma formatResponse_cases this data language :
  let r := formatResponse this data language in
  match components r with
  | Some (primary, negotiation, cultural) =>
      text r
      = d_text (formatForDisplay
                  (combineResponses [primary; negotiation; cultural]
                                    (ResponseGenerator.language r)))
  | None => r = createFallbackResponse data language
  end.
Proof.
  cbv zeta. unfold formatResponse, formatResponse_try.
  destruct (generatePrimaryResponse _ _ _ _) as [p | e]; cbn [bind catch];
    [| reflexivity].
  destruct (negotiationGuidance data) as [g |]; cbn [bind catch];
    [| reflexivity].
  destruct (generateNegotiationResponse _ _ _) as [n | e]; cbn [bind catch];
    [| reflexivity].
  destruct (responseText _) as [c | e]; cbn [bind catch]; reflexivity.
Qed.

Lemma formatResponse_length this data language :
  (length (text (formatResponse this data language)) <= maxLength)%nat.
Proof.
  pose proof (formatResponse_cases this data language) as H. cbv zeta in H.
  destruct (components _) as [[[p n] c] |].
  - rewrite H. apply formatForDisplay_length.
  - rewrite H. apply fallbackText_length.
Qed.

Lemma processVoiceInput_response bridge text u :
  exists intent priceData guidance processed,
    fst (LinguisticBridge.processVoiceInput bridge text u)
    = formatResponse (LinguisticBridge.responseGenerator bridge)
        {| ResponseGenerator.intent := intent;
           ResponseGenerator.priceData := priceData;
           negotiationGuidance := Some guidance;
           ResponseGenerator.originalText := text;
           processedText := processed |}
        (LinguisticBridge.getLanguageCode
           (LinguisticBridge.currentLanguage bridge))
    /\ withoutRanges priceData = true
    /\ counterOffers guidance = [placeholderOffer]
    /\ hd_error (customary (culturalContext guidance))
       = Some (lit "Allow time for customer consideration").
Proof.
  unfold LinguisticBridge.processVoiceInput.
  set (intent := IntentClassifier.classifyIntent _ _ _).
  set (priceData := match type intent with
                    | Some bargaining | Some bulk_purchase => _
                    | _ => None
                    end).
  set (processed := if negb _ then _ else _).
  assert (Hpd : withoutRanges priceData = true).
  { subst priceData. destruct (type intent) as [[| |] |]; try reflexivity;
      destruct (PriceDiscoveryEngine.getMarketPrice _ _ _ _); reflexivity. }
  pose proof (generateGuidance_withoutRanges
                (LinguisticBridge.negotiationAssistant bridge)
                intent priceData processed Hpd) as Hg.
  cbv zeta in Hg.
  destruct (generateGuidance _ intent priceData processed) as [g a].
  cbn [fst] in *. exists intent, priceData, g, processed.
  split; [reflexivity |]. split; [exact Hpd |]. exact Hg.
Qed.

(** C8.  The text of every response that [formatResponse] returns has at
    most 300 code units: on the path that succeeds it is the display of
    the combined response (the combined response itself when that has at
    most 300 code units, otherwise its leading sentences as far as they
    fit, or, when the first sentence does not fit, its first 297 code
    units and an ellipsis); on the other path the response is the fallback
    response.  Every string that [fillTemplate] returns is free of
    placeholder tokens, and the text of every response of the pipeline
    [processVoiceInput] is free of placeholder tokens. *)
Theorem response_bounded :
  (forall this data language,
      let r := formatResponse this data language in
      (length (text r) <= 300)%nat
      /\ match components r with
         | Some (primary, negotiation, cultural) =>
             shownAs (combineResponses [primary; negotiation; cultural]
                                       (ResponseGenerator.language r))
                     (text r)
         | None => r = createFallbackResponse data language
         end)
  /\ (forall template variables,
         hasPlaceholder (fillTemplate template variables) = false)
  /\ (forall bridge text u,
         LinguisticBridge.responseGenerator bridge = ResponseGenerator.new ->
         let r := fst (LinguisticBridge.processVoiceInput bridge text u) in
         (length (ResponseGenerator.text r) <= 300)%nat
         /\ hasPlaceholder (ResponseGenerator.text r) = false).
Proof.
  split.
  { intros this data language. cbv zeta.
    split; [apply formatResponse_length |].
    pose proof (formatResponse_cases this data language) as H. cbv zeta in H.
    destruct (components _) as [[[p n] c] |]; [| exact H].
    rewrite H. apply formatForDisplay_shownAs. }
  split; [exact fillTemplate_clean |].
  intros bridge text u Hgen. cbv zeta.
  destruct (processVoiceInput_response bridge text u)
    as [intent [priceData [g [processed [-> [Hpd [Hoffers Hcust]]]]]]].
  split; [apply formatResponse_length |].
  rewrite Hgen. unfold formatResponse, formatResponse_try.
  cbn [ResponseGenerator.intent ResponseGenerator.priceData negotiationGuidance].
  destruct (normalizeLanguage_getLanguageCode
              (LinguisticBridge.currentLanguage bridge)) as [L [-> HL]].
  destruct (generatePrimaryResponse_fill L intent priceData HL)
    as [template [variables ->]].
  cbn [bind].
  rewrite (generateNegotiationResponse_placeholder L g HL Hoffers).
  cbn [bind].
  destruct (culturalResponse_noClose L (culturalContext g) HL Hcust)
    as [C [-> [HC _]]].
  cbn [responseText bind catch ResponseGenerator.text].
  rewrite hasPlaceholder_holds.
  destruct (holds _) eqn:H; [| reflexivity].
  apply formatForDisplay_holds in H.
  rewrite combineResponses_holds in H; [discriminate | exact HL | | exact HC].
  rewrite <- hasPlaceholder_holds. apply fillTemplate_clean.
Qed.

End WithHost.

(** C8 on a response that is cut: for the utterance "cost of zzz...z" with
    a word of 200 letters the combined response has 343 code units; shown
    is its first sentence, 276 code units, and the rest is left out. *)
Lemma response_bounded_witness :
  let utterance := VString (lit "cost of " ++ repeat 122%N 200) in
  let intent :=
    IntentClassifier.classifyIntent (host := asciiHost) IntentClassifier.new
      utterance (lit "english") in
  let guidance :=
    fst (generateGuidance (host := asciiHost) NegotiationAssistant.new intent
           None utterance) in
  let r :=
    formatResponse (host := asciiHost) ResponseGenerator.new
      {| ResponseGenerator.intent := intent;
         ResponseGenerator.priceData := None;
         negotiationGuidance := Some guidance;
         ResponseGenerator.originalText := utterance;
         processedText := utterance |}
      (lit "english") in
  (length (text r) <= 300)%nat
  /\ match components r with
     | Some (primary, negotiation, cultural) =>
         let full :=
           combineResponses (host := asciiHost)
             [primary; negotiation; cultural]
             (ResponseGenerator.language r) in
         shownAs full (text r)
         /\ length full = 343%nat
         /\ text r
            = lit "I don't have current pricing for " ++ repeat 122%N 200
              ++ lit ", but I can help you with general guidance."
     | None => False
     end.
Proof.
  cbv zeta.
  destruct (response_bounded (host := asciiHost)) as [H _].
  match goal with
  | |- context [formatResponse ?g ?d ?l] => specialize (H g d l)
  end.
  cbv zeta in H. destruct H as [Hlen Hshown].
  split; [exact Hlen |].
  destruct (components _) as [[[p n] c] |] eqn:Hc;
    [| vm_compute in Hc; discriminate Hc].
  split; [exact Hshown |].
  vm_compute in Hc. injection Hc as <- <- <-.
  split; vm_compute; reflexivity.
Defined.

(** C8 on responses of the pipeline that are cut: with a word of 200
    letters the response ends after its first sentence, with a word of
    300 letters it consists of the first 297 code units of the combined
    response and an ellipsis; both have no placeholder token. *)
Lemma pipeline_response_cut :
  let shown (letters : nat) :=
    ResponseGenerator.text
      (fst (LinguisticBridge.processVoiceInput (host := asciiHost)
              LinguisticBridge.new
              (VString (lit "cost of " ++ repeat 122%N letters))
              (1 # 2)%Q)) in
  shown 200%nat
  = lit "I don't have current pricing for " ++ repeat 122%N 200
    ++ lit ", but I can help you with general guidance."
  /\ shown 300%nat
     = lit "I don't have current pricing for " ++ repeat 122%N 264 ++ lit "..."
  /\ hasPlaceholder (shown 200%nat) = false
  /\ hasPlaceholder (shown 300%nat) = false.
Proof. vm_compute. repeat split. Qed.

End ResponseProperties.

(** ** Translation *)

Module TranslationProperties.
Import JS Data Regex Rules TranslationEngine LookupProperties.

Lemma replaceFrom_unchanged m subst before prev s :
  existsAt (fun prev s => match m prev s with Some _ => true | None => false end)
           prev s = false ->
  replaceFrom m subst 0 before prev s = s.
Proof.
  revert before prev. induction s as [| c s IH]; intros before prev;
    cbn [existsAt replaceFrom]; [reflexivity |].
  intros H. apply orb_false_elim in H as [Hm H].
  destruct (m prev (c :: s)); [discriminate |].
  f_equal. now apply IH.
Qed.

Lemma replaceWord_unchanged word replacement s :
  wordOccurs word s = false -> replaceWord word replacement s = s.
Proof. apply replaceFrom_unchanged. Qed.

Lemma fold_left_unchanged {A B} (f : A -> B -> A) l a :
  (forall x, In x l -> f a x = a) -> fold_left f l a = a.
Proof.
  induction l as [| x l IH]; cbn [fold_left]; [reflexivity |].
  intros H. rewrite (H x) by now left.
  apply IH. intros y Hy. apply H. now right.
Qed.

Lemma forEachUpdate_unchanged {A S} (f : S -> A -> Exc S) l state :
  (forall x, In x l -> f state x = Ok state) ->
  forEachUpdate f l state = Ok state.
Proof.
  induction l as [| x l IH]; cbn [forEachUpdate]; [reflexivity |].
  intros H. rewrite (H x) by now left. cbn [bind].
  apply IH. intros y Hy. apply H. now right.
Qed.

(** The key of a language pair is no name of a member of
    [Object.prototype]: none of these names contains ["_to_"]. *)
Lemma translationKey_own {host : Host} fromLang toLang :
  inherited (translationKey fromLang toLang) = false.
Proof.
  unfold inherited, translationKey.
  destruct (existsb _ _) eqn:E; [| reflexivity].
  apply existsb_exists in E as [name [Hin Heq]].
  apply str_eqb_eq in Heq.
  assert (Hall : forallb (fun n => negb (includes n (lit "_to_")))
                         objectPrototype = true) by reflexivity.
  rewrite forallb_forall in Hall. specialize (Hall name Hin).
  rewrite <- Heq, includes_app in Hall. discriminate.
Qed.

Section WithHost.
Context {host : Host}.

Lemma translateWords_silent this s fromLang toLang :
  dictionarySilent this s fromLang toLang = true ->
  translateWords this (VString s) fromLang toLang
  = Ok (VString (match dictionaryFor this fromLang toLang with
                 | Some _ => toLowerCase s
                 | None => s
                 end)).
Proof.
  unfold dictionarySilent, translateWords, dictionaryFor.
  rewrite (getRecord_own _ _ _ (translationKey_own fromLang toLang)).
  destruct (lookup _ _) as [translations |]; [| reflexivity].
  intros H. cbn [asString bind]. do 2 f_equal.
  apply fold_left_unchanged. intros entry Hentry.
  apply replaceWord_unchanged.
  rewrite forallb_forall in H. specialize (H entry Hentry).
  now destruct (wordOccurs _ _).
Qed.

Lemma preserveNegotiationTone_silent this x s targetLanguage :
  toneSilent this s = true ->
  preserveNegotiationTone this (VString x) (VString s) targetLanguage = Ok x.
Proof.
  unfold toneSilent, preserveNegotiationTone. intros H.
  cbn [asString bind].
  rewrite forallb_forall in H.
  apply forEachUpdate_unchanged. intros entry Hentry.
  specialize (H entry Hentry). rewrite forallb_forall in H.
  apply forEachUpdate_unchanged. intros pattern Hpattern.
  specialize (H pattern Hpattern).
  now destruct (includes _ _).
Qed.

Lemma tag_eqb_refl t : tag_eqb t t = true.
Proof. destruct t; apply str_eqb_refl. Qed.

(** C9, as amended.  [translate] returns [text] itself when the two
    languages are equal.  It never throws: the value of the body is
    returned when the body completes, and [text] when it throws.  When the
    languages differ and no rule applies (the template path is silent, no
    word of the dictionary occurs, no tone pattern occurs) the result is
    the text unchanged if the pair of normalised languages has no
    dictionary, and the lower-cased text if it has one. *)
Theorem translate_fallbacks this text language s fromLanguage toLanguage intent :
  translate this text language language intent = text
  /\ match translate_try this text fromLanguage toLanguage intent with
     | Ok v => translate this text fromLanguage toLanguage intent = v
     | Throw _ => translate this text fromLanguage toLanguage intent = text
     end
  /\ (tag_eqb fromLanguage toLanguage = false ->
      noRuleApplies this s fromLanguage toLanguage intent = true ->
      translate this (VString s) fromLanguage toLanguage intent
      = match dictionaryFor this (normalizeLanguageCode fromLanguage)
                (normalizeLanguageCode toLanguage) with
        | Some _ =>
            if truthy (toLowerCase s) then VString (toLowerCase s)
            else VString s
        | None => VString s
        end).
Proof.
  split; [| split].
  - unfold translate, translate_try. now rewrite tag_eqb_refl.
  - unfold translate. destruct (translate_try _ _ _ _ _); reflexivity.
  - intros Hne Hrules. unfold noRuleApplies in Hrules. cbv zeta in Hrules.
    apply andb_prop in Hrules as [Hrules Htone].
    apply andb_prop in Hrules as [Htemplate Hdict].
    unfold translate, translate_try. rewrite Hne.
    unfold templateSilent in Htemplate.
    rewrite (translateWords_silent _ _ _ _ Hdict).
    destruct (translateUsingTemplates _ _ _ _ _) as [[[| c t] |] | e];
      try discriminate; cbn [bind];
      rewrite (preserveNegotiationTone_silent _ _ _ _ Htone); cbn [bind catch];
      destruct (dictionaryFor _ _ _);
      try (destruct (truthy (toLowerCase s)); reflexivity);
      destruct (truthy s); reflexivity.
Qed.

End WithHost.

Lemma translate_fallbacks_witness :
  tag_eqb (lit "english") (lit "hindi") = false
  /\ noRuleApplies (host := asciiHost) new (lit "Hello there")
       (lit "english") (lit "hindi") None = true
  /\ translate (host := asciiHost) new (VString (lit "Hello there"))
       (lit "english") (lit "hindi") None
     = VString (lit "hello there")
  /\ translate (host := asciiHost) new (VString (lit "Hello there"))
       (lit "english") (lit "tamil") None
     = VString (lit "Hello there").
Proof.
  split; [reflexivity |]. split; [vm_compute; reflexivity |].
  split.
  - destruct (translate_fallbacks (host := asciiHost) new VNull (lit "english")
                (lit "Hello there") (lit "english") (lit "hindi") None)
      as [_ [_ H]].
    rewrite H; [vm_compute; reflexivity | reflexivity | vm_compute; reflexivity].
  - vm_compute. reflexivity.
Defined.

(** C9: no rule applies to "Hello" from English to Hindi, and the result is
    "hello", not the original text. *)
Lemma translate_lowercases_unmatched_text :
  noRuleApplies (host := asciiHost) new (lit "Hello")
    (lit "english") (lit "hindi") None = true
  /\ translate (host := asciiHost) new (VString (lit "Hello"))
       (lit "english") (lit "hindi") None
     = VString (lit "hello")
  /\ VString (lit "hello") <> VString (lit "Hello").
Proof. split; [| split]; vm_compute; [reflexivity | reflexivity | discriminate]. Qed.

(** A target language that names a member of [Object.prototype] is
    normalised to that member, under whose text there is no dictionary:
    "Hello" from Hindi to ['constructor'] is returned as it is. *)
Lemma translate_to_member_language :
  normalizeLanguageCode (host := asciiHost) (lit "constructor")
  = Member (lit "constructor")
  /\ translationKey (host := asciiHost) (lit "hindi")
       (Member (lit "constructor"))
     = lit "hindi_to_function Object() { [native code] }"
  /\ translate (host := asciiHost) new (VString (lit "Hello"))
       (lit "hindi") (lit "constructor") None
     = VString (lit "Hello").
Proof. vm_compute. repeat split. Qed.

End TranslationProperties.
(** * Similar product names *)

Module SimilarityProperties.
Import JS PriceDiscoveryEngine PriceMethods EditDistance.

Lemma dist_nil_r p : dist p [] = length p.
Proof. destruct p; reflexivity. Qed.

Lemma dist_cons a p b q :
  dist (a :: p) (b :: q)
  = if char_eqb a b then dist p q
    else Nat.min (dist p q + 1)
                 (Nat.min (dist (a :: p) q + 1) (dist p (b :: q) + 1)).
Proof. reflexivity. Qed.

Lemma revPrefixes_cons acc c s :
  revPrefixes acc (c :: s) = acc :: revPrefixes (c :: acc) s.
Proof. reflexivity. Qed.

Lemma revPrefixes_head acc s : exists l, revPrefixes acc s = acc :: l.
Proof. destruct s; eexists; reflexivity. Qed.

(** The inner loop computes one row of the recurrence from the row above. *)
Lemma fillRow_dist a p s acc :
  fillRow a s (map (dist p) (revPrefixes acc s)) (dist (a :: p) acc)
  = map (dist (a :: p)) (tl (revPrefixes acc s)).
Proof.
  revert acc. induction s as [| c s IH]; intro acc.
  - reflexivity.
  - rewrite revPrefixes_cons. cbn [map tl].
    destruct (revPrefixes_head (c :: acc) s) as [l Hl].
    pose proof (IH (c :: acc)) as IH'. rewrite Hl in IH' |- *.
    cbn [map tl fillRow] in IH' |- *.
    rewrite <- dist_cons. f_equal. exact IH'.
Qed.

Lemma map_length_revPrefixes acc s :
  map (@length char) (revPrefixes acc s) = seq (length acc) (S (length s)).
Proof.
  revert acc. induction s as [| c s IH]; intro acc.
  - reflexivity.
  - rewrite revPrefixes_cons. cbn [map length seq]. f_equal. apply (IH (c :: acc)).
Qed.

Lemma firstRow_dist str1 : firstRow str1 = map (dist []) (revPrefixes [] str1).
Proof.
  unfold firstRow.
  change (seq 0 (S (length str1)))
    with (seq (length (@nil char)) (S (length str1))).
  rewrite <- (map_length_revPrefixes [] str1).
  apply map_ext. reflexivity.
Qed.

Lemma nextRow_dist c p str1 :
  S (length p) :: fillRow c str1 (map (dist p) (revPrefixes [] str1)) (S (length p))
  = map (dist (c :: p)) (revPrefixes [] str1).
Proof.
  pose proof (fillRow_dist c p str1 []) as H.
  change (dist (c :: p) []) with (S (length p)) in H. rewrite H.
  destruct (revPrefixes_head [] str1) as [l Hl]. rewrite Hl. reflexivity.
Qed.

Lemma nth_S_cons {A} n (x : A) l d : nth (S n) (x :: l) d = nth n l d.
Proof. reflexivity. Qed.

Lemma lastRow_dist str1 rest p :
  nth (length rest)
      (map (dist p) (revPrefixes [] str1)
       :: fillRows str1 rest (length p) (map (dist p) (revPrefixes [] str1)))
      []
  = map (dist (rev rest ++ p)) (revPrefixes [] str1).
Proof.
  revert p. induction rest as [| c rest IH]; intro p.
  - reflexivity.
  - cbn [length fillRows]. rewrite nth_S_cons, nextRow_dist.
    pose proof (IH (c :: p)) as IH'. cbn [length] in IH'. rewrite IH'.
    cbn [rev]. rewrite <- app_assoc. reflexivity.
Qed.

Lemma nth_revPrefixes acc s :
  nth (length s) (revPrefixes acc s) [] = rev s ++ acc.
Proof.
  revert acc. induction s as [| c s IH]; intro acc.
  - reflexivity.
  - rewrite revPrefixes_cons. cbn [length rev]. rewrite nth_S_cons, (IH (c :: acc)).
    rewrite <- app_assoc. reflexivity.
Qed.

(** [levenshteinDistance] computes the recurrence. *)
Lemma levenshteinDistance_dist str1 str2 :
  levenshteinDistance str1 str2 = dist (rev str2) (rev str1).
Proof.
  unfold levenshteinDistance, matrixOf. rewrite firstRow_dist.
  pose proof (lastRow_dist str1 str2 []) as H. cbn [length] in H. rewrite H.
  rewrite app_nil_r.
  assert (Hlen : (length str1 < length (revPrefixes [] str1))%nat).
  { rewrite <- (length_map (@length char)), map_length_revPrefixes, length_seq. lia. }
  rewrite (nth_indep _ 0%nat (dist (rev str2) [])) by (rewrite length_map; exact Hlen).
  rewrite map_nth, nth_revPrefixes, app_nil_r. reflexivity.
Qed.

Lemma dist_upper p q : (dist p q <= Nat.max (length p) (length q))%nat.
Proof.
  revert q. induction p as [| a p IHp]; intro q.
  - cbn. lia.
  - induction q as [| b q IHq].
    + cbn. lia.
    + rewrite dist_cons. specialize (IHp q). cbn [length].
      destruct (char_eqb a b); lia.
Qed.

Lemma dist_lower p q :
  (length p - length q <= dist p q /\ length q - length p <= dist p q)%nat.
Proof.
  revert q. induction p as [| a p IHp]; intro q.
  - cbn. lia.
  - induction q as [| b q IHq].
    + cbn. lia.
    + rewrite dist_cons.
      pose proof (IHp q). pose proof (IHp (b :: q)). cbn [length] in *.
      destruct (char_eqb a b); lia.
Qed.

Lemma char_eqb_refl a : char_eqb a a = true.
Proof. apply N.eqb_refl. Qed.

Lemma dist_refl p : dist p p = 0%nat.
Proof.
  induction p as [| a p IH]; [reflexivity |].
  rewrite dist_cons, char_eqb_refl. exact IH.
Qed.

Lemma dist_zero p q : dist p q = 0%nat -> p = q.
Proof.
  revert q. induction p as [| a p IHp]; intros q H.
  - destruct q; [reflexivity | discriminate].
  - destruct q as [| b q]; [discriminate |].
    rewrite dist_cons in H. destruct (char_eqb a b) eqn:E.
    + apply N.eqb_eq in E. subst b. f_equal. apply IHp. exact H.
    + lia.
Qed.

Lemma dist_sym p q : dist p q = dist q p.
Proof.
  revert q. induction p as [| a p IHp]; intro q.
  - rewrite dist_nil_r. reflexivity.
  - induction q as [| b q IHq].
    + reflexivity.
    + rewrite !dist_cons. unfold char_eqb. rewrite (N.eqb_sym b a).
      rewrite (IHp q), (IHp (b :: q)), IHq.
      destruct (N.eqb a b); lia.
Qed.

Lemma rev_inj {A} (a b : list A) : rev a = rev b -> a = b.
Proof. intro H. rewrite <- (rev_involutive a), H. apply rev_involutive. Qed.

Lemma levenshteinDistance_refl s : levenshteinDistance s s = 0%nat.
Proof. rewrite levenshteinDistance_dist. apply dist_refl. Qed.

Lemma levenshteinDistance_upper str1 str2 :
  (levenshteinDistance str1 str2 <= Nat.max (length str1) (length str2))%nat.
Proof.
  rewrite levenshteinDistance_dist.
  pose proof (dist_upper (rev str2) (rev str1)) as H.
  rewrite !length_rev in H. lia.
Qed.

(** X1.  The distance is at least the difference of the lengths and at most the
    greater length. *)
Theorem levenshteinDistance_bounds str1 str2 :
  (length str1 - length str2 <= levenshteinDistance str1 str2
   /\ length str2 - length str1 <= levenshteinDistance str1 str2
   /\ levenshteinDistance str1 str2 <= Nat.max (length str1) (length str2))%nat.
Proof.
  pose proof (levenshteinDistance_upper str1 str2) as Hu.
  rewrite levenshteinDistance_dist in *.
  pose proof (dist_lower (rev str2) (rev str1)) as [H1 H2].
  rewrite !length_rev in *. lia.
Qed.

(** X2.  The distance is symmetric, and it is zero for equal strings only. *)
Theorem levenshteinDistance_metric str1 str2 :
  levenshteinDistance str1 str2 = levenshteinDistance str2 str1
  /\ (levenshteinDistance str1 str2 = 0%nat <-> str1 = str2).
Proof.
  split.
  - rewrite !levenshteinDistance_dist. apply dist_sym.
  - split.
    + rewrite levenshteinDistance_dist. intro H.
      apply dist_zero in H. apply rev_inj in H. congruence.
    + intros ->. apply levenshteinDistance_refl.
Qed.

Lemma similarity_unfold str1 str2 :
  exists longer shorter,
    ((longer = str1 /\ shorter = str2) \/ (longer = str2 /\ shorter = str1))
    /\ (length shorter <= length longer)%nat
    /\ calculateStringSimilarity str1 str2
       = if (length longer =? 0)%nat then 1%Q
         else ((inject_Z (Z.of_nat (length longer))
                - inject_Z (Z.of_nat (levenshteinDistance longer shorter)))
               / inject_Z (Z.of_nat (length longer)))%Q.
Proof.
  unfold calculateStringSimilarity.
  destruct (length str2 <? length str1)%nat eqn:E.
  - exists str1, str2. apply Nat.ltb_lt in E. repeat split; [tauto | lia].
  - exists str2, str1. apply Nat.ltb_ge in E. repeat split; [tauto | lia].
Qed.

Lemma ratio_range (L d : nat) :
  (0 < L)%nat -> (d <= L)%nat ->
  let r := ((inject_Z (Z.of_nat L) - inject_Z (Z.of_nat d))
            / inject_Z (Z.of_nat L))%Q in
  (0 <= r)%Q /\ (r <= 1)%Q /\ ((r == 1)%Q <-> d = 0%nat).
Proof.
  intros HL Hd r.
  assert (HLq : (0 < inject_Z (Z.of_nat L))%Q).
  { change 0%Q with (inject_Z 0). rewrite <- Zlt_Qlt. lia. }
  assert (Hdq : (0 <= inject_Z (Z.of_nat d))%Q).
  { change 0%Q with (inject_Z 0). rewrite <- Zle_Qle. lia. }
  assert (HdL : (inject_Z (Z.of_nat d) <= inject_Z (Z.of_nat L))%Q).
  { rewrite <- Zle_Qle. lia. }
  assert (Hr : (r * inject_Z (Z.of_nat L)
                == inject_Z (Z.of_nat L) - inject_Z (Z.of_nat d))%Q).
  { unfold r. field. lra. }
  repeat split.
  - unfold r. apply Qle_shift_div_l; [exact HLq | lra].
  - unfold r. apply Qle_shift_div_r; [exact HLq | lra].
  - intro H1. rewrite H1 in Hr.
    assert (H0 : (inject_Z (Z.of_nat d) == inject_Z 0)%Q) by (change (inject_Z 0) with 0%Q; lra).
    apply (proj1 (inject_Z_injective _ _)) in H0. lia.
  - intros ->. unfold r. change (inject_Z (Z.of_nat 0)) with 0%Q. field. lra.
Qed.

(** X3.  The similarity of two names lies between 0 and 1, it is 1 for equal
    names only, and it does not depend on the order of the names. *)
Theorem calculateStringSimilarity_range str1 str2 :
  (0 <= calculateStringSimilarity str1 str2)%Q
  /\ (calculateStringSimilarity str1 str2 <= 1)%Q
  /\ ((calculateStringSimilarity str1 str2 == 1)%Q <-> str1 = str2)
  /\ calculateStringSimilarity str1 str2 = calculateStringSimilarity str2 str1.
Proof.
  destruct (similarity_unfold str1 str2)
    as (longer & shorter & Hcase & Hlen & Heq).
  assert (Hd : (levenshteinDistance longer shorter <= length longer)%nat).
  { pose proof (levenshteinDistance_upper longer shorter). lia. }
  assert (Hzero : levenshteinDistance longer shorter = 0%nat <-> str1 = str2).
  { rewrite levenshteinDistance_dist. split.
    - intro H. apply dist_zero in H. apply rev_inj in H.
      destruct Hcase as [[-> ->] | [-> ->]]; congruence.
    - intro H. replace shorter with longer
        by (destruct Hcase as [[-> ->] | [-> ->]]; congruence).
      apply dist_refl. }
  split; [| split; [| split]].
  - rewrite Heq. destruct (length longer =? 0)%nat eqn:E; [lra |].
    apply Nat.eqb_neq in E. apply ratio_range; [lia | exact Hd].
  - rewrite Heq. destruct (length longer =? 0)%nat eqn:E; [lra |].
    apply Nat.eqb_neq in E. apply ratio_range; [lia | exact Hd].
  - rewrite Heq. destruct (length longer =? 0)%nat eqn:E.
    + apply Nat.eqb_eq in E. split; [intros _ | reflexivity].
      assert (length shorter = 0%nat) by lia.
      destruct longer, shorter; try discriminate.
      destruct Hcase as [[<- <-] | [<- <-]]; reflexivity.
    + apply Nat.eqb_neq in E. rewrite <- Hzero. apply ratio_range; [lia | exact Hd].
  - unfold calculateStringSimilarity.
    destruct (length str2 <? length str1)%nat eqn:E1;
      destruct (length str1 <? length str2)%nat eqn:E2;
      try reflexivity.
    + apply Nat.ltb_lt in E1. apply Nat.ltb_lt in E2. lia.
    + apply Nat.ltb_ge in E1. apply Nat.ltb_ge in E2.
      assert (El : length str1 = length str2) by lia.
      rewrite !levenshteinDistance_dist, (dist_sym (rev str1) (rev str2)), El.
      reflexivity.
Qed.

Lemma similarity_self s : (calculateStringSimilarity s s == 1)%Q.
Proof.
  destruct (similarity_unfold s s) as (longer & shorter & Hcase & Hlen & Heq).
  assert (longer = s /\ shorter = s) as [-> ->] by (destruct Hcase; tauto).
  rewrite Heq, levenshteinDistance_refl.
  destruct (length s =? 0)%nat eqn:E; [reflexivity |].
  apply Nat.eqb_neq in E.
  apply (ratio_range (length s) 0); lia.
Qed.

Lemma find_some_first {A} (f : A -> bool) l x :
  In x l -> f x = true -> exists y, find f l = Some y.
Proof.
  induction l as [| a l IH]; intros Hin Hf; [contradiction |].
  cbn. destruct (f a) eqn:E; [eexists; reflexivity |].
  destruct Hin as [-> | Hin]; [congruence | auto].
Qed.

(** X4.  A name that [findSimilarProduct] returns is a key of the price table
    whose similarity to the searched name exceeds 0.6; and for a searched
    name that is itself a key, some such key is returned. *)
Theorem findSimilarProduct_sound this searchProduct :
  (forall name,
      findSimilarProduct this searchProduct = Some name ->
      In name (getAvailableProducts this)
      /\ exists s, searchProduct = Some s
                   /\ (6 # 10 < calculateStringSimilarity s name)%Q)
  /\ (forall s,
         searchProduct = Some s -> s <> [] ->
         In s (getAvailableProducts this) ->
         exists name, findSimilarProduct this searchProduct = Some name).
Proof.
  split.
  - intros name H. unfold findSimilarProduct in H.
    destruct searchProduct as [[| c s] |]; try discriminate.
    apply find_some in H. destruct H as [Hin Hsim]. split; [exact Hin |].
    exists (c :: s). split; [reflexivity |].
    apply negb_true_iff in Hsim.
    destruct (Qlt_le_dec (6 # 10) (calculateStringSimilarity (c :: s) name))
      as [Hlt | Hle]; [exact Hlt |].
    apply Qle_bool_iff in Hle. congruence.
  - intros s -> Hne Hin. destruct s as [| c s]; [congruence |].
    unfold findSimilarProduct.
    apply (find_some_first _ _ (c :: s) Hin).
    apply negb_true_iff.
    destruct (Qle_bool (calculateStringSimilarity (c :: s) (c :: s)) (6 # 10))
      eqn:E; [| reflexivity].
    apply Qle_bool_iff in E.
    pose proof (similarity_self (c :: s)) as H1.
    lra.
Qed.

Lemma findSimilarProduct_sound_witness :
  In (lit "rice") (getAvailableProducts Dataset.sample)
  /\ exists name,
       findSimilarProduct Dataset.sample (Some (lit "rice")) = Some name.
Proof.
  split.
  - left. reflexivity.
  - apply (proj2 (findSimilarProduct_sound Dataset.sample (Some (lit "rice")))
             (lit "rice") eq_refl).
    + discriminate.
    + left. reflexivity.
Defined.

End SimilarityProperties.
(** * Price ranges, bulk discounts and product names *)

Module PricingProperties.
Import JS Data PriceDiscoveryEngine PriceMethods LookupProperties.

Lemma In_dropWhile {A} (p : A -> bool) x l : In x (dropWhile p l) -> In x l.
Proof.
  induction l as [| a l IH]; cbn; [tauto |].
  destruct (p a); [right; auto | tauto].
Qed.

Lemma In_trim x s : In x (trim s) -> In x s.
Proof.
  unfold trim, trimEnd, trimStart. intro H.
  apply in_rev, In_dropWhile, in_rev in H. apply In_dropWhile in H. exact H.
Qed.

(** X5.  [normalizeProductName] returns [null] for the empty name and for
    ['unknown'] only; every other name becomes a string of the letters
    [a] to [z], whatever the host's case mapping yields. *)
Theorem normalizeProductName_letters {host : Host} product :
  match normalizeProductName product with
  | None => product = [] \/ product = lit "unknown"
  | Some n =>
      product <> [] /\ product <> lit "unknown"
      /\ forallb isLowerAZ n = true
  end.
Proof.
  unfold normalizeProductName.
  destruct (negb (truthy product) || str_eqb product (lit "unknown"))%bool eqn:E.
  - apply orb_true_iff in E. destruct E as [E | E].
    + left. destruct product; [reflexivity | discriminate].
    + right. apply str_eqb_eq. exact E.
  - apply orb_false_iff in E. destruct E as [E1 E2]. repeat split.
    + intros ->. discriminate.
    + intros ->. discriminate.
    + apply forallb_forall. intros x Hx. apply In_trim in Hx.
      apply filter_In in Hx. tauto.
Qed.

Lemma round_pair (P : Z) (x : Q) :
  let A := Math_round x in
  let B := Math_round (inject_Z P - x)%Q in
  (P <= A + B <= P + 1)%Z.
Proof.
  intros A B. unfold A, B, Math_round.
  set (a := Qfloor (x + (1 # 2))).
  set (b := Qfloor (inject_Z P - x + (1 # 2))).
  assert (Ha1 : (inject_Z a <= x + (1 # 2))%Q) by apply Qfloor_le.
  assert (Ha2 : (x + (1 # 2) < inject_Z (a + 1))%Q) by apply Qlt_floor.
  assert (Hb1 : (inject_Z b <= inject_Z P - x + (1 # 2))%Q) by apply Qfloor_le.
  assert (Hb2 : (inject_Z P - x + (1 # 2) < inject_Z (b + 1))%Q) by apply Qlt_floor.
  rewrite inject_Z_plus in Ha2, Hb2. change (inject_Z 1) with 1%Q in Ha2, Hb2.
  assert (H1 : (inject_Z (a + b) <= inject_Z (P + 1))%Q).
  { rewrite !inject_Z_plus. change (inject_Z 1) with 1%Q. lra. }
  assert (H2 : (inject_Z P < inject_Z (a + b + 1))%Q).
  { rewrite !inject_Z_plus. change (inject_Z 1) with 1%Q. lra. }
  rewrite <- Zle_Qle in H1. rewrite <- Zlt_Qlt in H2. lia.
Qed.

(** X6.  For a whole, non-negative price and a discount between 0 and 1,
    [applyBulkDiscount] never raises the price, and the discounted price
    and the savings that it reports add up to the price or, when the
    discounted price lies halfway between two integers, to one more. *)
Theorem applyBulkDiscount_rounding (P : Z) quantity productData :
  (0 <= P)%Z ->
  (0 <= orNum (pd_bulkDiscount productData) (5 # 100))%Q ->
  (orNum (pd_bulkDiscount productData) (5 # 100) <= 1)%Q ->
  exists b,
    applyBulkDiscount (inject_Z P) (Some quantity) (Some productData) = Priced b
    /\ qualifiesForBulk b
       = Qle_bool (orNum (pd_bulkThreshold productData) 5)
                  (inject_Z (amount quantity))
    /\ exists discounted saved : Z,
         (discountedPrice b == inject_Z discounted)%Q
         /\ (savings b == inject_Z saved)%Q
         /\ (0 <= discounted <= P)%Z
         /\ (P <= discounted + saved <= P + 1)%Z
         /\ (qualifiesForBulk b = false -> discounted = P /\ saved = 0%Z).
Proof.
  intros HP Hd0 Hd1. unfold applyBulkDiscount.
  set (d := orNum (pd_bulkDiscount productData) (5 # 100)) in *.
  destruct (Qle_bool (orNum (pd_bulkThreshold productData) 5)
                     (inject_Z (amount quantity))) eqn:E.
  - eexists. split; [reflexivity |]. cbn [qualifiesForBulk discountedPrice savings].
    split; [reflexivity |].
    exists (Math_round (inject_Z P * (1 - d))%Q),
           (Math_round (inject_Z P - inject_Z P * (1 - d))%Q).
    assert (HPq : (0 <= inject_Z P)%Q).
    { change 0%Q with (inject_Z 0). rewrite <- Zle_Qle. exact HP. }
    assert (Hprod : (0 <= inject_Z P * d)%Q) by (apply Qmult_le_0_compat; assumption).
    assert (Hprod' : (0 <= inject_Z P * (1 - d))%Q)
      by (apply Qmult_le_0_compat; [assumption | lra]).
    assert (Heq : (inject_Z P * (1 - d) == inject_Z P - inject_Z P * d)%Q) by ring.
    repeat split; try reflexivity.
    + apply PriceProperties.Math_round_lower. change (inject_Z 0) with 0%Q. lra.
    + apply PriceProperties.Math_round_upper. lra.
    + apply (round_pair P).
    + apply (round_pair P).
    + discriminate.
    + discriminate.
  - eexists. split; [reflexivity |]. cbn [qualifiesForBulk discountedPrice savings].
    split; [reflexivity |].
    exists P, 0%Z. repeat split; try reflexivity; lia.
Qed.

Lemma applyBulkDiscount_rounding_witness :
  (0 <= 10)%Z
  /\ exists b,
       applyBulkDiscount (inject_Z 10)
         (Some {| amount := 10; q_unit := lit "kg" |})
         (Some {| pd_category := None;
                  pd_marketPrice := Some (Float64.number 10);
                  pd_minPrice := Some (Float64.number 8);
                  pd_maxPrice := Some (Float64.number 12); pd_unit := None;
                  pd_bulkThreshold := None; pd_bulkDiscount := None;
                  pd_source := None; pd_confidence := None |})
       = Priced b
       /\ qualifiesForBulk b = true
       /\ (discountedPrice b == 10)%Q /\ (savings b == 1)%Q.
Proof.
  split; [lia |].
  destruct (applyBulkDiscount_rounding 10
              {| amount := 10; q_unit := lit "kg" |}
              {| pd_category := None;
                 pd_marketPrice := Some (Float64.number 10);
                 pd_minPrice := Some (Float64.number 8);
                 pd_maxPrice := Some (Float64.number 12); pd_unit := None;
                 pd_bulkThreshold := None; pd_bulkDiscount := None;
                 pd_source := None; pd_confidence := None |})
    as (b & Hb & _); [lia | vm_compute; discriminate | vm_compute; discriminate |].
  exists b. split; [exact Hb |].
  vm_compute in Hb. injection Hb as <-. vm_compute. repeat split.
Defined.

(** X7.  With a non-negative base price and a maximal discount between 5% and
    100%, the prices of [calculateNegotiationRange] are ordered: absolute
    minimum, safe minimum, market price, premium price; negotiations
    start at the premium price. *)
Theorem calculateNegotiationRange_ordered this basePrice :
  (0 <= basePrice)%Q ->
  (5 # 100 <= orNum (negotiationRules_maxDiscount this) (15 # 100))%Q ->
  (orNum (negotiationRules_maxDiscount this) (15 # 100) <= 1)%Q ->
  let r := calculateNegotiationRange this basePrice in
  (0 <= absoluteMinimum r)%Z
  /\ (absoluteMinimum r <= safeMinimum r)%Z
  /\ (safeMinimum r <= nr_marketPrice r)%Z
  /\ (nr_marketPrice r <= premiumPrice r)%Z
  /\ recommendedStart r = premiumPrice r
  /\ nr_acceptableRange r = (safeMinimum r, premiumPrice r).
Proof.
  intros Hb Hlo Hhi r. unfold r, calculateNegotiationRange.
  set (md := orNum (negotiationRules_maxDiscount this) (15 # 100)) in *.
  cbn [absoluteMinimum safeMinimum nr_marketPrice premiumPrice recommendedStart
       nr_acceptableRange].
  assert (Hbm : (0 <= basePrice * md)%Q) by (apply Qmult_le_0_compat; lra).
  assert (Hbm' : (0 <= basePrice * (1 - md))%Q) by (apply Qmult_le_0_compat; lra).
  assert (E1 : (basePrice * (1 - md) == basePrice - basePrice * md)%Q) by ring.
  assert (E2 : (basePrice * (1 - md + (5 # 100))
                == basePrice - basePrice * md + basePrice * (5 # 100))%Q) by ring.
  assert (E3 : (basePrice * (11 # 10) == basePrice + basePrice * (1 # 10))%Q) by ring.
  assert (Hmd : (basePrice * (5 # 100) <= basePrice * md)%Q).
  { rewrite !(Qmult_comm basePrice). apply Qmult_le_compat_r; assumption. }
  repeat split.
  - apply PriceProperties.Math_round_lower. change (inject_Z 0) with 0%Q. lra.
  - apply PriceProperties.Math_round_le. lra.
  - apply PriceProperties.Math_round_le. lra.
  - apply PriceProperties.Math_round_le. lra.
Qed.

Lemma calculateNegotiationRange_ordered_witness :
  (0 <= 40)%Q
  /\ let r := calculateNegotiationRange Dataset.sample 40%Q in
     (absoluteMinimum r, safeMinimum r, nr_marketPrice r, premiumPrice r)
     = (34, 36, 40, 44)%Z
     /\ (absoluteMinimum r <= safeMinimum r)%Z.
Proof.
  split; [lra |]. split; [reflexivity |].
  apply (calculateNegotiationRange_ordered Dataset.sample 40%Q);
    [lra | vm_compute; discriminate | vm_compute; discriminate].
Defined.

Lemma fallbackRanges_ordered product category :
  match generateFallbackPriceRange product category with
  | Estimated p =>
      let r := ranges p in
      inherited category = false
      /\ (0 < minimum r)%Z /\ (minimum r <= safe r)%Z /\ (safe r <= market r)%Z
      /\ (market r <= premium r)%Z
      /\ PriceTypes.recommended r = premium r
      /\ market r = basePrice p
      /\ startAt (negotiation p) = premium r
      /\ acceptableRange (negotiation p) = (safe r, premium r)
      /\ pr_confidence p = (3 # 10)%Q
      /\ pr_source p = lit "fallback_estimate"
  | WithoutPrices _ _ => inherited category = true
  end.
Proof.
  unfold generateFallbackPriceRange, get.
  destruct (lookup categoryDefaults category) as [d |] eqn:E.
  - assert (Hin : In category (map fst categoryDefaults) /\ In d (map snd categoryDefaults)).
    { clear -E. induction categoryDefaults as [| [k v] t IH];
        cbn [lookup] in E; [discriminate |].
      destruct (str_eqb k category) eqn:Ek.
      - apply str_eqb_eq in Ek. injection E as ->. subst k.
        split; now left.
      - destruct (IH E). split; now right. }
    destruct Hin as [Hc Hd].
    assert (Hown : inherited category = false).
    { cbn in Hc.
      repeat (destruct Hc as [<- | Hc]; [reflexivity |]). destruct Hc. }
    cbn in Hd.
    repeat (destruct Hd as [<- | Hd];
            [cbv zeta; split; [exact Hown |];
             vm_compute; repeat split; congruence |]).
    destruct Hd.
  - destruct (inherited category) eqn:Hi; [reflexivity |].
    cbv zeta. split; [reflexivity |].
    vm_compute. repeat split; congruence.
Qed.

(** X8.  For a category that is not the name of a member of
    [Object.prototype], listed in the table of defaults or not, the
    fallback price range is ordered: minimum, safe, market, premium, with
    positive prices; negotiations start at the premium price.  For a
    category that is such a name the estimate has no prices. *)
Theorem generateFallbackPriceRange_ordered product category :
  match generateFallbackPriceRange product category with
  | Estimated p =>
      let r := ranges p in
      inherited category = false
      /\ (0 < minimum r)%Z /\ (minimum r <= safe r)%Z /\ (safe r <= market r)%Z
      /\ (market r <= premium r)%Z
      /\ PriceTypes.recommended r = premium r
      /\ market r = basePrice p
      /\ startAt (negotiation p) = premium r
      /\ acceptableRange (negotiation p) = (safe r, premium r)
      /\ pr_confidence p = (3 # 10)%Q
      /\ pr_source p = lit "fallback_estimate"
  | WithoutPrices _ _ => inherited category = true
  end.
Proof. apply fallbackRanges_ordered. Qed.

(** X9.  The draw of [Math.random()] reaches the three prices of a quote and
    nothing else: whether a quote is returned, and its product, category,
    unit, bulk terms, negotiation range, confidence and source are the
    same for every draw. *)
Theorem quote_draw_independent {host : Host} this product category u u' :
  match getMarketPrice this product category u,
        getMarketPrice this product category u' with
  | Some q, Some q' =>
      PriceDiscoveryEngine.product q = PriceDiscoveryEngine.product q'
      /\ PriceDiscoveryEngine.category q = PriceDiscoveryEngine.category q'
      /\ unit q = unit q'
      /\ bulkThreshold q = bulkThreshold q'
      /\ bulkDiscount q = bulkDiscount q'
      /\ negotiationRange q = negotiationRange q'
      /\ PriceDiscoveryEngine.confidence q = PriceDiscoveryEngine.confidence q'
      /\ source q = source q'
  | None, None => True
  | _, _ => False
  end.
Proof.
  unfold getMarketPrice, getMarketPrice_try.
  destruct (resolveProductData this (normalizeProductName product) category)
    as [d |]; cbn [catch]; [| exact I].
  destruct (applyMarketVariations this d category u) as [[a b] c].
  destruct (applyMarketVariations this d category u') as [[a' b'] c'].
  cbn. repeat split.
Qed.

End PricingProperties.
(** * Negotiation guidance *)

Module GuidanceProperties.
Import JS Data NegotiationAssistant Statement.

Lemma generateGuidance_range {host : Host} this intent r s :
  counterOfferRules this = counterOfferRules new ->
  let g := fst (generateGuidance this intent (Some (OfRange r)) (VString s)) in
  let start :=
    if mentionsHighPrice s
    then market (ranges r) else PriceTypes.recommended (ranges r) in
  fallback g = false
  /\ g_confidence g = calculateGuidanceConfidence (OfRange r) intent
  /\ map price (counterOffers g)
     = [ Some (offerPrice start (safe (ranges r)) (5 # 100)%Q);
         Some (offerPrice start (safe (ranges r)) (8 # 100)%Q);
         Some (offerPrice start (safe (ranges r)) (12 # 100)%Q) ].
Proof.
  intros Hrules. cbv zeta. unfold generateGuidance, generateGuidance_try.
  destruct (NegotiationProperties.analyzeCustomerBehavior_priceAwareness s intent)
    as [ca [-> Hpa]].
  cbn [bind].
  destruct (NegotiationProperties.generateCounterOffers_range this r intent ca Hrules)
    as [offers [-> [Hl [Hp Hr]]]].
  rewrite Hpa in Hp. cbn [bind].
  destruct (NegotiationProperties.selectNegotiationTactics_range r intent ca)
    as [t ->].
  unfold generateDecisionGuidance. cbn [bind extractCustomerOffer].
  destruct (getCulturalContext this intent) as [cc this'].
  cbn [catch bind fst counterOffers fallback g_confidence].
  repeat split. exact Hp.
Qed.

Lemma offerPrice_floor start safeFloor reduction :
  (safeFloor <= offerPrice start safeFloor reduction)%Z.
Proof. unfold offerPrice. lia. Qed.

Lemma offerPrice_descends start safeFloor r1 r2 :
  (0 <= start)%Z -> (r1 <= r2)%Q ->
  (offerPrice start safeFloor r2 <= offerPrice start safeFloor r1)%Z.
Proof.
  intros Hs Hr. unfold offerPrice.
  apply Z.max_le_compat_r. apply PriceProperties.Math_round_le.
  assert (Hq : (0 <= inject_Z start)%Q).
  { change 0%Q with (inject_Z 0). rewrite <- Zle_Qle. exact Hs. }
  rewrite !(Qmult_comm (inject_Z start)).
  apply Qmult_le_compat_r; [lra | exact Hq].
Qed.

Lemma offerPrice_ceiling start safeFloor reduction :
  (0 <= start)%Z -> (0 <= reduction)%Q ->
  (offerPrice start safeFloor reduction <= Z.max start safeFloor)%Z.
Proof.
  intros Hs Hr. unfold offerPrice.
  apply Z.max_le_compat_r. apply PriceProperties.Math_round_upper.
  assert (Hq : (0 <= inject_Z start)%Q).
  { change 0%Q with (inject_Z 0). rewrite <- Zle_Qle. exact Hs. }
  assert (Hp : (0 <= inject_Z start * reduction)%Q)
    by (apply Qmult_le_0_compat; assumption).
  assert (E : (inject_Z start * (1 - reduction)
               == inject_Z start - inject_Z start * reduction)%Q) by ring.
  lra.
Qed.

(** X10.  With price data that carry non-negative ranges, the three
    counter-offers descend: each price is at most the one before it, the
    last is at least the safe price, and the first is at most the starting
    price (or the safe price, where that is higher). *)
Theorem counter_offers_descend {host : Host} this intent r s :
  counterOfferRules this = counterOfferRules new ->
  (0 <= market (ranges r))%Z ->
  (0 <= PriceTypes.recommended (ranges r))%Z ->
  let g := fst (generateGuidance this intent (Some (OfRange r)) (VString s)) in
  let start :=
    if mentionsHighPrice s
    then market (ranges r) else PriceTypes.recommended (ranges r) in
  exists p1 p2 p3,
    map price (counterOffers g) = [Some p1; Some p2; Some p3]
    /\ (p3 <= p2)%Z /\ (p2 <= p1)%Z
    /\ (safe (ranges r) <= p3)%Z
    /\ (p1 <= Z.max start (safe (ranges r)))%Z.
Proof.
  intros Hrules Hm Hrec.
  destruct (generateGuidance_range this intent r s Hrules) as (_ & _ & Hp).
  cbv zeta. rewrite Hp.
  set (start := if mentionsHighPrice s then _ else _).
  assert (Hs : (0 <= start)%Z) by (subst start; destruct (mentionsHighPrice s); assumption).
  do 3 eexists. split; [reflexivity |].
  split; [apply offerPrice_descends; [exact Hs | lra] |].
  split; [apply offerPrice_descends; [exact Hs | lra] |].
  split; [apply offerPrice_floor |].
  apply offerPrice_ceiling; [exact Hs | lra].
Qed.

Lemma counter_offers_descend_witness :
  exists r,
    PriceDiscoveryEngine.generateFallbackPriceRange (lit "mutton") (lit "meat")
    = PriceDiscoveryEngine.Estimated r
    /\ (0 <= market (ranges r))%Z /\ (0 <= PriceTypes.recommended (ranges r))%Z
    /\ exists p1 p2 p3,
         map price
           (counterOffers
              (fst (generateGuidance (host := asciiHost) new
                      (IntentClassifier.classifyIntent (host := asciiHost)
                         IntentClassifier.new
                         (VString (lit "This mutton is too expensive"))
                         (lit "english"))
                      (Some (OfRange r))
                      (VString (lit "This mutton is too expensive")))))
         = [Some p1; Some p2; Some p3]
         /\ (p3 <= p2)%Z /\ (p2 <= p1)%Z.
Proof.
  eexists. split; [vm_compute; reflexivity |].
  split; [vm_compute; discriminate |].
  split; [vm_compute; discriminate |].
  match goal with
  | |- context [OfRange ?r] =>
      destruct (counter_offers_descend (host := asciiHost) new
                  (IntentClassifier.classifyIntent (host := asciiHost)
                     IntentClassifier.new
                     (VString (lit "This mutton is too expensive"))
                     (lit "english"))
                  r (lit "This mutton is too expensive"))
        as (p1 & p2 & p3 & H1 & H2 & H3 & _);
        [reflexivity | vm_compute; discriminate | vm_compute; discriminate |]
  end.
  exists p1, p2, p3. repeat split; assumption.
Defined.

Lemma calculateGuidanceConfidence_range priceData intent :
  (lowestConfidence <= calculateGuidanceConfidence priceData intent)%Q
  /\ (calculateGuidanceConfidence priceData intent < 9 # 10)%Q.
Proof.
  unfold calculateGuidanceConfidence.
  destruct (Float64.gtb (confidenceOf priceData) (8 # 10));
    destruct (Float64.gtb (confidence intent) (8 # 10));
    destruct (productIsUnknown priceData);
    vm_compute; split; first [discriminate | reflexivity].
Qed.

Lemma generateFallbackGuidance_confidence this intent text :
  let g := fst (generateFallbackGuidance this intent text) in
  fallback g = true /\ g_confidence g = (3 # 10)%Q.
Proof.
  unfold generateFallbackGuidance.
  destruct (getCulturalContext this intent) as [cc this']. split; reflexivity.
Qed.

(** X11.  The confidence of a guidance is 0.3 when it is the fallback guidance.
    Otherwise it is at least 0.49999999999999994, which is [0.7 - 0.2] in
    binary64 and the value for an unknown product with no bonus, and
    below 0.9, for every intent, price data and customer text: the cap of
    0.95 is never reached. *)
Theorem guidance_confidence_range {host : Host} this intent priceData text :
  let g := fst (generateGuidance this intent priceData text) in
  (fallback g = true /\ g_confidence g = (3 # 10)%Q)
  \/ (fallback g = false
      /\ (Float64.minus (Float64.nearest (7 # 10)) (2 # 10) <= g_confidence g)%Q
      /\ (g_confidence g < 9 # 10)%Q
      /\ (Float64.minus (Float64.nearest (7 # 10)) (2 # 10) < 5 # 10)%Q).
Proof.
  cbv zeta. unfold generateGuidance, generateGuidance_try.
  destruct priceData as [pd |]; cbn [catch];
    [| left; apply generateFallbackGuidance_confidence].
  destruct (analyzeCustomerBehavior text intent) as [ca | e]; cbn [bind catch];
    [| left; apply generateFallbackGuidance_confidence].
  destruct (generateCounterOffers this pd intent ca) as [offers | e];
    cbn [bind catch]; [| left; apply generateFallbackGuidance_confidence].
  destruct (selectNegotiationTactics pd intent ca) as [t | e];
    cbn [bind catch]; [| left; apply generateFallbackGuidance_confidence].
  destruct (generateDecisionGuidance pd intent ca) as [d | e];
    cbn [bind catch]; [| left; apply generateFallbackGuidance_confidence].
  destruct (getCulturalContext this intent) as [cc this'].
  cbn [fst fallback g_confidence]. right. split; [reflexivity |].
  destruct (calculateGuidanceConfidence_range pd intent) as [Hlow Hhigh].
  split; [| split; [exact Hhigh | reflexivity]].
  assert (E : Float64.minus (Float64.nearest (7 # 10)) (2 # 10) = lowestConfidence)
    by (vm_compute; reflexivity).
  rewrite E. exact Hlow.
Qed.

(** An unknown product with no bonus has the confidence
    0.49999999999999994, below 0.5. *)
Lemma guidance_confidence_of_unknown_product :
  let r := match PriceDiscoveryEngine.generateFallbackPriceRange
                   (lit "unknown") (lit "general") with
           | PriceDiscoveryEngine.Estimated r => Some r
           | PriceDiscoveryEngine.WithoutPrices _ _ => None
           end in
  let intent :=
    IntentClassifier.classifyIntent (host := asciiHost) IntentClassifier.new
      (VString (lit "hello")) (lit "english") in
  match r with
  | Some r =>
      let g := fst (generateGuidance (host := asciiHost) new intent
                      (Some (OfRange r)) (VString (lit "hello"))) in
      fallback g = false
      /\ g_confidence g = lowestConfidence
      /\ (g_confidence g < 5 # 10)%Q
  | None => False
  end.
Proof. vm_compute. repeat split. Qed.

Lemma prices_Forall (P : Z -> Prop) offers a b c :
  map price offers = [Some a; Some b; Some c] ->
  P a -> P b -> P c ->
  Forall (fun o => exists z, price o = Some z /\ P z) offers.
Proof.
  intros Hp Ha Hb Hc. apply Forall_forall. intros o Ho.
  apply (in_map price) in Ho. rewrite Hp in Ho.
  destruct Ho as [Ho | [Ho | [Ho | []]]]; symmetry in Ho; eauto.
Qed.

(** X12.  The guidance computed from an estimated fallback price range, that is
    the fallback range of any product and of any category that has
    prices (every category but the names of the members of
    [Object.prototype]), is not the fallback guidance: it has three
    counter-offers, each between the safe and the premium price of the
    range. *)
Theorem guidance_on_fallback_range {host : Host} this intent product category p s :
  counterOfferRules this = counterOfferRules new ->
  PriceDiscoveryEngine.generateFallbackPriceRange product category
  = PriceDiscoveryEngine.Estimated p ->
  let g := fst (generateGuidance this intent (Some (OfRange p)) (VString s)) in
  fallback g = false
  /\ length (counterOffers g) = 3%nat
  /\ Forall (fun o =>
               exists z, price o = Some z
                         /\ (safe (ranges p) <= z <= premium (ranges p))%Z)
            (counterOffers g).
Proof.
  intros Hrules Hp0 g.
  destruct (generateGuidance_range this intent p s Hrules) as (Hf & _ & Hp).
  fold g in Hf, Hp.
  pose proof (PricingProperties.fallbackRanges_ordered product category) as Ho.
  rewrite Hp0 in Ho. cbv zeta in Ho.
  destruct Ho as (_ & H1 & H2 & H3 & H4 & H5).
  split; [exact Hf |]. split.
  - rewrite <- (length_map price), Hp. reflexivity.
  - set (start := if mentionsHighPrice s then _ else _) in Hp.
    assert (Hs : (0 <= start)%Z /\ (safe (ranges p) <= start)%Z
                 /\ (start <= premium (ranges p))%Z).
    { subst start. destruct H5 as [H5 _]. destruct (mentionsHighPrice s); lia. }
    destruct Hs as (Hs0 & Hs1 & Hs2).
    apply (prices_Forall _ _ _ _ _ Hp);
      (split; [apply offerPrice_floor |]);
      (etransitivity; [apply offerPrice_ceiling; [exact Hs0 | lra] | lia]).
Qed.

Lemma guidance_on_fallback_range_witness :
  exists p,
    let intent :=
      IntentClassifier.classifyIntent (host := asciiHost) IntentClassifier.new
        (VString (lit "best price for zorblax")) (lit "english") in
    let g := fst (generateGuidance (host := asciiHost) new intent
                    (Some (OfRange p))
                    (VString (lit "best price for zorblax"))) in
    counterOfferRules new = counterOfferRules new
    /\ PriceDiscoveryEngine.generateFallbackPriceRange
         (lit "zorblax") (lit "general")
       = PriceDiscoveryEngine.Estimated p
    /\ fallback g = false
    /\ map price (counterOffers g) = [Some 52%Z; Some 51%Z; Some 48%Z].
Proof.
  eexists. cbv zeta. split; [reflexivity |].
  split; [vm_compute; reflexivity |]. split.
  - match goal with
    | |- context [OfRange ?p] =>
        apply (guidance_on_fallback_range (host := asciiHost) new
                 (IntentClassifier.classifyIntent (host := asciiHost)
                    IntentClassifier.new
                    (VString (lit "best price for zorblax")) (lit "english"))
                 (lit "zorblax") (lit "general") p
                 (lit "best price for zorblax"));
          [reflexivity | vm_compute; reflexivity]
    end.
  - vm_compute. reflexivity.
Defined.

End GuidanceProperties.
(** * Classification of an utterance *)

Module ClassifierProperties.
Import JS Data Regex IntentClassifier ClassifierMethods Statement Shape LookupProperties.

Lemma collapseFrom_spaces s :
  forallb isSpace s = true -> collapseFrom true s = [].
Proof.
  induction s as [| c s IH]; [reflexivity |]. cbn. intro H.
  apply andb_true_iff in H. destruct H as [Hc Hs]. rewrite Hc. auto.
Qed.

Lemma collapseSpaces_spaces s :
  forallb isSpace s = true -> collapseSpaces s = [] \/ collapseSpaces s = [32%N].
Proof.
  destruct s as [| c s]; [left; reflexivity |]. cbn. intro H.
  apply andb_true_iff in H. destruct H as [Hc Hs]. rewrite Hc.
  right. rewrite (collapseFrom_spaces s Hs). reflexivity.
Qed.

(** A text without word characters is normalised to the empty string. *)
Lemma normalizeText_without_word {host : Host} s :
  forallb (fun c => negb (isWordChar c)) (toLowerCase s) = true ->
  normalizeText (VString s) = Ok [].
Proof.
  intro H. unfold normalizeText. f_equal.
  set (m := map _ (toLowerCase s)).
  assert (Hm : forallb isSpace m = true).
  { subst m. rewrite forallb_forall in *. intros x Hx.
    apply in_map_iff in Hx. destruct Hx as (c & <- & Hc).
    specialize (H c Hc). apply negb_true_iff in H. rewrite H. cbn.
    destruct (isSpace c) eqn:E; [exact E | reflexivity]. }
  destruct (collapseSpaces_spaces m Hm) as [-> | ->]; reflexivity.
Qed.

(** X13.  An utterance without any letter of the Basic Latin alphabet, digit or
    underscore, such as one written in Devanagari or Kannada script, is
    classified as a casual inquiry about an unknown product, with
    confidence 0.3, no keyword and no quantity; it is not reliable. *)
Theorem classifyIntent_without_word_characters {host : Host} s language :
  forallb (fun c => negb (isWordChar c)) (toLowerCase s) = true ->
  let r := classifyIntent IntentClassifier.new (VString s) language in
  type r = Some casual_inquiry
  /\ confidence r = (3 # 10)%Q
  /\ Data.keywords r = []
  /\ product r = lit "unknown"
  /\ category r = lit "general"
  /\ quantity r = None
  /\ normalizedText r = Some []
  /\ scores r = Some zeroScores
  /\ isReliable r = false.
Proof.
  intro H. cbv zeta. unfold classifyIntent, classifyIntent_try.
  rewrite (normalizeText_without_word s H). cbn [bind catch].
  vm_compute. repeat split.
Qed.

Lemma classifyIntent_without_word_characters_witness :
  let s := [2330; 2366; 2357; 2354; 32; 2325; 2368; 32; 2325; 2368; 2350;
            2340; 63]%N in
  forallb (fun c => negb (isWordChar c)) (toLowerCase (Host := asciiHost) s)
  = true
  /\ type (classifyIntent (host := asciiHost) IntentClassifier.new
             (VString s) (lit "hindi"))
     = Some casual_inquiry.
Proof.
  cbv zeta. split; [reflexivity |].
  apply (classifyIntent_without_word_characters (host := asciiHost)
           [2330; 2366; 2357; 2354; 32; 2325; 2368; 32; 2325; 2368; 2350;
            2340; 63]%N (lit "hindi")).
  reflexivity.
Defined.

Lemma findAt_Some {R} (p : option char -> jsstring -> option R) prev s r :
  findAt p prev s = Some r ->
  exists prev' pre s0, s = pre ++ s0 /\ p prev' s0 = Some r.
Proof.
  revert prev. induction s as [| c s IH]; intros prev H; cbn in H.
  - destruct (p prev []) eqn:E; [| discriminate].
    injection H as ->. exists prev, [], []. auto.
  - destruct (p prev (c :: s)) eqn:E.
    + injection H as ->. exists prev, [], (c :: s). auto.
    + apply IH in H. destruct H as (prev' & pre & s0 & -> & Hp).
      exists prev', (c :: pre), s0. auto.
Qed.

Lemma firstAlt_Some {R} alts s (k : jsstring -> jsstring -> option R) r :
  firstAlt alts s k = Some r ->
  exists alt : jsstring,
    k (firstn (length alt) s) (skipn (length alt) s) = Some r.
Proof.
  induction alts as [| alt alts IH]; cbn; [discriminate |].
  destruct (startsWith_ci alt s); [| exact IH].
  destruct (k (firstn (length alt) s) (skipn (length alt) s)) eqn:E; [| exact IH].
  intro H. injection H as ->. exists alt. exact E.
Qed.

Lemma dropWhile_suffix {A} (p : A -> bool) l :
  exists pre, l = pre ++ dropWhile p l.
Proof.
  induction l as [| a l [pre IH]]; [exists []; reflexivity |].
  cbn. destruct (p a).
  - exists (a :: pre). cbn. f_equal. exact IH.
  - exists []. reflexivity.
Qed.

Lemma matchAfterVerb_includes alts text w :
  matchAfterVerb alts text = Some w -> includes text w = true.
Proof.
  unfold matchAfterVerb. intro H.
  apply findAt_Some in H. destruct H as (prev & pre & s0 & -> & H).
  unfold afterVerbAt in H. destruct (wordBoundary prev s0); [| discriminate].
  apply firstAlt_Some in H. destruct H as (alt & H).
  set (rest := skipn (length alt) s0) in *.
  destruct rest as [| c rest'] eqn:Erest; [discriminate |].
  destruct (isSpace c); [| discriminate].
  rewrite <- Erest in H.
  destruct (takeWhile isWordChar (dropWhile isSpace rest)) as [| x w'] eqn:Ew;
    [discriminate |].
  injection H as <-.
  destruct (dropWhile_suffix isSpace rest) as [sp Hsp].
  pose proof (ResponseProperties.takeWhile_dropWhile isWordChar
                (dropWhile isSpace rest)) as Htd.
  rewrite Ew in Htd.
  assert (Hs0 : s0 = firstn (length alt) s0 ++ rest)
    by (subst rest; symmetry; apply firstn_skipn).
  rewrite Hs0, Hsp, <- Htd.
  rewrite !app_assoc. rewrite <- (app_assoc _ (x :: w')).
  apply includes_app.
Qed.

Lemma extractProduct_includes this text p :
  extractProduct this text = Some p -> includes text p = true.
Proof.
  unfold extractProduct.
  destruct (find _ _) as [q |] eqn:E.
  - intro H. injection H as <-. apply find_some in E. tauto.
  - apply matchAfterVerb_includes.
Qed.

Lemma In_firstn {A} n (x : A) l : In x (firstn n l) -> In x l.
Proof.
  revert l. induction n as [| n IH]; intros [| a l]; cbn; try tauto.
  intros [H | H]; [left; exact H | right; apply IH; exact H].
Qed.

(** X14.  The classifier reports only what it found: every keyword of a
    classification occurs in the normalised text, and so does the product
    unless it is ['unknown']. *)
Theorem classification_found_in_text {host : Host} this text language :
  let r := classifyIntent this text language in
  match normalizedText r with
  | Some n =>
      Forall (fun k => includes n k = true) (Data.keywords r)
      /\ (product r = lit "unknown" \/ includes n (product r) = true)
  | None => Data.keywords r = [] /\ product r = lit "unknown"
  end.
Proof.
  cbv zeta. unfold classifyIntent, classifyIntent_try.
  destruct (normalizeText text) as [n | e]; cbn [bind catch normalizedText];
    [| split; reflexivity].
  cbn [Data.keywords product]. split.
  - unfold extractKeywords. apply Forall_forall. intros k Hk.
    apply In_firstn in Hk.
    destruct (selectPrimaryIntent (calculateIntentScores this n)) as [t |];
      [| contradiction].
    apply in_app_or in Hk. destruct Hk as [Hk | Hk];
      apply filter_In in Hk; tauto.
  - destruct (extractProduct this n) as [[| c p] |] eqn:E;
      cbn [orStr]; try (left; reflexivity).
    right. apply (extractProduct_includes this). exact E.
Qed.

Lemma parseDigits_nonneg digits : (0 <= parseDigits digits)%Z.
Proof.
  unfold parseDigits.
  assert (H : forall acc, (0 <= acc)%Z ->
            (0 <= fold_left (fun acc c => acc * 10 + Z.of_N (c - 48)) digits acc)%Z).
  { induction digits as [| c digits IH]; intros acc Hacc; [exact Hacc |].
    cbn [fold_left]. apply IH. lia. }
  apply H. lia.
Qed.

Lemma quantityAt_digit alts s digits unitText :
  quantityAt alts s = Some (digits, unitText) ->
  existsb isDigit s = true.
Proof.
  unfold quantityAt. destruct s as [| c s]; [discriminate |].
  cbn [takeWhile existsb]. destruct (isDigit c); [reflexivity | discriminate].
Qed.

Lemma existsb_app_r {A} (p : A -> bool) a b :
  existsb p b = true -> existsb p (a ++ b) = true.
Proof. intro H. rewrite existsb_app, H. apply orb_true_r. Qed.

(** X15.  A quantity is extracted only from a text that contains a decimal
    digit, and its amount is never negative: numbers written in words are
    not recognised. *)
Theorem extractQuantity_needs_digit {host : Host} this text q :
  extractQuantity this text = Some q ->
  existsb isDigit text = true /\ (0 <= amount q)%Z.
Proof.
  unfold extractQuantity.
  induction (quantityPatterns this) as [| pattern rest IH]; [discriminate |].
  destruct (matchQuantity pattern text) as [[digits unitText] |] eqn:E;
    [| exact IH].
  intro H. injection H as <-. cbn [amount]. split; [| apply parseDigits_nonneg].
  unfold matchQuantity in E. apply findAt_Some in E.
  destruct E as (prev & pre & s0 & -> & E).
  apply existsb_app_r. apply (quantityAt_digit _ _ _ _ E).
Qed.

Lemma extractQuantity_needs_digit_witness :
  extractQuantity (host := asciiHost) IntentClassifier.new
    (lit "i want 12 kg rice")
  = Some {| amount := 12; q_unit := lit "kg" |}
  /\ existsb isDigit (lit "i want 12 kg rice") = true
  /\ extractQuantity (host := asciiHost) IntentClassifier.new
       (lit "i want twelve kg rice") = None.
Proof.
  split; [reflexivity |]. split; [| reflexivity].
  apply (extractQuantity_needs_digit (host := asciiHost) IntentClassifier.new
           (lit "i want 12 kg rice") {| amount := 12; q_unit := lit "kg" |}).
  reflexivity.
Defined.

(** X16.  A classification is reliable only if some category scored: the
    fallback intent and every classification with three zero scores stay
    below the threshold of 0.6. *)
Theorem reliable_needs_score {host : Host} this text language :
  let r := classifyIntent this text language in
  isReliable r = true ->
  exists sc, scores r = Some sc /\ (0 < maxScoreOf sc)%Z.
Proof.
  cbv zeta. unfold classifyIntent, classifyIntent_try.
  destruct (normalizeText text) as [n | e]; cbn [bind catch];
    [| vm_compute; discriminate].
  unfold isReliable. cbn [confidence scores]. intro H.
  exists (calculateIntentScores this n). split; [reflexivity |].
  destruct (Z.ltb_spec 0 (maxScoreOf (calculateIntentScores this n)))
    as [Hpos | Hle]; [exact Hpos |].
  exfalso. revert H. unfold calculateConfidence.
  destruct (Z.ltb_spec 0 (maxScoreOf (calculateIntentScores this n)));
    [lia |].
  vm_compute. discriminate.
Qed.

Lemma reliable_needs_score_witness :
  let r := classifyIntent (host := asciiHost) IntentClassifier.new
             (VString (lit "price kya hai")) (lit "hindi") in
  isReliable r = true
  /\ exists sc, scores r = Some sc /\ (0 < maxScoreOf sc)%Z.
Proof.
  cbv zeta. split; [reflexivity |].
  apply (reliable_needs_score (host := asciiHost) IntentClassifier.new
           (VString (lit "price kya hai")) (lit "hindi")).
  reflexivity.
Defined.

(** X17.  The type of a classification has the greatest of the three scores.
    Equal positive scores are resolved in the order bargaining,
    bulk_purchase, casual_inquiry; three zero scores give
    casual_inquiry. *)
Theorem primary_intent_maximal {host : Host} this s language :
  let r := classifyIntent this (VString s) language in
  exists sc t,
    scores r = Some sc /\ type r = Some t
    /\ getScore sc t = maxScoreOf sc
    /\ t = (if (maxScoreOf sc =? 0)%Z then casual_inquiry
            else if (getScore sc bargaining =? maxScoreOf sc)%Z then bargaining
            else if (getScore sc bulk_purchase =? maxScoreOf sc)%Z
                 then bulk_purchase
            else casual_inquiry).
Proof.
  cbv zeta. unfold classifyIntent, classifyIntent_try, normalizeText.
  cbn [bind catch scores type].
  set (n := trim _). set (sc := calculateIntentScores this n).
  pose proof (IntentProperties.calculateIntentScores_nonNegative this n)
    as (H1 & H2 & H3).
  fold sc in H1, H2, H3.
  unfold selectPrimaryIntent, intentKeys. cbn [find getScore].
  unfold maxScoreOf in *.
  exists sc.
  destruct (Z.eqb_spec (Z.max (Z.max (s_bargaining sc) (s_bulk_purchase sc))
                              (s_casual_inquiry sc)) 0) as [E0 | E0].
  - exists casual_inquiry. cbn [getScore]. repeat split. lia.
  - destruct (Z.eqb_spec (s_bargaining sc)
                (Z.max (Z.max (s_bargaining sc) (s_bulk_purchase sc))
                       (s_casual_inquiry sc))) as [E1 | E1].
    + exists bargaining. cbn [getScore]. repeat split. exact E1.
    + destruct (Z.eqb_spec (s_bulk_purchase sc)
                  (Z.max (Z.max (s_bargaining sc) (s_bulk_purchase sc))
                         (s_casual_inquiry sc))) as [E2 | E2].
      * exists bulk_purchase. cbn [getScore]. repeat split. exact E2.
      * destruct (Z.eqb_spec (s_casual_inquiry sc)
                    (Z.max (Z.max (s_bargaining sc) (s_bulk_purchase sc))
                           (s_casual_inquiry sc))) as [E3 | E3]; [| lia].
        exists casual_inquiry. cbn [getScore]. repeat split. exact E3.
Qed.

(** X18.  The category of a classification agrees with its product: it is
    ['general'], or it is a category of the product table that lists the
    product. *)
Theorem classification_category {host : Host} this text language :
  let r := classifyIntent this text language in
  category r = lit "general"
  \/ exists products,
       In (category r, products) (productPatterns this)
       /\ In (product r) products.
Proof.
  cbv zeta. unfold classifyIntent, classifyIntent_try.
  destruct (normalizeText text) as [n | e]; cbn [bind catch category product];
    [| left; reflexivity].
  unfold getProductCategory.
  destruct (extractProduct this n) as [[| c p] |]; try (left; reflexivity).
  destruct (find _ (productPatterns this)) as [[cat products] |] eqn:E;
    [| left; reflexivity].
  apply find_some in E. destruct E as [Hin Hex]. cbn [fst snd] in *.
  destruct cat as [| x cat]; [left; reflexivity |].
  right. exists products. cbn [orStr]. split; [exact Hin |].
  apply existsb_exists in Hex. destruct Hex as (q & Hq & Heq).
  apply LookupProperties.str_eqb_eq in Heq. rewrite Heq. exact Hq.
Qed.

Lemma word_not_space c : isWordChar c = true -> isSpace c = false.
Proof.
  unfold isWordChar, isSpace, isLowerAZ, isUpperAZ, isDigit, inRange.
  intro H. repeat rewrite orb_true_iff in H.
  repeat rewrite andb_true_iff in H. repeat rewrite N.leb_le in H.
  repeat (apply orb_false_iff; split);
    apply andb_false_iff;
    repeat rewrite N.leb_gt;
    repeat rewrite N.eqb_eq in H; lia.
Qed.

Lemma loose_collapseFrom inRun m :
  forallb (fun c => (isWordChar c || isSpace c)%bool) m = true ->
  loose inRun (collapseFrom inRun m) = true.
Proof.
  revert inRun. induction m as [| x m IH]; intros inRun H; [reflexivity |].
  cbn [forallb] in H. apply andb_true_iff in H. destruct H as [Hx Hm].
  cbn [collapseFrom]. destruct (isSpace x) eqn:Es.
  - destruct inRun; [apply IH; exact Hm |].
    cbn [loose N.eqb Pos.eqb negb andb]. apply IH. exact Hm.
  - rewrite orb_false_r in Hx. cbn [loose].
    destruct (N.eqb_spec x 32) as [-> | _]; [discriminate |].
    rewrite Hx. cbn [andb]. apply IH. exact Hm.
Qed.

Lemma loose_head a x s :
  loose a (x :: s) = true -> x = 32%N \/ isWordChar x = true.
Proof.
  cbn [loose]. destruct (N.eqb_spec x 32) as [-> | _]; [tauto |].
  intro H. apply andb_true_iff in H. tauto.
Qed.

Lemma loose_trimStart c : loose false c = true -> loose true (trimStart c) = true.
Proof.
  unfold trimStart. destruct c as [| x c]; [reflexivity |].
  cbn [loose dropWhile]. destruct (N.eqb_spec x 32) as [-> | Hx].
  - cbn [negb andb isSpace]. change (isSpace 32) with true. cbn iota.
    intro H. destruct c as [| y c]; [reflexivity |].
    cbn [dropWhile]. cbn [loose] in H |- *.
    destruct (N.eqb_spec y 32) as [-> | Hy]; [discriminate |].
    apply andb_true_iff in H. destruct H as [Hy' Hc].
    rewrite (word_not_space y Hy'). cbn [loose].
    destruct (N.eqb_spec y 32); [contradiction |]. rewrite Hy'. exact Hc.
  - intro H. apply andb_true_iff in H. destruct H as [Hx' Hc].
    rewrite (word_not_space x Hx'). cbn [loose].
    destruct (N.eqb_spec x 32); [contradiction |]. rewrite Hx'. exact Hc.
Qed.

Lemma shape_of_loose a u x b :
  loose a (u ++ [x] ++ b) = true -> isSpace x = false ->
  shape a (u ++ [x]) = true.
Proof.
  revert a. induction u as [| y u IH]; intros a H Hx.
  - cbn [app] in *. apply loose_head in H as Hh.
    cbn [shape]. destruct (N.eqb_spec x 32) as [-> | _]; [discriminate |].
    destruct Hh as [-> | ->]; [discriminate | reflexivity].
  - cbn [app loose shape] in *. destruct (N.eqb y 32).
    + apply andb_true_iff in H. destruct H as [Ha Hu]. rewrite Ha.
      apply IH; assumption.
    + apply andb_true_iff in H. destruct H as [Hy Hu]. rewrite Hy.
      apply IH; assumption.
Qed.

Lemma trimEnd_last s :
  trimEnd s = [] \/ exists u x, trimEnd s = u ++ [x] /\ isSpace x = false.
Proof.
  unfold trimEnd. destruct (dropWhile isSpace (rev s)) as [| x r] eqn:E;
    [left; reflexivity |].
  right. exists (rev r), x. split; [reflexivity |].
  clear - E. induction (rev s) as [| y l IH]; [discriminate |].
  cbn [dropWhile] in E. destruct (isSpace y) eqn:Ey; [apply IH; exact E |].
  injection E as -> _. exact Ey.
Qed.

(** X19.  The normalised text of an utterance consists of words of the
    characters a-z, A-Z, 0-9 and underscore, separated by single spaces,
    with no space at either end: every other code unit of the lower-cased
    utterance has become a space, and runs of spaces have been merged. *)
Theorem normalizeText_shape {host : Host} s :
  exists n,
    normalizeText (VString s) = Ok n /\ wordsBySingleSpaces n = true.
Proof.
  unfold normalizeText. eexists. split; [reflexivity |].
  set (m := map _ (toLowerCase s)).
  assert (Hm : forallb (fun c => (isWordChar c || isSpace c)%bool) m = true).
  { subst m. apply forallb_forall. intros x Hx.
    apply in_map_iff in Hx. destruct Hx as (c & <- & _).
    destruct (isWordChar c || isSpace c)%bool eqn:E; [exact E | reflexivity]. }
  pose proof (loose_collapseFrom false m Hm) as Hc.
  apply loose_trimStart in Hc. unfold trim.
  fold (collapseSpaces m) in Hc.
  set (t := trimStart (collapseSpaces m)) in *.
  destruct (ResponseProperties.trimEnd_split t) as (b & Ht & _).
  destruct (trimEnd_last t) as [-> | (u & x & Hu & Hx)]; [reflexivity |].
  rewrite Hu in Ht |- *. rewrite Ht, <- app_assoc in Hc.
  pose proof (shape_of_loose true u x b Hc Hx) as Hs.
  destruct (u ++ [x]) eqn:E; [reflexivity | exact Hs].
Qed.

End ClassifierProperties.
(** * Display, languages and short responses *)

Module DisplayProperties.
Import JS Data Regex ResponseGenerator GeneratorMethods Statement Braces.
Import LookupProperties.

Lemma formatForDisplay_short text :
  (length text <= maxLength)%nat -> formatForDisplay text
  = {| d_text := text; originalLength := length text; truncated := false |}.
Proof.
  intro H. unfold formatForDisplay.
  destruct (Nat.ltb_spec maxLength (length text)) as [Hlt | _]; [lia |].
  rewrite Nat.ltb_irrefl. reflexivity.
Qed.

(** X20.  [formatForDisplay] leaves a text of at most 300 code units unchanged
    and cuts a longer one to at most 300; its flag [truncated] tells which
    of the two happened, a cut text is never empty, and formatting a
    formatted text changes nothing. *)
Theorem formatForDisplay_exact text :
  let d := formatForDisplay text in
  truncated d = (maxLength <? length text)%nat
  /\ originalLength d = length text
  /\ (if (maxLength <? length text)%nat
      then (0 < length (d_text d) <= maxLength)%nat
      else d_text d = text)
  /\ formatForDisplay (d_text d)
     = {| d_text := d_text d; originalLength := length (d_text d);
          truncated := false |}.
Proof.
  cbv zeta.
  pose proof (ResponseProperties.formatForDisplay_length text) as Hlen.
  split; [| split; [reflexivity | split]].
  - unfold formatForDisplay in *. cbn [truncated d_text] in *.
    destruct (Nat.ltb_spec maxLength (length text)) as [Hlt | Hle].
    + apply Nat.ltb_lt. lia.
    + apply Nat.ltb_irrefl.
  - destruct (Nat.ltb_spec maxLength (length text)) as [Hlt | Hle].
    + split; [| exact Hlen].
      unfold formatForDisplay. cbn [d_text].
      destruct (Nat.ltb_spec maxLength (length text)) as [_ | Hle]; [| lia].
      destruct (trim _) as [| c t]; [| cbn; lia].
      rewrite length_app. cbn. lia.
    + rewrite (formatForDisplay_short text Hle). reflexivity.
  - apply formatForDisplay_short. exact Hlen.
Qed.

Lemma lookup_key {V} (t : list (jsstring * V)) k v :
  lookup t k = Some v -> exists k', In (k', v) t /\ str_eqb k' k = true.
Proof.
  induction t as [| [k0 v0] t IH]; cbn; [discriminate |].
  destruct (str_eqb k0 k) eqn:E.
  - intro H. injection H as ->. exists k0. auto.
  - intro H. destruct (IH H) as (k' & Hin & Hk). exists k'. auto.
Qed.

Section WithHost.
Context {host : Host}.

Lemma normalizeLanguage_own language :
  inherited (keyText language) = false ->
  exists L, normalizeLanguage language = Str L /\ In L supported.
Proof.
  intros Hown. unfold normalizeLanguage, get. rewrite Hown.
  match goal with
  | |- context [lookup ?t ?k] => destruct (lookup t k) as [v |] eqn:Hl
  end.
  - apply ResponseProperties.lookup_In_values in Hl.
    cbn [map snd TranslationEngine.pairs fst] in Hl. unfold supported.
    repeat (destruct Hl as [<- | Hl];
            [eexists; split; [reflexivity | vm_compute; tauto] |]).
    destruct Hl.
  - eexists. split; [reflexivity | vm_compute; tauto].
Qed.

Lemma getBrowserLanguage_own language :
  inherited (keyText language) = false ->
  exists code, getBrowserLanguage language = Str code /\ In code browserCodes.
Proof.
  intros Hown. unfold getBrowserLanguage, get. rewrite Hown.
  match goal with
  | |- context [lookup ?t ?k] => destruct (lookup t k) as [v |] eqn:Hl
  end.
  - apply ResponseProperties.lookup_In_values in Hl.
    cbn [map snd TranslationEngine.pairs fst] in Hl. unfold browserCodes.
    repeat (destruct Hl as [<- | Hl];
            [eexists; split; [reflexivity | vm_compute; tauto] |]).
    destruct Hl.
  - eexists. split; [reflexivity | vm_compute; tauto].
Qed.

Lemma lookup_inherited {V} (table : list (jsstring * V)) key :
  forallb (fun entry => negb (inherited (fst entry))) table = true ->
  inherited key = true -> lookup table key = None.
Proof.
  intros Hkeys Hkey. induction table as [| [k v] table IH]; [reflexivity |].
  cbn [forallb fst] in Hkeys. apply andb_prop in Hkeys as [Hk Hkeys].
  cbn [lookup]. destruct (str_eqb k key) eqn:E; [| now apply IH].
  apply str_eqb_eq in E. subst k. rewrite Hkey in Hk. discriminate.
Qed.

(** X21.  The language names and the browser codes of the response generator
    translate into each other.  For a language that is not the name of a
    member of [Object.prototype]: [normalizeLanguage] gives one of the
    three names and [getBrowserLanguage] one of the three codes ('english'
    and 'en-US' for every string outside their tables); a name, turned
    into a code and back, is the same name, and a code, turned into a name
    and back, is the same code.  For the name of a member of
    [Object.prototype] both methods return that member. *)
Theorem language_round_trip (language : Tag) :
  if inherited (keyText language)
  then normalizeLanguage language = Member (keyText language)
       /\ getBrowserLanguage language = Member (keyText language)
  else (exists L, normalizeLanguage language = Str L /\ In L supported)
       /\ (exists code,
             getBrowserLanguage language = Str code /\ In code browserCodes)
       /\ normalizeLanguage (getBrowserLanguage (normalizeLanguage language))
          = normalizeLanguage language
       /\ getBrowserLanguage (normalizeLanguage (getBrowserLanguage language))
          = getBrowserLanguage language.
Proof.
  destruct (inherited (keyText language)) eqn:Hown.
  - unfold normalizeLanguage, getBrowserLanguage, get.
    repeat match goal with
           | |- context [lookup ?t (keyText language)] =>
               rewrite (lookup_inherited t _ eq_refl Hown)
           end.
    rewrite Hown. split; reflexivity.
  - pose proof (normalizeLanguage_own language Hown) as Hn.
    pose proof (getBrowserLanguage_own language Hown) as Hb.
    split; [exact Hn |]. split; [exact Hb |].
    destruct Hn as (L & -> & HL). destruct Hb as (code & -> & Hcode).
    unfold supported in HL. unfold browserCodes in Hcode. split.
    + destruct HL as [<- | [<- | [<- | []]]]; reflexivity.
    + destruct Hcode as [<- | [<- | [<- | []]]]; reflexivity.
Qed.

End WithHost.

(** In a browser that prints native functions as V8 does: 'kn-IN' is
    'kannada' and back; ['constructor'] is the function [Object] under
    both methods, and its text is a language outside both tables. *)
Lemma language_of_member :
  normalizeLanguage (host := asciiHost) (lit "kn-IN") = Str (lit "kannada")
  /\ getBrowserLanguage (host := asciiHost) (lit "kannada") = Str (lit "kn-IN")
  /\ normalizeLanguage (host := asciiHost) (lit "constructor")
     = Member (lit "constructor")
  /\ getBrowserLanguage (host := asciiHost) (lit "constructor")
     = Member (lit "constructor")
  /\ getBrowserLanguage (host := asciiHost)
       (normalizeLanguage (host := asciiHost) (lit "constructor"))
     = Str (lit "en-US").
Proof. vm_compute. repeat split. Qed.

Lemma startsWithBy_length eq p s :
  startsWithBy eq p s = true -> (length p <= length s)%nat.
Proof.
  revert s. induction p as [| x p IH]; intros [| y s]; cbn;
    try lia; try discriminate.
  intro H. apply andb_true_iff in H. destruct H as [_ H].
  apply IH in H. lia.
Qed.

(** A global replacement whose replacement text is never longer than the
    match does not lengthen the string. *)
Lemma replaceFrom_not_longer m subst :
  (forall prev s n,
      m prev s = Some n ->
      (n <= length s)%nat
      /\ forall before after,
           (length (subst (firstn n s) before after) <= n)%nat) ->
  forall s skip before prev,
    (skip <= length s)%nat ->
    (length (replaceFrom m subst skip before prev s) + skip <= length s)%nat.
Proof.
  intros Hm. induction s as [| c s IH]; intros skip before prev Hskip.
  - cbn in *. lia.
  - cbn [replaceFrom length] in *. destruct skip as [| k].
    + destruct (m prev (c :: s)) as [[| n] |] eqn:E.
      * cbn [length]. specialize (IH 0%nat (c :: before) (Some c)). lia.
      * destruct (Hm _ _ _ E) as [Hn Hsub]. cbn [length] in Hn.
        rewrite length_app.
        specialize (Hsub (rev before) (skipn (S n) (c :: s))).
        specialize (IH n (c :: before) (Some c)). lia.
      * cbn [length]. specialize (IH 0%nat (c :: before) (Some c)). lia.
    + specialize (IH k (c :: before) (Some c)). lia.
Qed.

Lemma replaceLiteral_ci_not_longer pattern replacement s :
  (forall matched before after,
      length (getSubstitution replacement matched before after)
      <= length pattern)%nat ->
  (length (replaceLiteral_ci pattern replacement s) <= length s)%nat.
Proof.
  intro H. unfold replaceLiteral_ci, replaceAll.
  pose proof (replaceFrom_not_longer (literalAt_ci pattern)
                (getSubstitution replacement)) as Hr.
  assert (Hr' := fun Hm => Hr Hm s 0%nat [] None (Nat.le_0_l _)).
  rewrite Nat.add_0_r in Hr'. apply Hr'.
  intros prev t n Hn. unfold literalAt_ci in Hn.
  destruct (startsWith_ci pattern t) eqn:E; [| discriminate].
  injection Hn as <-. split.
  - apply (startsWithBy_length _ _ _ E).
  - intros. apply H.
Qed.

Lemma replaceLiteral_not_longer pattern replacement s :
  (forall matched before after,
      length (getSubstitution replacement matched before after)
      <= length pattern)%nat ->
  (length (replaceLiteral pattern replacement s) <= length s)%nat.
Proof.
  intro H. unfold replaceLiteral, replaceAll.
  pose proof (replaceFrom_not_longer (literalAt pattern)
                (getSubstitution replacement)) as Hr.
  assert (Hr' := fun Hm => Hr Hm s 0%nat [] None (Nat.le_0_l _)).
  rewrite Nat.add_0_r in Hr'. apply Hr'.
  intros prev t n Hn. unfold literalAt in Hn.
  destruct (startsWith pattern t) eqn:E; [| discriminate].
  injection Hn as <-. split.
  - apply (startsWithBy_length _ _ _ E).
  - intros. apply H.
Qed.

Lemma simplifyLanguage_length r :
  (length (text (response (simplifyLanguage r))) <= length (text r))%nat.
Proof.
  unfold simplifyLanguage. cbn [response withText text].
  etransitivity; [apply replaceLiteral_not_longer; intros; cbn; lia |].
  unfold simplifications. cbn [TranslationEngine.pairs map fold_left fst snd].
  repeat (etransitivity;
          [apply replaceLiteral_ci_not_longer; intros; cbn; lia |]).
  apply Nat.le_refl.
Qed.

(** X22.  Adapting a response to a literacy level never lengthens its text: the
    simplified wording is at most as long as the wording it replaces, so a
    formatted response stays within the 300 code units of the display. *)
Theorem adaptForLiteracyLevel_not_longer {host : Host} this data language
  literacyLevel :
  (forall r,
      (length (text (response (adaptForLiteracyLevel r literacyLevel)))
       <= length (text r))%nat)
  /\ (length (text (response (adaptForLiteracyLevel
                                (formatResponse this data language)
                                literacyLevel)))
      <= 300)%nat.
Proof.
  assert (H : forall r,
             (length (text (response (adaptForLiteracyLevel r literacyLevel)))
              <= length (text r))%nat).
  { intro r. unfold adaptForLiteracyLevel.
    destruct (str_eqb literacyLevel (lit "low"));
      [apply simplifyLanguage_length |].
    destruct (str_eqb literacyLevel (lit "high")); cbn; lia. }
  split; [exact H |].
  etransitivity; [apply H |].
  apply ResponseProperties.formatResponse_length.
Qed.

Lemma generatePrimaryResponse_cases {host : Host} this intent priceData
  (language : jsstring) :
  match generatePrimaryResponse this intent priceData language with
  | Ok p => exists template variables, p = fillTemplate template variables
  | Throw _ => lookup (responseTemplates this) language = None
  end.
Proof.
  unfold generatePrimaryResponse, generatePriceGuidance, templatesFor, get.
  cbn [keyText].
  destruct (lookup (responseTemplates this) language) as [t |];
    cbn [bind]; [| destruct (inherited language); reflexivity].
  destruct priceData as [[q | r] |]; cbn [bind].
  - eexists _, _. reflexivity.
  - destruct (str_eqb _ (lit "high")); [| destruct (str_eqb _ (lit "low"))];
      cbn [bind]; eexists _, _; reflexivity.
  - eexists _, _. reflexivity.
Qed.

(** X23.  The two short forms of a response fail only for a language without
    templates; when they return, their text has at most 300 code units,
    and the text of the simple response has no placeholder. *)
Theorem short_responses_bounded {host : Host} this intent priceData guidance
  (language : jsstring) :
  match generateSimpleResponse this intent priceData language with
  | Ok r =>
      (length (sr_text r) <= 300)%nat /\ hasPlaceholder (sr_text r) = false
  | Throw _ => lookup (responseTemplates this) language = None
  end
  /\ match generateEssentialResponse this intent priceData guidance language with
     | Ok r => (length (sr_text r) <= 300)%nat
     | Throw _ => lookup (responseTemplates this) language = None
     end.
Proof.
  unfold generateSimpleResponse, generateEssentialResponse.
  pose proof (generatePrimaryResponse_cases this intent priceData language) as Hp.
  destruct (generatePrimaryResponse this intent priceData language) as [p | e];
    cbn [bind]; [| split; exact Hp].
  destruct Hp as (template & variables & ->). split.
  - cbn [sr_text]. split; [apply ResponseProperties.formatForDisplay_length |].
    rewrite ResponseProperties.hasPlaceholder_holds.
    destruct (holds _) eqn:H; [| reflexivity].
    apply ResponseProperties.formatForDisplay_holds in H.
    rewrite <- ResponseProperties.hasPlaceholder_holds in H.
    rewrite ResponseProperties.fillTemplate_clean in H. discriminate.
  - unfold generateNegotiationResponse, templatesFor.
    destruct (NegotiationAssistant.counterOffers guidance) as [| o offers];
      cbn [bind sr_text];
      [apply ResponseProperties.formatForDisplay_length |].
    destruct (get (responseTemplates this) (keyText language)) as [t | name |]
      eqn:Hget; cbn [bind].
    2: { destruct (find _ _) as [offer |]; cbn [bind sr_text];
         [| apply ResponseProperties.formatForDisplay_length].
         destruct (NegotiationAssistant.price offer) as [z |];
           cbn [bind sr_text];
           [| apply ResponseProperties.formatForDisplay_length].
         destruct (z =? 0)%Z; cbn [bind sr_text];
           [apply ResponseProperties.formatForDisplay_length |].
         unfold get in Hget. cbn [keyText] in Hget.
         destruct (lookup (responseTemplates this) language);
           [discriminate | reflexivity]. }
    2: { unfold get in Hget. cbn [keyText] in Hget.
         destruct (lookup (responseTemplates this) language);
           [discriminate | reflexivity]. }
    destruct (find _ _) as [offer |]; cbn [bind sr_text];
      [| apply ResponseProperties.formatForDisplay_length].
    destruct (NegotiationAssistant.price offer) as [z |]; cbn [bind sr_text];
      [| apply ResponseProperties.formatForDisplay_length].
    destruct (z =? 0)%Z; cbn [bind sr_text];
      apply ResponseProperties.formatForDisplay_length.
Qed.

End DisplayProperties.
(** * The pipeline of [processVoiceInput] *)

Module PipelineProperties.
Import JS Data NegotiationAssistant ResponseGenerator Statement Braces.
Import LinguisticBridge.

Lemma generateGuidance_withoutRanges_fallback {host : Host}
  this intent priceData text :
  withoutRanges priceData = true ->
  let g := fst (generateGuidance this intent priceData text) in
  NegotiationAssistant.fallback g = true /\ g_confidence g = (3 # 10)%Q.
Proof.
  intros Hpd. cbv zeta. unfold generateGuidance, generateGuidance_try.
  destruct priceData as [[q | r] |]; try discriminate.
  - destruct (analyzeCustomerBehavior text intent) as [ca | e];
      cbn [bind catch rangesOf generateCounterOffers];
      apply GuidanceProperties.generateFallbackGuidance_confidence.
  - cbn [catch]. apply GuidanceProperties.generateFallbackGuidance_confidence.
Qed.

(** The response of the pipeline is the formatted response for the
    classified intent, the quote or [null], and a fallback guidance. *)
Lemma pipeline_shape {host : Host} bridge text u :
  let L := getLanguageCode (currentLanguage bridge) in
  let intent :=
    IntentClassifier.classifyIntent (intentClassifier bridge) text L in
  let priceData :=
    match type intent with
    | Some bargaining | Some bulk_purchase =>
        option_map OfQuote
          (PriceDiscoveryEngine.getMarketPrice (priceDiscoveryEngine bridge)
             (product intent) (category intent) u)
    | _ => None
    end in
  exists guidance processed,
    fst (processVoiceInput bridge text u)
    = formatResponse (responseGenerator bridge)
        {| ResponseGenerator.intent := intent;
           ResponseGenerator.priceData := priceData;
           negotiationGuidance := Some guidance;
           ResponseGenerator.originalText := text;
           processedText := processed |}
        L
    /\ counterOffers guidance = [placeholderOffer]
    /\ hd_error (customary (culturalContext guidance))
       = Some (lit "Allow time for customer consideration")
    /\ NegotiationAssistant.fallback guidance = true
    /\ g_confidence guidance = (3 # 10)%Q.
Proof.
  intros L intent priceData. unfold processVoiceInput.
  fold L. fold intent. fold priceData.
  set (processed := if negb _ then _ else _).
  assert (Hpd : withoutRanges priceData = true).
  { subst priceData. destruct (type intent) as [[| |] |]; try reflexivity;
      destruct (PriceDiscoveryEngine.getMarketPrice _ _ _ _); reflexivity. }
  pose proof (ResponseProperties.generateGuidance_withoutRanges
                (negotiationAssistant bridge) intent priceData processed Hpd)
    as Hg.
  pose proof (generateGuidance_withoutRanges_fallback
                (negotiationAssistant bridge) intent priceData processed Hpd)
    as Hf.
  cbv zeta in Hg, Hf.
  destruct (generateGuidance _ intent priceData processed) as [g a].
  cbn [fst] in *. exists g, processed.
  split; [reflexivity |]. tauto.
Qed.

Lemma formatResponse_language {host : Host} this data L :
  language (formatResponse this data L) = normalizeLanguage L.
Proof.
  unfold formatResponse, formatResponse_try.
  destruct (generatePrimaryResponse _ _ _ _) as [p | e]; cbn [bind catch];
    [| reflexivity].
  destruct (negotiationGuidance data) as [g |]; cbn [bind catch];
    [| reflexivity].
  destruct (generateNegotiationResponse _ _ _) as [n | e]; cbn [bind catch];
    [| reflexivity].
  destruct (responseText _) as [c | e]; cbn [bind catch]; reflexivity.
Qed.

(** X24.  The response is in Hindi when the page language is ['hi-IN'], in
    Kannada when it is ['kn-IN'], and in English for every other page
    language, the other twenty-nine languages of the page included. *)
Theorem response_language {host : Host} bridge text u :
  language (fst (processVoiceInput bridge text u))
  = if str_eqb (lit "hi-IN") (currentLanguage bridge) then lit "hindi"
    else if str_eqb (lit "kn-IN") (currentLanguage bridge) then lit "kannada"
    else lit "english".
Proof.
  destruct (pipeline_shape bridge text u) as (g & processed & -> & _).
  rewrite formatResponse_language.
  set (cur := currentLanguage bridge).
  destruct (str_eqb (lit "hi-IN") cur) eqn:E1.
  { apply LookupProperties.str_eqb_eq in E1. rewrite <- E1. reflexivity. }
  destruct (str_eqb (lit "kn-IN") cur) eqn:E2.
  { apply LookupProperties.str_eqb_eq in E2. rewrite <- E2. reflexivity. }
  unfold getLanguageCode, get.
  match goal with
  | |- context [lookup ?t cur] => destruct (lookup t cur) as [v |] eqn:Hl
  end;
    [| destruct (inherited cur);
       [apply ResponseProperties.normalizeLanguage_member | reflexivity]].
  apply DisplayProperties.lookup_key in Hl. destruct Hl as (k & Hin & Hk).
  cbn [TranslationEngine.pairs map fst snd] in Hin.
  repeat (destruct Hin as [Heq | Hin];
          [injection Heq as <- <-; try reflexivity; congruence |]).
  destruct Hin.
Qed.

(** X25.  With the response templates of the constructor, the pipeline never
    passes a counter-offer on: its guidance is always the fallback
    guidance, so the negotiation part of the response is empty and the
    confidence that the response reports is 0.3, whatever was said and
    whatever the price table holds. *)
Theorem pipeline_guidance_is_fallback {host : Host} bridge text u :
  responseGenerator bridge = ResponseGenerator.new ->
  let r := fst (processVoiceInput bridge text u) in
  ResponseGenerator.fallback r = false
  /\ m_confidence (metadata r) = (3 # 10)%Q
  /\ exists primary cultural, components r = Some (primary, [], cultural).
Proof.
  intros Hgen. cbv zeta.
  destruct (pipeline_shape bridge text u)
    as (g & processed & -> & Hoffers & Hcust & Hfb & Hconf).
  rewrite Hgen. unfold formatResponse, formatResponse_try.
  cbn [ResponseGenerator.intent ResponseGenerator.priceData negotiationGuidance].
  destruct (ResponseProperties.normalizeLanguage_getLanguageCode
              (currentLanguage bridge)) as (L & -> & HL).
  match goal with
  | |- context [generatePrimaryResponse _ ?i ?pd _] =>
      destruct (ResponseProperties.generatePrimaryResponse_fill L i pd HL)
        as [template [variables ->]]
  end.
  cbn [bind].
  rewrite (ResponseProperties.generateNegotiationResponse_placeholder L g HL Hoffers).
  destruct (ResponseProperties.culturalResponse_noClose L (culturalContext g)
              HL Hcust) as (C & -> & _).
  cbn [bind catch responseText ResponseGenerator.fallback metadata
       m_confidence components].
  split; [reflexivity |]. split; [exact Hconf |].
  eexists _, _. reflexivity.
Qed.

Lemma pipeline_guidance_is_fallback_witness :
  responseGenerator Dataset.sampleBridge = ResponseGenerator.new
  /\ let r := fst (processVoiceInput (host := asciiHost) Dataset.sampleBridge
                     (VString (lit "What is the price of 5 kg rice?"))
                     (1 # 2)%Q) in
     m_confidence (metadata r) = (3 # 10)%Q
     /\ hasPrice (metadata r) = true.
Proof.
  split; [reflexivity |]. cbv zeta. split.
  - apply (pipeline_guidance_is_fallback (host := asciiHost)
             Dataset.sampleBridge
             (VString (lit "What is the price of 5 kg rice?")) (1 # 2)%Q).
    reflexivity.
  - reflexivity.
Defined.

(** X26.  A response carries a price only if the utterance was classified as
    bargaining or as a bulk purchase and the price engine returned a quote:
    a casual inquiry is answered without a price even for a product of the
    price table. *)
Theorem price_only_for_trade_intents {host : Host} bridge text u :
  let L := getLanguageCode (currentLanguage bridge) in
  let intent :=
    IntentClassifier.classifyIntent (intentClassifier bridge) text L in
  hasPrice (metadata (fst (processVoiceInput bridge text u))) = true ->
  type intent <> Some casual_inquiry
  /\ PriceDiscoveryEngine.getMarketPrice (priceDiscoveryEngine bridge)
       (product intent) (category intent) u <> None.
Proof.
  intros L intent.
  destruct (pipeline_shape bridge text u) as (g & processed & -> & _).
  fold L. fold intent.
  unfold formatResponse, formatResponse_try.
  cbn [ResponseGenerator.intent ResponseGenerator.priceData negotiationGuidance].
  destruct (generatePrimaryResponse _ _ _ _) as [p | e]; cbn [bind catch];
    [| discriminate].
  destruct (generateNegotiationResponse _ _ _) as [n | e]; cbn [bind catch];
    [| discriminate].
  destruct (responseText _) as [c | e]; cbn [bind catch]; [| discriminate].
  cbn [metadata hasPrice].
  destruct (type intent) as [[| |] |]; try discriminate;
    (destruct (PriceDiscoveryEngine.getMarketPrice _ _ _ _);
     [intros _; split; discriminate | discriminate]).
Qed.

Lemma price_only_for_trade_intents_witness :
  let ask text :=
    hasPrice (metadata (fst (processVoiceInput (host := asciiHost)
                               Dataset.sampleBridge (VString (lit text))
                               (1 # 2)%Q))) in
  ask "What is the price of 5 kg rice?"%string = true
  /\ ask "do you have rice"%string = false
  /\ type (IntentClassifier.classifyIntent (host := asciiHost)
             IntentClassifier.new
             (VString (lit "What is the price of 5 kg rice?"))
             (lit "english"))
     <> Some casual_inquiry.
Proof.
  cbv zeta. split; [reflexivity |]. split; [reflexivity |].
  apply (price_only_for_trade_intents (host := asciiHost) Dataset.sampleBridge
           (VString (lit "What is the price of 5 kg rice?")) (1 # 2)%Q).
  reflexivity.
Defined.

End PipelineProperties.
(** * Scripts and seasons *)

Module ScriptProperties.
Import JS TranslatorMethods BridgeMethods.

Lemma countRuns_none p inRun s :
  existsb p s = false -> countRuns p inRun s = 0%nat.
Proof.
  revert inRun. induction s as [| c s IH]; intros inRun H; [reflexivity |].
  cbn in *. apply orb_false_iff in H. destruct H as [Hc Hs].
  rewrite Hc. apply IH. exact Hs.
Qed.

Lemma countRuns_some p s :
  existsb p s = true -> (0 < countRuns p false s)%nat.
Proof.
  induction s as [| c s IH]; cbn; [discriminate |].
  destruct (p c); cbn; [lia | exact IH].
Qed.

Lemma share_full (n : nat) :
  (0 < n)%nat ->
  Qle_bool (inject_Z (Z.of_nat n) / inject_Z (Z.of_nat n)) (7 # 10) = false.
Proof.
  intro Hn.
  assert (Hq : (0 < inject_Z (Z.of_nat n))%Q).
  { change 0%Q with (inject_Z 0). rewrite <- Zlt_Qlt. lia. }
  assert (H1 : (inject_Z (Z.of_nat n) / inject_Z (Z.of_nat n) == 1)%Q)
    by (field; lra).
  destruct (Qle_bool _ _) eqn:E; [| reflexivity].
  apply Qle_bool_iff in E. rewrite H1 in E. lra.
Qed.

Lemma share_none (q : Q) : Qle_bool (inject_Z (Z.of_nat 0) / q) (7 # 10) = true.
Proof.
  apply Qle_bool_iff. change (inject_Z (Z.of_nat 0)) with 0%Q.
  unfold Qdiv. rewrite Qmult_0_l. lra.
Qed.

Lemma countRuns_exists p s :
  if existsb p s then (0 < countRuns p false s)%nat
  else countRuns p false s = 0%nat.
Proof.
  destruct (existsb p s) eqn:E; [apply countRuns_some | apply countRuns_none];
    exact E.
Qed.

(** A text with a letter of one of the three scripts is not ['unknown']. *)
Lemma detectMixedLanguage_known text :
  (0 < countRuns isLatinLetter false text
       + countRuns isDevanagari false text
       + countRuns isKannada false text)%nat ->
  In (detectMixedLanguage text)
     [lit "english"; lit "hindi"; lit "kannada"; lit "mixed"].
Proof.
  intro H. unfold detectMixedLanguage.
  destruct (Nat.eqb_spec (countRuns isLatinLetter false text
                          + countRuns isDevanagari false text
                          + countRuns isKannada false text) 0) as [E | _];
    [lia |].
  repeat (destruct (Qle_bool _ _); cbn [negb]); cbn; tauto.
Qed.

(** X27.  A text whose letters all belong to one of the three scripts is
    reported as English, Hindi or Kannada accordingly; a text with no
    letter of the three scripts is reported as ['unknown'], and no other
    text is. *)
Theorem detectMixedLanguage_single_script text :
  match existsb isLatinLetter text, existsb isDevanagari text,
        existsb isKannada text with
  | false, false, false => detectMixedLanguage text = lit "unknown"
  | true, false, false => detectMixedLanguage text = lit "english"
  | false, true, false => detectMixedLanguage text = lit "hindi"
  | false, false, true => detectMixedLanguage text = lit "kannada"
  | _, _, _ =>
      In (detectMixedLanguage text)
         [lit "english"; lit "hindi"; lit "kannada"; lit "mixed"]
  end.
Proof.
  pose proof (countRuns_exists isLatinLetter text) as He.
  pose proof (countRuns_exists isDevanagari text) as Hd.
  pose proof (countRuns_exists isKannada text) as Hk.
  destruct (existsb isLatinLetter text), (existsb isDevanagari text),
    (existsb isKannada text);
    try (apply detectMixedLanguage_known; lia);
    unfold detectMixedLanguage.
  - (* Latin letters only *)
    rewrite Hd, Hk, !Nat.add_0_r.
    destruct (Nat.eqb_spec (countRuns isLatinLetter false text) 0); [lia |].
    rewrite (share_full _ He). reflexivity.
  - (* Devanagari only *)
    rewrite He, Hk, Nat.add_0_r. cbn [Nat.add].
    destruct (Nat.eqb_spec (countRuns isDevanagari false text) 0); [lia |].
    rewrite share_none, (share_full _ Hd). reflexivity.
  - (* Kannada only *)
    rewrite He, Hd. cbn [Nat.add].
    destruct (Nat.eqb_spec (countRuns isKannada false text) 0); [lia |].
    rewrite !share_none, (share_full _ Hk). reflexivity.
  - (* none of the three *)
    rewrite He, Hd, Hk. reflexivity.
Qed.

(** X28.  For each of the twelve months exactly one of the four season flags is
    set, except for March, for which none is. *)
Theorem getCurrentSeason_flags getMonth :
  (0 <= getMonth <= 11)%Z ->
  let season := getCurrentSeason getMonth in
  month season = (getMonth + 1)%Z
  /\ length (filter (fun flag : bool => flag)
               [isWinter season; isSummer season; isMonsoon season;
                isPostMonsoon season])
     = if (getMonth =? 2)%Z then 0%nat else 1%nat.
Proof.
  intros H season. split; [reflexivity |].
  assert (Hcases : In getMonth [0; 1; 2; 3; 4; 5; 6; 7; 8; 9; 10; 11]%Z).
  { cbn. lia. }
  subst season. cbn in Hcases.
  repeat (destruct Hcases as [<- | Hcases]; [reflexivity |]).
  contradiction.
Qed.

Lemma getCurrentSeason_flags_witness :
  (0 <= 2 <= 11)%Z
  /\ getCurrentSeason 2
     = {| month := 3; isWinter := false; isSummer := false;
          isMonsoon := false; isPostMonsoon := false |}
  /\ length (filter (fun flag : bool => flag)
               [isWinter (getCurrentSeason 2); isSummer (getCurrentSeason 2);
                isMonsoon (getCurrentSeason 2);
                isPostMonsoon (getCurrentSeason 2)])
     = 0%nat.
Proof.
  split; [lia |]. split; [reflexivity |].
  apply (getCurrentSeason_flags 2). lia.
Defined.

End ScriptProperties.
(** * Translations *)

Module TemplateProperties.
Import JS Data Regex TranslationEngine Statement Braces.

Lemma translation_fillTemplate_clean template intent :
  hasPlaceholder (fillTemplate template intent) = false.
Proof.
  unfold fillTemplate.
  rewrite ResponseProperties.hasPlaceholder_holds.
  destruct (holds _) eqn:H; [| reflexivity].
  apply ResponseProperties.holds_trim in H.
  rewrite <- ResponseProperties.hasPlaceholder_holds in H.
  rewrite ResponseProperties.removePlaceholders_clean in H. discriminate.
Qed.

Lemma template_translation_clean {host : Host}
  this text fromLang toLang intent t :
  translateUsingTemplates this text fromLang toLang intent = Ok (Some t) ->
  hasPlaceholder t = false.
Proof.
  unfold translateUsingTemplates.
  destruct intent as [intent |]; [| discriminate].
  destruct (asString text) as [s | e]; cbn [bind]; [| discriminate].
  destruct (get (tradePhrasesTemplates this) (keyText fromLang))
    as [templates | name |]; [| discriminate | discriminate].
  destruct (match lookup templates (typeKey intent) with
            | Some ts => Ok ts
            | None => match lookup templates (lit "price_inquiry") with
                      | Some ts => Ok ts
                      | None => Throw typeError
                      end
            end) as [intentTemplates | e]; cbn [bind]; [| discriminate].
  induction intentTemplates as [| template rest IH]; [discriminate |].
  destruct (testSegments (createPatternFromTemplate template) (trim (toLowerCase s)));
    [| exact IH].
  destruct (lookup (tradePhrasesTemplates this) (keyText toLang))
    as [targetTemplates |]; [| exact IH].
  destruct (lookup targetTemplates (typeKey intent)) as [[| target targets] |];
    [discriminate | | exact IH].
  intro H. injection H as <-. apply translation_fillTemplate_clean.
Qed.

Lemma translate_never_empty {host : Host}
  this text fromLanguage toLanguage intent :
  translate this text fromLanguage toLanguage intent = text
  \/ exists t,
       translate this text fromLanguage toLanguage intent = VString t
       /\ t <> [].
Proof.
  unfold translate, translate_try.
  destruct (tag_eqb fromLanguage toLanguage); [left; reflexivity |].
  destruct (translateUsingTemplates _ _ _ _ _) as [[[| c t] |] | e];
    cbn [bind catch]; try (left; reflexivity);
    try (right; eexists; split; [reflexivity | discriminate]).
  all: destruct (translateWords _ _ _ _) as [w | e]; cbn [bind catch];
    try (left; reflexivity);
    destruct (preserveNegotiationTone _ _ _ _) as [[| c t] | e];
    cbn [bind catch truthy]; try (left; reflexivity);
    right; eexists; split; [reflexivity | discriminate].
Qed.

(** X29.  [translate] never returns an empty translation: its result is the
    text that it was given, or a string that is not empty.  A translation
    made from a phrase template contains no placeholder: what the intent
    does not fill is removed. *)
Theorem translation_output {host : Host}
  this text fromLanguage toLanguage intent :
  (translate this text fromLanguage toLanguage intent = text
   \/ exists t,
        translate this text fromLanguage toLanguage intent = VString t
        /\ t <> [])
  /\ match translateUsingTemplates this text fromLanguage toLanguage intent with
     | Ok (Some t) => hasPlaceholder t = false
     | _ => True
     end.
Proof.
  split; [apply translate_never_empty |].
  destruct (translateUsingTemplates this text fromLanguage toLanguage intent)
    as [[t |] | e] eqn:E; try exact I.
  apply (template_translation_clean _ _ _ _ _ _ E).
Qed.

(** The request to reduce the price of rice, from English to Hindi. *)
Lemma template_translation_example :
  let text := VString (lit "Can you reduce the price of rice?") in
  let intent :=
    IntentClassifier.classifyIntent (host := asciiHost) IntentClassifier.new
      text (lit "english") in
  translateUsingTemplates (host := asciiHost) new text (lit "english")
    (lit "hindi") (Some intent)
  = Ok (Some (lit "rice ka daam kam kar sakte hain?"))
  /\ translate (host := asciiHost) new text (lit "english") (lit "hindi")
       (Some intent)
     = VString (lit "rice ka daam kam kar sakte hain?").
Proof. vm_compute. split; reflexivity. Qed.

End TemplateProperties.
(** * The cultural filter *)

Module CultureProperties.
Import JS Data Regex ResponseGenerator GeneratorMethods CulturalContextManager.









End CultureProperties.
